(** * Electricity demand prediction service

    A shallow embedding of the three predictors of the repository
    ([src/lib/model-predictor.py], [src/lib/advanced-model-predictor.py],
    [src/lib/model-predictor-simple.py]) and the properties of their
    region normaliser, model cache, seasonal synthesiser and prediction
    engine.

    Conventions of the embedding:
    - Python [int] is [Z]; Python [float] is idealised as a real number
      ([R]), so [np.sin] is [sin], [np.pi] is [PI] and [round(x, 2)] is
      rounding half to even of the exact value;
    - Python [str] is [string], a character being its code point (below 256);
    - a [datetime] is its proleptic Gregorian ordinal and the microseconds
      elapsed since midnight; the calendar functions follow CPython's
      [datetime] module;
    - what the process reads from its environment (the per-process string
      hash, the random generator, the clock, [strptime], the availability
      of optional libraries, the decoding of the command line and the
      encoding of the result) is gathered in a record [env]; the artifact
      store, the instance attributes and the counters of the clock and of
      the random generator are threaded through a state and exception
      monad. *)

From Stdlib Require Import ZArith Reals Lra Lia String Ascii List Bool DecimalString.
From stdpp Require Import gmap strings.
Import ListNotations.
Open Scope string_scope.
Open Scope Z_scope.

(** ** Python builtins *)

Module Py.

(** Exceptions raised by the code, each with the message [str(e)] gives. *)
Inductive exn : Type :=
| FileNotFoundError (msg : string)
| RuntimeError (msg : string)
| ValueError (msg : string)
| ImportError (msg : string)
| AttributeError (msg : string)
| OverflowError (msg : string)
| KeyError (msg : string)
| JSONDecodeError (msg : string)
| TypeError (msg : string)
| Exception (msg : string).

Definition str (e : exn) : string :=
  match e with
  | FileNotFoundError msg | RuntimeError msg | ValueError msg
  | ImportError msg | AttributeError msg | OverflowError msg
  | KeyError msg | JSONDecodeError msg | TypeError msg | Exception msg => msg
  end.

Definition ord (c : ascii) : Z := Z.of_N (N_of_ascii c).

Definition chr (n : Z) : ascii := ascii_of_N (Z.to_N n).

(** [c.lower()] on code points below 256: the ASCII capitals and the
    Latin-1 capitals (all of U+00C0..U+00DE but the multiplication sign). *)
Definition lower_char (c : ascii) : ascii :=
  let n := ord c in
  if ((65 <=? n) && (n <=? 90))
     || ((192 <=? n) && (n <=? 222) && negb (n =? 215))
  then chr (n + 32) else c.

Fixpoint lower (s : string) : string :=
  match s with
  | EmptyString => EmptyString
  | String c s' => String (lower_char c) (lower s')
  end.

Fixpoint endswith (s suffix : string) : bool :=
  if String.eqb s suffix then true
  else match s with
       | EmptyString => false
       | String _ s' => endswith s' suffix
       end.

(** [os.path.join(a, b)] of [posixpath]. *)
Definition path_join (a b : string) : string :=
  if String.prefix "/" b then b
  else if String.eqb a "" || endswith a "/" then a ++ b
  else a ++ "/" ++ b.

(** [range(start, stop, step)] as the list it iterates over. *)
Definition range (start stop step : Z) : list Z :=
  let n :=
    if 0 <? step then (stop - start + step - 1) / step
    else if step <? 0 then (start - stop - step - 1) / (- step)
    else 0 in
  map (fun k => start + Z.of_nat k * step) (seq 0 (Z.to_nat n)).

(** Rounding half to even to the nearest integer. *)
Definition round_half_even (x : R) : Z :=
  let f := Int_part x in
  let r := (x - IZR f)%R in
  if Rlt_dec r (1 / 2) then f
  else if Rlt_dec (1 / 2) r then f + 1
  else if Z.even f then f else f + 1.

(** [round(x, 2)]. *)
Definition round2 (x : R) : R :=
  (IZR (round_half_even (x * 100)) / 100)%R.

(** Decimal rendering of an [int], as an f-string does. *)
Definition str_int (n : Z) : string :=
  DecimalString.NilZero.string_of_int (Z.to_int n).

End Py.

(** ** The [datetime] module *)

Module Calendar.

Definition _MAXORDINAL : Z := 3652059.
Definition _DI400Y : Z := 146097.
Definition _DI100Y : Z := 36524.
Definition _DI4Y : Z := 1461.

Definition _DAYS_IN_MONTH (month : Z) : Z :=
  match month with
  | 1 => 31 | 2 => 28 | 3 => 31 | 4 => 30 | 5 => 31 | 6 => 30
  | 7 => 31 | 8 => 31 | 9 => 30 | 10 => 31 | 11 => 30 | 12 => 31
  | _ => -1
  end.

Definition _DAYS_BEFORE_MONTH (month : Z) : Z :=
  match month with
  | 1 => 0 | 2 => 31 | 3 => 59 | 4 => 90 | 5 => 120 | 6 => 151
  | 7 => 181 | 8 => 212 | 9 => 243 | 10 => 273 | 11 => 304 | 12 => 334
  | _ => -1
  end.

Definition _is_leap (year : Z) : bool :=
  (year mod 4 =? 0) && (negb (year mod 100 =? 0) || (year mod 400 =? 0)).

Definition _days_before_year (year : Z) : Z :=
  let y := year - 1 in
  y * 365 + y / 4 - y / 100 + y / 400.

Definition _days_before_month (year month : Z) : Z :=
  _DAYS_BEFORE_MONTH month + (if (2 <? month) && _is_leap year then 1 else 0).

Definition _ymd2ord (year month day : Z) : Z :=
  _days_before_year year + _days_before_month year month + day.

Definition _ord2ymd (n : Z) : Z * Z * Z :=
  let n := n - 1 in
  let n400 := n / _DI400Y in
  let n := n mod _DI400Y in
  let year := n400 * 400 + 1 in
  let n100 := n / _DI100Y in
  let n := n mod _DI100Y in
  let n4 := n / _DI4Y in
  let n := n mod _DI4Y in
  let n1 := n / 365 in
  let n := n mod 365 in
  let year := year + (n100 * 100 + n4 * 4 + n1) in
  if (n1 =? 4) || (n100 =? 4) then (year - 1, 12, 31)
  else
    let leapyear := (n1 =? 3) && (negb (n4 =? 24) || (n100 =? 3)) in
    let month := Z.shiftr (n + 50) 5 in
    let preceding :=
      _DAYS_BEFORE_MONTH month + (if (2 <? month) && leapyear then 1 else 0) in
    if n <? preceding then
      let month := month - 1 in
      let preceding :=
        preceding
        - (_DAYS_IN_MONTH month + (if (month =? 2) && leapyear then 1 else 0)) in
      (year, month, n - preceding + 1)
    else (year, month, n - preceding + 1).

(** A naive [datetime]: the day and the time of day. *)
Record datetime : Type := mkDatetime {
  toordinal : Z;
  microsecond_of_day : Z
}.

Definition year (d : datetime) : Z := fst (fst (_ord2ymd (toordinal d))).
Definition month (d : datetime) : Z := snd (fst (_ord2ymd (toordinal d))).
Definition day (d : datetime) : Z := snd (_ord2ymd (toordinal d)).

(** [d.weekday()], Monday being 0. *)
Definition weekday (d : datetime) : Z := (toordinal d + 6) mod 7.

(** [d.timetuple().tm_yday]. *)
Definition tm_yday (d : datetime) : Z :=
  _days_before_month (year d) (month d) + day d.

Definition _isoweek1monday (year : Z) : Z :=
  let THURSDAY := 3 in
  let firstday := _ymd2ord year 1 1 in
  let firstweekday := (firstday + 6) mod 7 in
  let week1monday := firstday - firstweekday in
  if THURSDAY <? firstweekday then week1monday + 7 else week1monday.

(** [d.isocalendar()]: ISO year, week and weekday. *)
Definition isocalendar (d : datetime) : Z * Z * Z :=
  let year := year d in
  let week1monday := _isoweek1monday year in
  let today := toordinal d in
  let week := (today - week1monday) / 7 in
  let day := (today - week1monday) mod 7 in
  if week <? 0 then
    let year := year - 1 in
    let week1monday := _isoweek1monday year in
    (year, (today - week1monday) / 7 + 1, (today - week1monday) mod 7 + 1)
  else if (52 <=? week) && (_isoweek1monday (year + 1) <=? today) then
    (year + 1, 1, day + 1)
  else (year, week + 1, day + 1).

(** [datetime(year, 1, 1)]. *)
Definition january_first (year : Z) : datetime :=
  {| toordinal := _ymd2ord year 1 1; microsecond_of_day := 0 |}.

(** [timedelta(days=i)], which bounds the magnitude of [i]. *)
Definition timedelta (days : Z) : Py.exn + Z :=
  if Z.abs days <=? 999999999 then inr days
  else inl (Py.OverflowError
              ("days=" ++ Py.str_int days ++ "; must have magnitude <= 999999999")).

(** [d + timedelta(days=i)] for an already built [timedelta]. *)
Definition add_days (d : datetime) (i : Z) : Py.exn + datetime :=
  let o := toordinal d + i in
  if (1 <=? o) && (o <=? _MAXORDINAL)
  then inr {| toordinal := o; microsecond_of_day := microsecond_of_day d |}
  else inl (Py.OverflowError "date value out of range").

Definition US_PER_DAY : Z := 86400000000.

(** [(a - b).days]: a [timedelta] is normalised with a time part in
    [0, 1 day), so its [days] is the floor of the difference. *)
Definition sub_days (a b : datetime) : Z :=
  ((toordinal a - toordinal b) * US_PER_DAY
   + (microsecond_of_day a - microsecond_of_day b)) / US_PER_DAY.

Fixpoint digits (width : nat) (n : Z) : string :=
  match width with
  | O => EmptyString
  | S w => digits w (n / 10) ++ String (Py.chr (48 + n mod 10)) EmptyString
  end.

(** [d.strftime('%Y-%m-%d')]. *)
Definition strftime (d : datetime) : string :=
  digits 4 (year d) ++ "-" ++ digits 2 (month d) ++ "-" ++ digits 2 (day d).

End Calendar.

(** ** Models, artifacts and the state of a process *)

(** What an artifact deserialises to: a Python string (the placeholder of
    the LSTM family is one), an object with a [predict] method, whose
    [predict(features)[0]] is a number or raises, or any other object. *)
Inductive Model : Type :=
| PyStr (s : string)
| Estimator (predict : list (list R) -> Py.exn + R)
| Opaque.

(** A file of the artifact store: [joblib.load] returns the model it
    holds, or raises. *)
Inductive Artifact : Type :=
| Pickled (m : Model)
| Damaged (msg : string).

(** What a run does to the store and to a loaded model, in order. *)
Inductive Event : Type :=
| Ev_exists (path : string)
| Ev_load (path : string)
| Ev_predict (features : list (list R)).

(** The state of a process: the artifact store, the attributes of the
    predictor instance ([self.models_dir], [self.loaded_models],
    [self.model_cache]), how many times the clock and the random generator
    have been used, and the events so far. *)
Record process : Type := mkProcess {
  storage : gmap string Artifact;
  models_dir : string;
  loaded_models : gmap string Model;
  model_cache : gmap string Model;
  clock_reads : nat;
  random_draws : nat;
  trace : list Event
}.

Record SeriesPoint : Type := mkPoint {
  date : string;
  usage : R
}.

(** The value under [features_used]: the nested list [features.tolist()]
    of the two classes, or the flat list of the simplified predictor. *)
Inductive Features : Type :=
| Rows (rows : list (list R))
| Row (row : list R).

(** The dict [predict] returns; [model_loaded] is a key of the advanced
    predictor only. *)
Record Prediction : Type := mkPrediction {
  predicted_usage : R;
  model_type : string;
  historical_data : list SeriesPoint;
  forecast_data : list SeriesPoint;
  features_used : Features;
  model_loaded : option bool
}.

(** The fields [main] reads from its JSON argument. *)
Record Request : Type := mkRequest {
  req_state : string;
  req_lat : R;
  req_lon : R;
  req_prediction_date : string;
  req_model_type : string
}.

(** What [main] prints on standard output with [print(json.dumps(...))]. *)
Inductive Output : Type :=
| Out_result (r : Prediction)
| Out_error (msg : string).

(** The environment of a process. [py_hash] is the builtin [hash] on
    strings, fixed for the life of the process; [normal_sample k loc scale]
    and [uniform_sample k] are draw number [k] of [np.random.normal] and
    [np.random.random]; [clock_reading k] is call number [k] of
    [datetime.now()]; [decode_request] is [json.loads] followed by the
    reading of the five fields; [json_dumps] is [json.dumps] on the dict
    [predict] returns, which raises [TypeError] when a number of the dict
    has a type the encoder does not know (a [numpy.float32], as the
    [predict] of an XGBoost model answers, is one; a Python [float] and a
    [numpy.float64] are not). Numbers being real numbers here, whether it
    raises is left to the environment. *)
Record env : Type := mkEnv {
  py_hash : string -> Z;
  normal_sample : nat -> R -> R -> R;
  uniform_sample : nat -> R;
  clock_reading : nat -> Calendar.datetime;
  strptime : string -> string -> Py.exn + Calendar.datetime;
  JOBLIB_AVAILABLE : bool;
  TENSORFLOW_AVAILABLE : bool;
  decode_request : string -> Py.exn + Request;
  json_dumps : Prediction -> Py.exn + string
}.

(** ** The state and exception monad *)

Definition M (A : Type) : Type := process -> (Py.exn + A) * process.

Definition ret {A : Type} (a : A) : M A := fun p => (inr a, p).

Definition raise {A : Type} (e : Py.exn) : M A := fun p => (inl e, p).

Definition bind {A B : Type} (m : M A) (k : A -> M B) : M B :=
  fun p =>
    match m p with
    | (inl e, p') => (inl e, p')
    | (inr a, p') => k a p'
    end.

Notation "'let*' x ':=' m 'in' k" := (bind m (fun x => k))
  (at level 10, x name, m at level 100, k at level 200).

(** [try: m  except Exception as e: h e]. *)
Definition try_except {A : Type} (m : M A) (h : Py.exn -> M A) : M A :=
  fun p =>
    match m p with
    | (inl e, p') => h e p'
    | (inr a, p') => (inr a, p')
    end.

Definition lift {A : Type} (r : Py.exn + A) : M A := fun p => (r, p).

(** [for x in l: ... out.append(body x)]. *)
Fixpoint for_each {A B : Type} (l : list A) (body : A -> M B) : M (list B) :=
  match l with
  | [] => ret []
  | x :: l' =>
      let* y := body x in
      let* ys := for_each l' body in
      ret (y :: ys)
  end.

Definition log (ev : Event) (p : process) : process :=
  {| storage := storage p; models_dir := models_dir p;
     loaded_models := loaded_models p; model_cache := model_cache p;
     clock_reads := clock_reads p; random_draws := random_draws p;
     trace := trace p ++ [ev] |}.

Definition set_model_cache (c : gmap string Model) (p : process) : process :=
  {| storage := storage p; models_dir := models_dir p;
     loaded_models := loaded_models p; model_cache := c;
     clock_reads := clock_reads p; random_draws := random_draws p;
     trace := trace p |}.

Definition set_loaded_models (c : gmap string Model) (p : process) : process :=
  {| storage := storage p; models_dir := models_dir p;
     loaded_models := c; model_cache := model_cache p;
     clock_reads := clock_reads p; random_draws := random_draws p;
     trace := trace p |}.

Definition tick_clock (p : process) : process :=
  {| storage := storage p; models_dir := models_dir p;
     loaded_models := loaded_models p; model_cache := model_cache p;
     clock_reads := S (clock_reads p); random_draws := random_draws p;
     trace := trace p |}.

Definition tick_random (p : process) : process :=
  {| storage := storage p; models_dir := models_dir p;
     loaded_models := loaded_models p; model_cache := model_cache p;
     clock_reads := clock_reads p; random_draws := S (random_draws p);
     trace := trace p |}.

(** The artifact store seen from outside the process: a file is removed,
    or written. *)
Definition set_storage (s : gmap string Artifact) (p : process) : process :=
  {| storage := s; models_dir := models_dir p;
     loaded_models := loaded_models p; model_cache := model_cache p;
     clock_reads := clock_reads p; random_draws := random_draws p;
     trace := trace p |}.

(** [os.path.exists(path)]. *)
Definition os_path_exists (path : string) : M bool :=
  fun p =>
    (inr (match storage p !! path with Some _ => true | None => false end),
     log (Ev_exists path) p).

(** [joblib.load(path)]. *)
Definition joblib_load (path : string) : M Model :=
  fun p =>
    match storage p !! path with
    | Some (Pickled m) => (inr m, log (Ev_load path) p)
    | Some (Damaged msg) => (inl (Py.Exception msg), log (Ev_load path) p)
    | None =>
        (inl (Py.FileNotFoundError
                ("[Errno 2] No such file or directory: '" ++ path ++ "'")),
         log (Ev_load path) p)
    end.

(** [hasattr(model, 'predict')]. *)
Definition hasattr_predict (model : Model) : bool :=
  match model with
  | Estimator _ => true
  | _ => false
  end.

(** [model.predict(features)[0]]. *)
Definition model_predict (model : Model) (features : list (list R)) : M R :=
  fun p =>
    match model with
    | Estimator predict => (predict features, log (Ev_predict features) p)
    | PyStr _ =>
        (inl (Py.AttributeError "'str' object has no attribute 'predict'"), p)
    | Opaque =>
        (inl (Py.AttributeError "object has no attribute 'predict'"), p)
    end.

Section Effects.
Context (E : env).

(** [datetime.now()]. *)
Definition datetime_now : M Calendar.datetime :=
  fun p => (inr (clock_reading E (clock_reads p)), tick_clock p).

(** [np.random.normal(loc, scale)]. *)
Definition np_random_normal (loc scale : R) : M R :=
  fun p => (inr (normal_sample E (random_draws p) loc scale), tick_random p).

(** [np.random.random()]. *)
Definition np_random_random : M R :=
  fun p => (inr (uniform_sample E (random_draws p)), tick_random p).

(** [datetime.strptime(s, format)]. *)
Definition datetime_strptime (s format : string) : M Calendar.datetime :=
  lift (strptime E s format).

(** [d + timedelta(days=i)] and [d - timedelta(days=i)]. *)
Definition plus_timedelta (d : Calendar.datetime) (i : Z) : M Calendar.datetime :=
  let* delta := lift (Calendar.timedelta i) in
  lift (Calendar.add_days d delta).

Definition minus_timedelta (d : Calendar.datetime) (i : Z) : M Calendar.datetime :=
  let* delta := lift (Calendar.timedelta i) in
  lift (Calendar.add_days d (- delta)).

End Effects.

(** ** [model-predictor.py]: class [ModelPredictor] *)

Module ModelPredictor.
Section Methods.
Context (E : env).

(** [ModelPredictor(models_dir)]: the attributes [__init__] sets. *)
Definition __init__ (dir : string) (p : process) : process :=
  {| storage := storage p; models_dir := dir;
     loaded_models := ∅; model_cache := ∅;
     clock_reads := clock_reads p; random_draws := random_draws p;
     trace := trace p |}.

Definition state_mapping : gmap string string :=
  list_to_map
    [("Dadra & Nagar Haveli (DNH)", "DNH");
     ("Himachal Pradesh (HP)", "HP");
     ("Jammu & Kashmir (J&K)", "J&K");
     ("Madhya Pradesh (MP)", "MP");
     ("Puducherry (Pondy)", "Pondy");
     ("Uttar Pradesh (UP)", "UP")].

(** [state_mapping.get(state, state)]. *)
Definition model_state (state : string) : string :=
  default state (state_mapping !! state).

Definition _get_model_path (state model_type : string) : M string :=
  fun p =>
    let model_state := model_state state in
    if String.eqb model_type "LSTM" then
      (inr (Py.path_join (models_dir p) (model_state ++ "_lstm_model.h5")), p)
    else
      (inr (Py.path_join (models_dir p)
              (model_state ++ "_" ++ Py.lower model_type ++ "_model.joblib")), p).

Definition _load_model (state model_type : string) : M Model :=
  let* model_path := _get_model_path state model_type in
  let* found := os_path_exists model_path in
  if negb found then
    raise (Py.FileNotFoundError ("Model not found: " ++ model_path))
  else
    let cache_key := state ++ "_" ++ model_type in
    fun p =>
      match model_cache p !! cache_key with
      | Some model => (inr model, p)
      | None =>
          try_except
            (let* model :=
               if String.eqb model_type "LSTM" then
                 ret (PyStr ("LSTM_MODEL_" ++ state))
               else joblib_load model_path in
             fun p' =>
               (inr model,
                set_model_cache (<[cache_key := model]> (model_cache p')) p'))
            (fun e =>
               raise (Py.RuntimeError
                        ("Failed to load model " ++ model_path ++ ": "
                         ++ Py.str e)))
            p
      end.

Definition _prepare_features (state : string) (lat lon : R)
    (prediction_date model_type : string) : M (list (list R)) :=
  let* pred_date := datetime_strptime E prediction_date "%Y-%m-%d" in
  let features :=
    [IZR (Calendar.year pred_date);
     IZR (Calendar.month pred_date);
     IZR (Calendar.day pred_date);
     IZR (Calendar.weekday pred_date);
     IZR (Calendar.tm_yday pred_date)] in
  let features := (features ++ [lat; lon])%list in
  let features :=
    (features ++
     [sin (2 * PI * IZR (Calendar.tm_yday pred_date) / 365.25)%R;
      cos (2 * PI * IZR (Calendar.tm_yday pred_date) / 365.25)%R;
      sin (2 * PI * IZR (Calendar.month pred_date) / 12)%R;
      cos (2 * PI * IZR (Calendar.month pred_date) / 12)%R])%list in
  let state_hash := py_hash E state mod 1000 in
  let features := (features ++ [IZR state_hash])%list in
  ret [features].

Definition _generate_historical_data (state : string) (days : Z)
    : M (list SeriesPoint) :=
  let* today := datetime_now E in
  let state_seed := py_hash E state mod 1000 in
  let base_usage := 100 + state_seed mod 50 in
  for_each (Py.range days 0 (-1)) (fun i =>
    let* date := minus_timedelta today i in
    let day_of_year := Calendar.tm_yday date in
    let seasonality := (20 * sin (2 * PI * IZR day_of_year / 365.25))%R in
    let trend := (IZR i * 0.1)%R in
    let* noise := np_random_normal E 0 5 in
    let usage := (IZR base_usage + trend + seasonality + noise)%R in
    let usage := Rmax 0 usage in
    ret {| date := Calendar.strftime date; usage := Py.round2 usage |}).

Definition _generate_forecast_data (state prediction_date : string)
    (days_ahead : Z) : M (list SeriesPoint) :=
  let* pred_date := datetime_strptime E prediction_date "%Y-%m-%d" in
  let state_seed := py_hash E state mod 1000 in
  let base_usage := 100 + state_seed mod 50 in
  for_each (Py.range 1 (days_ahead + 1) 1) (fun i =>
    let* date := plus_timedelta pred_date i in
    let day_of_year := Calendar.tm_yday date in
    let seasonality := (20 * sin (2 * PI * IZR day_of_year / 365.25))%R in
    let trend := (IZR i * 0.1)%R in
    let* noise := np_random_normal E 0 3 in
    let usage := (IZR base_usage + trend + seasonality + noise)%R in
    let usage := Rmax 0 usage in
    ret {| date := Calendar.strftime date; usage := Py.round2 usage |}).

Definition predict (state : string) (lat lon : R)
    (prediction_date model_type : string) : M Prediction :=
  try_except
    (let* model := _load_model state model_type in
     let* features :=
       _prepare_features state lat lon prediction_date model_type in
     let* predicted_usage :=
       if String.eqb model_type "ARIMA" then
         let state_seed := py_hash E state mod 1000 in
         let base_usage := 100 + state_seed mod 50 in
         let* pred_date := datetime_strptime E prediction_date "%Y-%m-%d" in
         let day_of_year := Calendar.tm_yday pred_date in
         let seasonality := (20 * sin (2 * PI * IZR day_of_year / 365.25))%R in
         let trend := 0.1%R in
         let* noise := np_random_normal E 0 5 in
         let predicted_usage :=
           (IZR base_usage + trend + seasonality + noise)%R in
         ret (Rmax 0 predicted_usage)
       else if String.eqb model_type "XGBoost" then
         try_except
           (let* predicted_usage := model_predict model features in
            ret (Rmax 0 predicted_usage))
           (fun _ =>
              let state_seed := py_hash E state mod 1000 in
              let base_usage := 100 + state_seed mod 50 in
              let* noise := np_random_normal E 0 10 in
              let predicted_usage := (IZR base_usage + noise)%R in
              ret (Rmax 0 predicted_usage))
       else if String.eqb model_type "LSTM" then
         let state_seed := py_hash E state mod 1000 in
         let base_usage := 100 + state_seed mod 50 in
         let* pred_date := datetime_strptime E prediction_date "%Y-%m-%d" in
         let day_of_year := Calendar.tm_yday pred_date in
         let seasonality := (20 * sin (2 * PI * IZR day_of_year / 365.25))%R in
         let trend := 0.1%R in
         let* noise := np_random_normal E 0 3 in
         let predicted_usage :=
           (IZR base_usage + trend + seasonality + noise)%R in
         ret (Rmax 0 predicted_usage)
       else if String.eqb model_type "Prophet" then
         let state_seed := py_hash E state mod 1000 in
         let base_usage := 100 + state_seed mod 50 in
         let* pred_date := datetime_strptime E prediction_date "%Y-%m-%d" in
         let day_of_year := Calendar.tm_yday pred_date in
         let seasonality := (20 * sin (2 * PI * IZR day_of_year / 365.25))%R in
         let trend := 0.1%R in
         let* noise := np_random_normal E 0 4 in
         let predicted_usage :=
           (IZR base_usage + trend + seasonality + noise)%R in
         ret (Rmax 0 predicted_usage)
       else raise (Py.ValueError ("Unsupported model type: " ++ model_type)) in
     let* historical_data := _generate_historical_data state 90 in
     let* target := datetime_strptime E prediction_date "%Y-%m-%d" in
     let* now := datetime_now E in
     let days_ahead := Calendar.sub_days target now in
     let* forecast_data :=
       _generate_forecast_data state prediction_date (Z.max 1 days_ahead) in
     ret {| predicted_usage := Py.round2 predicted_usage;
            model_type := model_type;
            historical_data := historical_data;
            forecast_data := forecast_data;
            features_used := Rows features;
            model_loaded := None |})
    (fun e => raise (Py.RuntimeError ("Prediction failed: " ++ Py.str e))).

(** The loop of [get_available_models], which keeps the families whose
    artifact exists. *)
Fixpoint available_among (state : string) (families : list string)
    : M (list string) :=
  match families with
  | [] => ret []
  | model_type :: rest =>
      let* model_path := _get_model_path state model_type in
      let* found := os_path_exists model_path in
      let* others := available_among state rest in
      ret (if found then model_type :: others else others)
  end.

Definition get_available_models (state : string) : M (list string) :=
  available_among state ["ARIMA"; "XGBoost"; "LSTM"; "Prophet"].

End Methods.
End ModelPredictor.

(** ** [advanced-model-predictor.py]: class [AdvancedModelPredictor] *)

Module AdvancedModelPredictor.
Section Methods.
Context (E : env).

(** [AdvancedModelPredictor(models_dir)]: [__init__] sets [models_dir] and
    [loaded_models] only. *)
Definition __init__ (dir : string) (p : process) : process :=
  {| storage := storage p; models_dir := dir;
     loaded_models := ∅; model_cache := model_cache p;
     clock_reads := clock_reads p; random_draws := random_draws p;
     trace := trace p |}.

Definition state_mapping : gmap string string :=
  list_to_map
    [("Dadra & Nagar Haveli (DNH)", "DNH");
     ("Himachal Pradesh (HP)", "HP");
     ("Jammu & Kashmir (J&K)", "J&K");
     ("Madhya Pradesh (MP)", "MP");
     ("Puducherry (Pondy)", "Pondy");
     ("Uttar Pradesh (UP)", "UP")].

Definition model_state (state : string) : string :=
  default state (state_mapping !! state).

Definition _get_model_path (state model_type : string) : M string :=
  fun p =>
    let model_state := model_state state in
    if String.eqb model_type "LSTM" then
      (inr (Py.path_join (models_dir p) (model_state ++ "_lstm_model.h5")), p)
    else
      (inr (Py.path_join (models_dir p)
              (model_state ++ "_" ++ Py.lower model_type ++ "_model.joblib")), p).

Definition _load_model (state model_type : string) : M Model :=
  let* model_path := _get_model_path state model_type in
  let* found := os_path_exists model_path in
  if negb found then
    raise (Py.FileNotFoundError ("Model not found: " ++ model_path))
  else
    let cache_key := state ++ "_" ++ model_type in
    fun p =>
      match loaded_models p !! cache_key with
      | Some model => (inr model, p)
      | None =>
          try_except
            (let* model :=
               if String.eqb model_type "LSTM" then
                 if negb (TENSORFLOW_AVAILABLE E) then
                   raise (Py.ImportError
                            "TensorFlow not available for LSTM models")
                 else ret (PyStr ("LSTM_MODEL_" ++ state))
               else
                 if negb (JOBLIB_AVAILABLE E) then
                   raise (Py.ImportError
                            "joblib not available for model loading")
                 else joblib_load model_path in
             fun p' =>
               (inr model,
                set_loaded_models
                  (<[cache_key := model]> (loaded_models p')) p'))
            (fun e =>
               raise (Py.RuntimeError
                        ("Failed to load model " ++ model_path ++ ": "
                         ++ Py.str e)))
            p
      end.

Definition _prepare_features (state : string) (lat lon : R)
    (prediction_date model_type : string) : M (list (list R)) :=
  let* pred_date := datetime_strptime E prediction_date "%Y-%m-%d" in
  let features :=
    [IZR (Calendar.year pred_date);
     IZR (Calendar.month pred_date);
     IZR (Calendar.day pred_date);
     IZR (Calendar.weekday pred_date);
     IZR (Calendar.tm_yday pred_date)] in
  let features := (features ++ [lat; lon])%list in
  let features :=
    (features ++
     [sin (2 * PI * IZR (Calendar.tm_yday pred_date) / 365.25)%R;
      cos (2 * PI * IZR (Calendar.tm_yday pred_date) / 365.25)%R;
      sin (2 * PI * IZR (Calendar.month pred_date) / 12)%R;
      cos (2 * PI * IZR (Calendar.month pred_date) / 12)%R])%list in
  let state_hash := py_hash E state mod 1000 in
  let features := (features ++ [IZR state_hash])%list in
  let features :=
    (features ++
     [IZR (snd (fst (Calendar.isocalendar pred_date)));
      IZR (snd (Calendar.isocalendar pred_date));
      IZR (Calendar.sub_days pred_date
             (Calendar.january_first (Calendar.year pred_date)))])%list in
  ret [features].

Definition _generate_historical_data (state : string) (days : Z)
    : M (list SeriesPoint) :=
  let* today := datetime_now E in
  let state_seed := py_hash E state mod 1000 in
  let base_usage := 100 + state_seed mod 50 in
  for_each (Py.range days 0 (-1)) (fun i =>
    let* date := minus_timedelta today i in
    let day_of_year := Calendar.tm_yday date in
    let seasonality := (20 * sin (2 * PI * IZR day_of_year / 365.25))%R in
    let trend := (IZR i * 0.1)%R in
    let* noise := np_random_normal E 0 5 in
    let usage := (IZR base_usage + trend + seasonality + noise)%R in
    let usage := Rmax 0 (Py.round2 usage) in
    ret {| date := Calendar.strftime date; usage := usage |}).

Definition _generate_forecast_data (state prediction_date : string)
    (days_ahead : Z) : M (list SeriesPoint) :=
  let* pred_date := datetime_strptime E prediction_date "%Y-%m-%d" in
  let state_seed := py_hash E state mod 1000 in
  let base_usage := 100 + state_seed mod 50 in
  for_each (Py.range 1 (days_ahead + 1) 1) (fun i =>
    let* date := plus_timedelta pred_date i in
    let day_of_year := Calendar.tm_yday date in
    let seasonality := (20 * sin (2 * PI * IZR day_of_year / 365.25))%R in
    let trend := (IZR i * 0.1)%R in
    let* noise := np_random_normal E 0 3 in
    let usage := (IZR base_usage + trend + seasonality + noise)%R in
    let usage := Rmax 0 (Py.round2 usage) in
    ret {| date := Calendar.strftime date; usage := usage |}).

Definition predict (state : string) (lat lon : R)
    (prediction_date model_type : string) : M Prediction :=
  try_except
    (let* model := _load_model state model_type in
     let* features :=
       _prepare_features state lat lon prediction_date model_type in
     let* predicted_usage :=
       if String.eqb model_type "ARIMA" then
         let state_seed := py_hash E state mod 1000 in
         let base_usage := 100 + state_seed mod 50 in
         let* pred_date := datetime_strptime E prediction_date "%Y-%m-%d" in
         let day_of_year := Calendar.tm_yday pred_date in
         let seasonality := (20 * sin (2 * PI * IZR day_of_year / 365.25))%R in
         let trend := 0.1%R in
         let* noise := np_random_normal E 0 5 in
         let predicted_usage :=
           (IZR base_usage + trend + seasonality + noise)%R in
         ret (Rmax 0 (Py.round2 predicted_usage))
       else if String.eqb model_type "XGBoost" then
         try_except
           (if hasattr_predict model then
              let* predicted_usage := model_predict model features in
              ret (Rmax 0 (Py.round2 predicted_usage))
            else
              raise (Py.AttributeError "Model does not have predict method"))
           (fun e =>
              let state_seed := py_hash E state mod 1000 in
              let base_usage := 100 + state_seed mod 50 in
              let* noise := np_random_normal E 0 10 in
              let predicted_usage := (IZR base_usage + noise)%R in
              ret (Rmax 0 (Py.round2 predicted_usage)))
       else if String.eqb model_type "LSTM" then
         let state_seed := py_hash E state mod 1000 in
         let base_usage := 100 + state_seed mod 50 in
         let* pred_date := datetime_strptime E prediction_date "%Y-%m-%d" in
         let day_of_year := Calendar.tm_yday pred_date in
         let seasonality := (20 * sin (2 * PI * IZR day_of_year / 365.25))%R in
         let trend := 0.1%R in
         let* noise := np_random_normal E 0 3 in
         let predicted_usage :=
           (IZR base_usage + trend + seasonality + noise)%R in
         ret (Rmax 0 (Py.round2 predicted_usage))
       else if String.eqb model_type "Prophet" then
         let state_seed := py_hash E state mod 1000 in
         let base_usage := 100 + state_seed mod 50 in
         let* pred_date := datetime_strptime E prediction_date "%Y-%m-%d" in
         let day_of_year := Calendar.tm_yday pred_date in
         let seasonality := (20 * sin (2 * PI * IZR day_of_year / 365.25))%R in
         let trend := 0.1%R in
         let* noise := np_random_normal E 0 4 in
         let predicted_usage :=
           (IZR base_usage + trend + seasonality + noise)%R in
         ret (Rmax 0 (Py.round2 predicted_usage))
       else raise (Py.ValueError ("Unsupported model type: " ++ model_type)) in
     let* historical_data := _generate_historical_data state 90 in
     let* target := datetime_strptime E prediction_date "%Y-%m-%d" in
     let* now := datetime_now E in
     let days_ahead := Calendar.sub_days target now in
     let* forecast_data :=
       _generate_forecast_data state prediction_date (Z.max 1 days_ahead) in
     ret {| predicted_usage := predicted_usage;
            model_type := model_type;
            historical_data := historical_data;
            forecast_data := forecast_data;
            features_used := Rows features;
            model_loaded := Some true |})
    (fun e => raise (Py.RuntimeError ("Prediction failed: " ++ Py.str e))).

Fixpoint available_among (state : string) (families : list string)
    : M (list string) :=
  match families with
  | [] => ret []
  | model_type :: rest =>
      let* model_path := _get_model_path state model_type in
      let* found := os_path_exists model_path in
      let* others := available_among state rest in
      ret (if found then model_type :: others else others)
  end.

Definition get_available_models (state : string) : M (list string) :=
  available_among state ["ARIMA"; "XGBoost"; "LSTM"; "Prophet"].

(** [main()], given [sys.argv]: what it prints on standard output and
    the exit code of the process. [print(json.dumps(result))] is inside
    the [try]: when the encoder raises, nothing has been printed yet and
    the handler prints the error. [Out_result r] stands for the text that
    encodes [r]. *)
Definition main (argv : list string) (p : process)
    : list Output * Z * process :=
  match argv with
  | [_; arg] =>
      let run :=
        let* input_data := lift (decode_request E arg) in
        let* _ := fun p => (inr tt, __init__ "models" p) in
        let* result :=
          predict (req_state input_data) (req_lat input_data)
            (req_lon input_data) (req_prediction_date input_data)
            (req_model_type input_data) in
        let* _ := lift (json_dumps E result) in
        ret result in
      match run p with
      | (inr result, p') => ([Out_result result], 0, p')
      | (inl e, p') => ([Out_error (Py.str e)], 1, p')
      end
  | _ => ([Out_error "Invalid arguments"], 1, p)
  end.

End Methods.
End AdvancedModelPredictor.

(** ** [model-predictor-simple.py] *)

Module Simple.

Definition hash_string (s : string) : Z :=
  let fix loop (s : string) (hash_val : Z) : Z :=
    match s with
    | EmptyString => hash_val
    | String char s' =>
        let hash_val := (Z.shiftl hash_val 5 - hash_val) + Py.ord char in
        let hash_val := Z.land hash_val hash_val in
        loop s' hash_val
    end in
  Z.abs (loop s 0).

Section Functions.
Context (E : env).

Definition model_adjustments : gmap string Z :=
  list_to_map [("ARIMA", 0); ("XGBoost", 5); ("LSTM", -2); ("Prophet", 3)].

Definition generate_prediction (state : string) (lat lon : R)
    (prediction_date model_type : string) : M Prediction :=
  let* pred_date := datetime_strptime E prediction_date "%Y-%m-%d" in
  let* today := datetime_now E in
  let days_ahead := Calendar.sub_days pred_date today in
  let state_seed := hash_string state in
  let base_usage := 100 + state_seed mod 50 in
  let day_of_year := Calendar.tm_yday pred_date in
  let month := Calendar.month pred_date in
  let day_of_week := Calendar.weekday pred_date in
  let seasonality := (20 * sin (2 * PI * IZR day_of_year / 365.25))%R in
  let monthly_pattern := (10 * sin (2 * PI * IZR month / 12))%R in
  let weekly_pattern := (5 * sin (2 * PI * IZR day_of_week / 7))%R in
  let lat_adjustment := ((lat - 20) * 0.5)%R in
  let lon_adjustment := ((lon - 78) * 0.3)%R in
  let model_adjustment := default 0 (model_adjustments !! model_type) in
  let* u := np_random_random E in
  let predicted_usage :=
    (IZR base_usage + seasonality + monthly_pattern + weekly_pattern
     + lat_adjustment + lon_adjustment + IZR model_adjustment
     + (u - 0.5) * 10)%R in
  let predicted_usage := Rmax 0 (Py.round2 (predicted_usage + 300)) in
  let* historical_data :=
    for_each (Py.range 90 0 (-1)) (fun i =>
      let* date := minus_timedelta today i in
      let day_of_year_hist := Calendar.tm_yday date in
      let seasonality_hist :=
        (20 * sin (2 * PI * IZR day_of_year_hist / 365.25))%R in
      let trend := (IZR (90 - i) * 0.1)%R in
      let* u := np_random_random E in
      let noise := ((u - 0.5) * 10)%R in
      let usage := (IZR base_usage + trend + seasonality_hist + noise)%R in
      let usage := Rmax 0 (Py.round2 (usage + 300)) in
      ret {| date := Calendar.strftime date; usage := usage |}) in
  let* forecast_data :=
    for_each (Py.range 1 (Z.max 1 days_ahead + 1) 1) (fun i =>
      let* date := plus_timedelta pred_date i in
      let day_of_year_forecast := Calendar.tm_yday date in
      let seasonality_forecast :=
        (20 * sin (2 * PI * IZR day_of_year_forecast / 365.25))%R in
      let trend_forecast := (IZR i * 0.1)%R in
      let* u := np_random_random E in
      let noise_forecast := ((u - 0.5) * 5)%R in
      let usage :=
        (IZR base_usage + trend_forecast + seasonality_forecast
         + noise_forecast)%R in
      let usage := Rmax 0 (Py.round2 (usage + 300)) in
      ret {| date := Calendar.strftime date; usage := usage |}) in
  ret {| predicted_usage := predicted_usage;
         model_type := model_type;
         historical_data := historical_data;
         forecast_data := forecast_data;
         features_used :=
           Row [IZR (Calendar.year pred_date); IZR month;
                IZR (Calendar.day pred_date); IZR day_of_week;
                IZR day_of_year; lat; lon];
         model_loaded := None |}.

Definition main (argv : list string) (p : process)
    : list Output * Z * process :=
  match argv with
  | [_; arg] =>
      let run :=
        let* input_data := lift (decode_request E arg) in
        generate_prediction (req_state input_data) (req_lat input_data)
          (req_lon input_data) (req_prediction_date input_data)
          (req_model_type input_data) in
      match run p with
      | (inr result, p') => ([Out_result result], 0, p')
      | (inl (Py.JSONDecodeError msg), p') =>
          ([Out_error ("JSON decode error: " ++ msg)], 1, p')
      | (inl e, p') => ([Out_error (Py.str e)], 1, p')
      end
  | _ => ([Out_error "Invalid arguments"], 1, p)
  end.

End Functions.
End Simple.

(** ** Vocabulary of the statements *)

(** The process after [n] more draws of the random generator. *)
Definition advance (n : nat) (p : process) : process :=
  Nat.iter n tick_random p.

(** The day [i] days away from [d]. *)
Definition shifted (d : Calendar.datetime) (i : Z) : Calendar.datetime :=
  Calendar.mkDatetime (Calendar.toordinal d + i) (Calendar.microsecond_of_day d).

(** The seasonal term of a day. *)
Definition seasonal (d : Calendar.datetime) : R :=
  (20 * sin (2 * PI * IZR (Calendar.tm_yday d) / 365.25))%R.

(** The path both classes compute for a region and a family. *)
Definition artifact_path (dir state model_type : string) : string :=
  if String.eqb model_type "LSTM" then
    Py.path_join dir (ModelPredictor.model_state state ++ "_lstm_model.h5")
  else
    Py.path_join dir
      (ModelPredictor.model_state state ++ "_" ++ Py.lower model_type
       ++ "_model.joblib").

(** The key both classes cache a model under. *)
Definition cache_key (state model_type : string) : string :=
  state ++ "_" ++ model_type.

(** The base usage of a region. *)
Definition base_usage_of (E : env) (state : string) : Z :=
  100 + (py_hash E state mod 1000) mod 50.

(** The point prediction the three synthetic families compute, before
    rounding: draw number [k] of the generator, of scale [scale]. *)
Definition synthetic_point (E : env) (state : string)
    (target : Calendar.datetime) (scale : R) (k : nat) : R :=
  Rmax 0 (IZR (base_usage_of E state) + 0.1 + seasonal target
          + normal_sample E k 0 scale)%R.

(** The noise scale of a synthetic family. *)
Definition noise_scale (model_type : string) : R :=
  if String.eqb model_type "ARIMA" then 5%R
  else if String.eqb model_type "LSTM" then 3%R
  else 4%R.

(** The fallback of the XGBoost family, before rounding. *)
Definition fallback_point (E : env) (state : string) (k : nat) : R :=
  Rmax 0 (IZR (base_usage_of E state) + normal_sample E k 0 10)%R.

(** How the point prediction of a family comes about, from the process
    [p1] that has loaded [model] to the process [p2]. *)
Definition point_outcome (E : env) (state model_type : string)
    (model : Model) (features : list (list R)) (target : Calendar.datetime)
    (p1 : process) (u : R) (p2 : process) : Prop :=
  (model_type = "ARIMA"
   /\ u = synthetic_point E state target 5 (random_draws p1)
   /\ p2 = tick_random p1)
  \/ (model_type = "LSTM"
      /\ u = synthetic_point E state target 3 (random_draws p1)
      /\ p2 = tick_random p1)
  \/ (model_type = "Prophet"
      /\ u = synthetic_point E state target 4 (random_draws p1)
      /\ p2 = tick_random p1)
  \/ (model_type = "XGBoost"
      /\ ((exists y, model_predict model features p1 = (inr y, p2)
                     /\ u = Rmax 0 y)
          \/ (exists e q, model_predict model features p1 = (inl e, q)
                          /\ u = fallback_point E state (random_draws q)
                          /\ p2 = tick_random q))).

(** The year, the day of the year counted from 0 and the leap flag that
    [_ord2ymd] finds for an ordinal. *)
Definition year_day (n : Z) : Z * Z * bool :=
  let n := n - 1 in
  let n400 := n / Calendar._DI400Y in
  let n := n mod Calendar._DI400Y in
  let year := n400 * 400 + 1 in
  let n100 := n / Calendar._DI100Y in
  let n := n mod Calendar._DI100Y in
  let n4 := n / Calendar._DI4Y in
  let n := n mod Calendar._DI4Y in
  let n1 := n / 365 in
  let n := n mod 365 in
  let year := year + (n100 * 100 + n4 * 4 + n1) in
  if (n1 =? 4) || (n100 =? 4) then (year - 1, 365, true)
  else (year, n, (n1 =? 3) && (negb (n4 =? 24) || (n100 =? 3))).

(** The month and the day [_ord2ymd] finds for a day of the year. *)
Definition month_day (n : Z) (leapyear : bool) : Z * Z :=
  let month := Z.shiftr (n + 50) 5 in
  let preceding :=
    Calendar._DAYS_BEFORE_MONTH month
    + (if (2 <? month) && leapyear then 1 else 0) in
  if n <? preceding then
    let month := month - 1 in
    let preceding :=
      preceding
      - (Calendar._DAYS_IN_MONTH month
         + (if (month =? 2) && leapyear then 1 else 0)) in
    (month, n - preceding + 1)
  else (month, n - preceding + 1).

(** A date as the number YYYYMMDD. *)
Definition date_code (ymd : Z * Z * Z) : Z :=
  fst (fst ymd) * 10000 + snd (fst ymd) * 100 + snd ymd.

(** What is checked, day by day, of the months and days of a year. *)
Definition month_day_checked (leapyear : bool) (j : nat) : bool :=
  let k := Z.of_nat j in
  let last := 365 + (if leapyear then 1 else 0) in
  let md := month_day k leapyear in
  let next := month_day (k + 1) leapyear in
  (negb (k <? last)
   || ((1 <=? fst md) && (fst md <=? 12) && (1 <=? snd md) && (snd md <=? 31)))
  && (negb (k + 1 <? last)
      || (fst md * 100 + snd md <? fst next * 100 + snd next)).

(** ** A sample environment *)

Definition digit_value (c : ascii) : option Z :=
  let n := Py.ord c - 48 in
  if (0 <=? n) && (n <=? 9) then Some n else None.

(** A reader of dates written [YYYY-MM-DD] with all ten characters. *)
Definition sample_strptime (s format : string) : Py.exn + Calendar.datetime :=
  let failure :=
    inl (Py.ValueError
           ("time data '" ++ s ++ "' does not match format '" ++ format ++ "'")) in
  match s with
  | String y1 (String y2 (String y3 (String y4 (String "-"
      (String m1 (String m2 (String "-"
         (String d1 (String d2 EmptyString))))))))) =>
      match digit_value y1, digit_value y2, digit_value y3, digit_value y4,
            digit_value m1, digit_value m2, digit_value d1, digit_value d2 with
      | Some a, Some b, Some c, Some d, Some e, Some f, Some g, Some h =>
          let year := a * 1000 + b * 100 + c * 10 + d in
          let month := e * 10 + f in
          let day := g * 10 + h in
          if (1 <=? year) && (1 <=? month) && (month <=? 12) && (1 <=? day)
             && (day <=? Calendar._DAYS_IN_MONTH month
                         + (if (month =? 2) && Calendar._is_leap year
                            then 1 else 0))
          then inr (Calendar.mkDatetime (Calendar._ymd2ord year month day) 0)
          else failure
      | _, _, _, _, _, _, _, _ => failure
      end
  | _ => failure
  end.

(** The JSON text of a request for Goa on 2024-12-01. *)
Definition json_quoted (s : string) : string :=
  String (Py.chr 34) s ++ String (Py.chr 34) EmptyString.

Definition sample_argument (family : string) : string :=
  "{" ++ json_quoted "state" ++ ": " ++ json_quoted "Goa" ++ ", "
  ++ json_quoted "lat" ++ ": 15, " ++ json_quoted "lon" ++ ": 74, "
  ++ json_quoted "prediction_date" ++ ": " ++ json_quoted "2024-12-01" ++ ", "
  ++ json_quoted "model_type" ++ ": " ++ json_quoted family ++ "}".

(** A decoder that knows the sample requests only. *)
Definition sample_decode (arg : string) : Py.exn + Request :=
  if String.eqb arg (sample_argument "ARIMA")
  then inr (mkRequest "Goa" 15 74 "2024-12-01" "ARIMA")
  else if String.eqb arg (sample_argument "Unsupported")
  then inr (mkRequest "Goa" 15 74 "2024-12-01" "Unsupported")
  else inl (Py.JSONDecodeError "Expecting value: line 1 column 1 (char 0)").

(** An encoder that accepts every result; its text, which [main] only
    prints, is cut short to the label of the family. *)
Definition sample_dumps (r : Prediction) : Py.exn + string :=
  inr ("{" ++ json_quoted "model_type" ++ ": " ++ json_quoted (model_type r)
       ++ "}").

(** A process started on 2024-11-03 at 10:00, whose generator always
    draws its mean. *)
Definition sample_env (tensorflow : bool) : env :=
  {| py_hash := Simple.hash_string;
     normal_sample := fun _ loc _ => loc;
     uniform_sample := fun _ => 0.5%R;
     clock_reading :=
       fun _ => Calendar.mkDatetime (Calendar._ymd2ord 2024 11 3) 36000000000;
     strptime := sample_strptime;
     JOBLIB_AVAILABLE := true;
     TENSORFLOW_AVAILABLE := tensorflow;
     decode_request := sample_decode;
     json_dumps := sample_dumps |}.

(** A fresh process over a store holding the given files. *)
Definition sample_process (files : list (string * Artifact)) : process :=
  {| storage := list_to_map files;
     models_dir := "models";
     loaded_models := ∅;
     model_cache := ∅;
     clock_reads := 0;
     random_draws := 0;
     trace := [] |}.

Definition goa_store : list (string * Artifact) :=
  [("models/Goa_arima_model.joblib", Pickled Opaque);
   ("models/Goa_xgboost_model.joblib", Damaged "invalid load key");
   ("models/Goa_lstm_model.h5", Damaged "not a pickle")].

(** ** Vocabulary of the further properties *)

(** The four families, in the order [get_available_models] tries them. *)
Definition families : list string := ["ARIMA"; "XGBoost"; "LSTM"; "Prophet"].

(** Whether a file exists in the store of a process. *)
Definition file_exists (p : process) (path : string) : bool :=
  match storage p !! path with Some _ => true | None => false end.

(** What a computation may do to a process: it leaves the artifact store
    and [models_dir] alone, keeps every entry of both caches, does not
    turn back the clock or the random generator, and only adds events. *)
Definition extends (p p' : process) : Prop :=
  storage p' = storage p
  /\ models_dir p' = models_dir p
  /\ (forall (k : string) (m : Model),
        model_cache p !! k = Some m -> model_cache p' !! k = Some m)
  /\ (forall (k : string) (m : Model),
        loaded_models p !! k = Some m -> loaded_models p' !! k = Some m)
  /\ (clock_reads p <= clock_reads p')%nat
  /\ (random_draws p <= random_draws p')%nat
  /\ exists events, trace p' = (trace p ++ events)%list.

(** A computation all of whose runs, returning or raising, extend the
    process. *)
Definition frames {A : Type} (m : M A) : Prop :=
  forall (p p' : process) (r : Py.exn + A), m p = (r, p') -> extends p p'.

(** A store whose XGBoost artifact for Goa answers -3 to every request. *)
Definition booster_store : list (string * Artifact) :=
  [("models/Goa_xgboost_model.joblib",
    Pickled (Estimator (fun _ => inr (-3)%R)))].


(** A result under another label. *)
Definition with_model_type (label : string) (r : Prediction) : Prediction :=
  {| predicted_usage := predicted_usage r;
     model_type := label;
     historical_data := historical_data r;
     forecast_data := forecast_data r;
     features_used := features_used r;
     model_loaded := model_loaded r |}.

(** ** Computations that leave the trace alone *)

Definition keeps_trace {A : Type} (m : M A) : Prop :=
  forall p r p', m p = (r, p') -> trace p' = trace p.

(** A store holding the XGBoost model of Madhya Pradesh. *)
Definition mp_store : list (string * Artifact) :=
  [("models/MP_xgboost_model.joblib", Pickled Opaque)].

(** What is checked, day by day, of the day of the year of a month and a
    day. *)
Definition day_of_year_checked (leapyear : bool) (j : nat) : bool :=
  let k := Z.of_nat j in
  let last := 365 + (if leapyear then 1 else 0) in
  let md := month_day k leapyear in
  negb (k <? last)
  || (Calendar._DAYS_BEFORE_MONTH (fst md)
      + (if (2 <? fst md) && leapyear then 1 else 0) + snd md =? k + 1).

(** * Properties *)

(** ** Evaluations *)

Example ord2ymd_2024_12_01 :
  Calendar._ord2ymd (Calendar._ymd2ord 2024 12 1) = (2024, 12, 1).
Proof. reflexivity. Qed.

Example strftime_2024_02_29 :
  Calendar.strftime (Calendar.mkDatetime (Calendar._ymd2ord 2024 2 29) 0)
  = "2024-02-29".
Proof. reflexivity. Qed.

Example range_90 : Py.range 3 0 (-1) = [3; 2; 1].
Proof. reflexivity. Qed.

Example tm_yday_2024_02_29 :
  Calendar.tm_yday (Calendar.mkDatetime (Calendar._ymd2ord 2024 2 29) 0) = 60
  /\ Calendar.weekday (Calendar.mkDatetime (Calendar._ymd2ord 2024 12 1) 0) = 6.
Proof. split; reflexivity. Qed.

Example sub_days_rounds_down :
  Calendar.sub_days (Calendar.mkDatetime 739221 0)
    (Calendar.mkDatetime 739193 36000000000) = 27.
Proof. reflexivity. Qed.

Example path_join_cases :
  Py.path_join "models" "Goa_arima_model.joblib" = "models/Goa_arima_model.joblib"
  /\ Py.path_join "models/" "x" = "models/x"
  /\ Py.path_join "models" "/abs" = "/abs"
  /\ Py.lower "XGBoost" = "xgboost".
Proof. repeat split; reflexivity. Qed.

Example isocalendar_2021_01_03 :
  Calendar.isocalendar (Calendar.mkDatetime (Calendar._ymd2ord 2021 1 3) 0)
  = (2020, 53, 7).
Proof. reflexivity. Qed.


Example sample_strptime_ok :
  sample_strptime "2024-12-01" "%Y-%m-%d"
  = inr (Calendar.mkDatetime 739221 0).
Proof. reflexivity. Qed.

Example sample_load_arima :
  exists p1,
    ModelPredictor._load_model "Goa" "ARIMA" (sample_process goa_store)
    = (inr Opaque, p1).
Proof. eexists. vm_compute. reflexivity. Qed.

Example sample_load_xgboost :
  exists p1,
    ModelPredictor._load_model "Goa" "XGBoost" (sample_process goa_store)
    = (inl (Py.RuntimeError
              "Failed to load model models/Goa_xgboost_model.joblib: invalid load key"),
       p1).
Proof. eexists. vm_compute. reflexivity. Qed.

(** ** Rounding to two decimal places *)

Section Rounding.
Open Scope R_scope.

Lemma Int_part_unique (x : R) (z : Z) :
  IZR z <= x < IZR z + 1 -> Int_part x = z.
Proof.
  intros [H1 H2]. symmetry. apply Int_part_spec. lra.
Qed.

Lemma Int_part_bounds (x : R) : IZR (Int_part x) <= x < IZR (Int_part x) + 1.
Proof.
  destruct (base_Int_part x) as [H1 H2]. lra.
Qed.

Lemma Int_part_IZR (z : Z) : Int_part (IZR z) = z.
Proof. apply Int_part_unique. lra. Qed.

Lemma Int_part_shift (x : R) (k : Z) : Int_part (x + IZR k) = (Int_part x + k)%Z.
Proof.
  apply Int_part_unique. rewrite plus_IZR.
  pose proof (Int_part_bounds x). lra.
Qed.

Lemma round_half_even_IZR (z : Z) : Py.round_half_even (IZR z) = z.
Proof.
  unfold Py.round_half_even. rewrite Int_part_IZR.
  destruct (Rlt_dec (IZR z - IZR z) (1 / 2)) as [_ | H]; [reflexivity | lra].
Qed.

Lemma round_half_even_shift (x : R) (k : Z) :
  Z.even k = true ->
  Py.round_half_even (x + IZR k) = (Py.round_half_even x + k)%Z.
Proof.
  intros Hk. unfold Py.round_half_even. rewrite Int_part_shift, plus_IZR.
  replace (x + IZR k - (IZR (Int_part x) + IZR k)) with (x - IZR (Int_part x)) by lra.
  rewrite Z.even_add, Hk.
  destruct (Rlt_dec (x - IZR (Int_part x)) (1 / 2)); [reflexivity |].
  destruct (Rlt_dec (1 / 2) (x - IZR (Int_part x))); [lia |].
  destruct (Z.even (Int_part x)); simpl; lia.
Qed.

Lemma round_half_even_nonneg (x : R) : 0 <= x -> (0 <= Py.round_half_even x)%Z.
Proof.
  intros Hx. unfold Py.round_half_even.
  pose proof (Int_part_bounds x) as [H1 H2].
  assert (0 <= Int_part x)%Z.
  { apply Z.lt_succ_r. apply lt_IZR. rewrite succ_IZR. lra. }
  destruct (Rlt_dec _ _); [assumption |].
  destruct (Rlt_dec _ _); [lia |].
  destruct (Z.even _); lia.
Qed.

Lemma round2_IZR_div (z : Z) : Py.round2 (IZR z / 100) = IZR z / 100.
Proof.
  unfold Py.round2. replace (IZR z / 100 * 100) with (IZR z) by lra.
  now rewrite round_half_even_IZR.
Qed.

Lemma round2_idempotent (x : R) : Py.round2 (Py.round2 x) = Py.round2 x.
Proof. unfold Py.round2 at 2 3. apply round2_IZR_div. Qed.

Lemma round2_nonneg (x : R) : 0 <= x -> 0 <= Py.round2 x.
Proof.
  intros Hx. unfold Py.round2.
  assert (0 <= IZR (Py.round_half_even (x * 100))).
  { apply IZR_le. apply round_half_even_nonneg. lra. }
  lra.
Qed.

Lemma round2_zero : Py.round2 0 = 0.
Proof.
  replace 0 with (IZR 0 / 100) at 1 by lra. rewrite round2_IZR_div. lra.
Qed.

Lemma round2_shift (x : R) (k : Z) :
  Z.even k = true -> Py.round2 (x + IZR k / 100) = Py.round2 x + IZR k / 100.
Proof.
  intros Hk. unfold Py.round2.
  replace ((x + IZR k / 100) * 100) with (x * 100 + IZR k) by lra.
  rewrite round_half_even_shift by assumption. rewrite plus_IZR. lra.
Qed.

Lemma Rmax_round2 (x : R) : Rmax 0 (Py.round2 x) = Py.round2 (Rmax 0 x).
Proof.
  unfold Rmax. destruct (Rle_dec 0 x) as [Hx | Hx].
  - pose proof (round2_nonneg x Hx).
    destruct (Rle_dec 0 (Py.round2 x)); [reflexivity | lra].
  - rewrite round2_zero.
    destruct (Rle_dec 0 (Py.round2 x)) as [Hr | Hr]; [| reflexivity].
    assert (Hle : Py.round2 x <= 0); [| lra].
    unfold Py.round2.
    assert (Py.round_half_even (x * 100) <= 0)%Z.
    { unfold Py.round_half_even.
      pose proof (Int_part_bounds (x * 100)) as [H1 H2].
      assert (Int_part (x * 100) < 0)%Z.
      { apply lt_IZR. lra. }
      destruct (Rlt_dec _ _); [lia |].
      destruct (Rlt_dec _ _); [lia |].
      destruct (Z.even _); lia. }
    apply IZR_le in H. lra.
Qed.

End Rounding.

(** ** The monad and its loops *)

Section Monad_lemmas.
Context {A B : Type}.

Lemma bind_inr (m : M A) (k : A -> M B) (p p' : process) (a : A) :
  m p = (inr a, p') -> bind m k p = k a p'.
Proof. intros H. unfold bind. now rewrite H. Qed.

Lemma bind_inl (m : M A) (k : A -> M B) (p p' : process) (e : Py.exn) :
  m p = (inl e, p') -> bind m k p = (inl e, p').
Proof. intros H. unfold bind. now rewrite H. Qed.

Lemma bind_inv (m : M A) (k : A -> M B) (p p'' : process) (b : B) :
  bind m k p = (inr b, p'') ->
  exists a p', m p = (inr a, p') /\ k a p' = (inr b, p'').
Proof.
  unfold bind. destruct (m p) as [[e | a] p'] eqn:Hm; intros H.
  - discriminate.
  - exists a, p'. split; [reflexivity | assumption].
Qed.

Lemma try_except_inr (m : M A) (h : Py.exn -> M A) (p p' : process) (a : A) :
  m p = (inr a, p') -> try_except m h p = (inr a, p').
Proof. intros H. unfold try_except. now rewrite H. Qed.

Lemma try_except_inl (m : M A) (h : Py.exn -> M A) (p p' : process) (e : Py.exn) :
  m p = (inl e, p') -> try_except m h p = h e p'.
Proof. intros H. unfold try_except. now rewrite H. Qed.

End Monad_lemmas.

Lemma advance_S (n : nat) (p : process) :
  advance (S n) p = advance n (tick_random p).
Proof. unfold advance. now rewrite Nat.iter_succ_r. Qed.

Lemma random_draws_advance (n : nat) (p : process) :
  random_draws (advance n p) = (n + random_draws p)%nat.
Proof.
  induction n as [| n IH]; [reflexivity |].
  unfold advance in *. simpl. now rewrite IH.
Qed.

Lemma advance_fields (n : nat) (p : process) :
  storage (advance n p) = storage p
  /\ models_dir (advance n p) = models_dir p
  /\ loaded_models (advance n p) = loaded_models p
  /\ model_cache (advance n p) = model_cache p
  /\ clock_reads (advance n p) = clock_reads p
  /\ trace (advance n p) = trace p.
Proof.
  induction n as [| n IH]; [repeat split |].
  unfold advance in *. simpl. exact IH.
Qed.

Section Loops.
Context {A B : Type}.
Variable body : A -> M B.

(** A loop whose body draws exactly one random number per iteration and
    does nothing else to the process. *)
Hypothesis body_draws_once :
  forall (x : A) (q q' : process) (y : B),
    body x q = (inr y, q') -> q' = tick_random q.

Lemma for_each_inv (l : list A) (p p' : process) (ys : list B) :
  for_each l body p = (inr ys, p') ->
  p' = advance (length l) p
  /\ length ys = length l
  /\ forall (j : nat) (x : A), l !! j = Some x ->
       exists y, ys !! j = Some y
                 /\ body x (advance j p) = (inr y, advance (S j) p).
Proof.
  revert p p' ys. induction l as [| x l IH]; intros p p' ys H.
  - simpl in H. unfold ret in H. inversion H; subst.
    repeat split. intros j x Hj. destruct j; discriminate.
  - simpl in H. apply bind_inv in H. destruct H as (y & q & Hy & H).
    apply bind_inv in H. destruct H as (ys' & q' & Hys & H).
    unfold ret in H. inversion H; subst.
    pose proof (body_draws_once _ _ _ _ Hy) as ->.
    destruct (IH _ _ _ Hys) as (Hp & Hlen & Hnth).
    split; [| split].
    + rewrite Hp. exact (eq_sym (advance_S (length l) p)).
    + simpl. now rewrite Hlen.
    + intros [| j] x' Hj.
      * simpl in Hj. inversion Hj; subst. exists y. split; [reflexivity | exact Hy].
      * simpl in Hj. destruct (Hnth _ _ Hj) as (y' & Hy' & Hb).
        exists y'. split; [exact Hy' |].
        rewrite (advance_S (S j) p), (advance_S j p). exact Hb.
Qed.

Lemma for_each_returns (l : list A) (p : process) :
  (forall (j : nat) (x : A), l !! j = Some x ->
     exists y, body x (advance j p) = (inr y, advance (S j) p)) ->
  exists ys, for_each l body p = (inr ys, advance (length l) p).
Proof.
  revert p. induction l as [| x l IH]; intros p H.
  - exists []. reflexivity.
  - destruct (H 0%nat x eq_refl) as (y & Hy).
    destruct (IH (tick_random p)) as (ys & Hys).
    { intros j x' Hj. destruct (H (S j) x' Hj) as (y' & Hy').
      exists y'. rewrite <- (advance_S (S j) p), <- (advance_S j p). exact Hy'. }
    exists (y :: ys). simpl.
    rewrite (bind_inr _ _ _ _ _ Hy).
    change (advance 1 p) with (tick_random p).
    rewrite (bind_inr _ _ _ _ _ Hys). unfold ret.
    f_equal. exact (eq_sym (advance_S (length l) p)).
Qed.

End Loops.

(** ** [range] *)

Lemma range_down (days : Z) :
  Py.range days 0 (-1)
  = map (fun k => days - Z.of_nat k) (seq 0 (Z.to_nat days)).
Proof.
  unfold Py.range.
  change (0 <? -1) with false. change (-1 <? 0) with true. cbv iota.
  replace ((days - 0 - -1 - 1) / - -1) with days
    by (change (- -1) with 1; rewrite Z.div_1_r; lia).
  apply map_ext. intros k. lia.
Qed.

Lemma range_up (n : Z) :
  Py.range 1 (n + 1) 1 = map (fun k => 1 + Z.of_nat k) (seq 0 (Z.to_nat n)).
Proof.
  unfold Py.range.
  change (0 <? 1) with true. cbv iota.
  replace ((n + 1 - 1 + 1 - 1) / 1) with n by (rewrite Z.div_1_r; lia).
  apply map_ext. intros k. lia.
Qed.

Lemma lookup_map_seq {X : Type} (f : nat -> X) (n j : nat) (x : X) :
  map f (seq 0 n) !! j = Some x <-> (j < n)%nat /\ x = f j.
Proof.
  change (map f (seq 0 n)) with (f <$> seq 0 n).
  rewrite list_lookup_fmap. split.
  - intros H. destruct (seq 0 n !! j) as [k |] eqn:Hs; [| discriminate].
    apply lookup_seq in Hs. destruct Hs as [-> Hlt].
    simpl in H. inversion H. split; [exact Hlt | reflexivity].
  - intros [Hlt ->].
    assert (Hs : seq 0 n !! j = Some j) by (apply lookup_seq; auto).
    now rewrite Hs.
Qed.

Lemma range_down_lookup (days : Z) (j : nat) (x : Z) :
  Py.range days 0 (-1) !! j = Some x <->
  (j < Z.to_nat days)%nat /\ x = days - Z.of_nat j.
Proof.
  rewrite range_down. apply (lookup_map_seq (fun k => days - Z.of_nat k)).
Qed.

Lemma range_up_lookup (n : Z) (j : nat) (x : Z) :
  Py.range 1 (n + 1) 1 !! j = Some x <->
  (j < Z.to_nat n)%nat /\ x = 1 + Z.of_nat j.
Proof.
  rewrite range_up. apply (lookup_map_seq (fun k => 1 + Z.of_nat k)).
Qed.

Lemma range_down_length (days : Z) :
  length (Py.range days 0 (-1)) = Z.to_nat days.
Proof. rewrite range_down. now rewrite length_map, length_seq. Qed.

Lemma range_up_length (n : Z) :
  length (Py.range 1 (n + 1) 1) = Z.to_nat n.
Proof. rewrite range_up. now rewrite length_map, length_seq. Qed.

(** ** The synthesised series *)

Lemma timedelta_inr (i t : Z) : Calendar.timedelta i = inr t -> t = i.
Proof.
  unfold Calendar.timedelta. destruct (Z.abs i <=? 999999999); intros H;
    [now inversion H | discriminate].
Qed.

Lemma timedelta_small (i : Z) :
  Z.abs i <= 999999999 -> Calendar.timedelta i = inr i.
Proof.
  intros H. unfold Calendar.timedelta.
  destruct (Z.leb_spec (Z.abs i) 999999999); [reflexivity | lia].
Qed.

Lemma add_days_inr (d d' : Calendar.datetime) (i : Z) :
  Calendar.add_days d i = inr d' ->
  d' = Calendar.mkDatetime (Calendar.toordinal d + i)
         (Calendar.microsecond_of_day d)
  /\ 1 <= Calendar.toordinal d + i <= Calendar._MAXORDINAL.
Proof.
  unfold Calendar.add_days.
  destruct (Z.leb_spec 1 (Calendar.toordinal d + i));
    destruct (Z.leb_spec (Calendar.toordinal d + i) Calendar._MAXORDINAL);
    simpl; intros Heq; try discriminate.
  inversion Heq. split; [reflexivity | lia].
Qed.

Lemma add_days_in_range (d : Calendar.datetime) (i : Z) :
  1 <= Calendar.toordinal d + i <= Calendar._MAXORDINAL ->
  Calendar.add_days d i
  = inr (Calendar.mkDatetime (Calendar.toordinal d + i)
           (Calendar.microsecond_of_day d)).
Proof.
  intros [H1 H2]. unfold Calendar.add_days.
  destruct (Z.leb_spec 1 (Calendar.toordinal d + i)); [| lia].
  destruct (Z.leb_spec (Calendar.toordinal d + i) Calendar._MAXORDINAL); [| lia].
  reflexivity.
Qed.

(** One iteration of a series loop that returned. *)
Ltac step_body H :=
  cbv beta iota delta [bind minus_timedelta plus_timedelta lift
    np_random_normal np_random_random ret] in H;
  match type of H with
  | context [Calendar.timedelta ?i] =>
      let Ht := fresh "Ht" in
      destruct (Calendar.timedelta i) eqn:Ht; [discriminate |];
      apply timedelta_inr in Ht; subst
  end;
  match type of H with
  | context [Calendar.add_days ?d ?i] =>
      let Ha := fresh "Ha" in
      destruct (Calendar.add_days d i) eqn:Ha; [discriminate |];
      apply add_days_inr in Ha; destruct Ha as [-> Ha]
  end;
  inversion H; subst; clear H.

Section Series.
Context (E : env).

Lemma historical_inv (state : string) (days : Z) (p p' : process)
    (l : list SeriesPoint) :
  ModelPredictor._generate_historical_data E state days p = (inr l, p') ->
  let today := clock_reading E (clock_reads p) in
  let base_usage := 100 + (py_hash E state mod 1000) mod 50 in
  p' = advance (Z.to_nat days) (tick_clock p)
  /\ length l = Z.to_nat days
  /\ forall j : nat, (j < Z.to_nat days)%nat ->
       let i := days - Z.of_nat j in
       1 <= Calendar.toordinal today - i <= Calendar._MAXORDINAL
       /\ l !! j = Some
            {| date := Calendar.strftime (shifted today (- i));
               usage :=
                 Py.round2
                   (Rmax 0
                      (IZR base_usage + IZR i * 0.1
                       + seasonal (shifted today (- i))
                       + normal_sample E (random_draws p + j) 0 5)) |}.
Proof.
  intros H today base_usage. subst today base_usage.
  unfold ModelPredictor._generate_historical_data in H.
  apply bind_inv in H. destruct H as (t & q & Hnow & H).
  unfold datetime_now in Hnow. inversion Hnow; subst t q; clear Hnow.
  apply for_each_inv in H.
  - destruct H as (Hp & Hlen & Hnth).
    rewrite range_down_length in Hp, Hlen.
    split; [exact Hp | split; [exact Hlen |]].
    intros j Hj i. subst i.
    destruct (Hnth j (days - Z.of_nat j)) as (y & Hy & Hb).
    { apply range_down_lookup. split; [exact Hj | reflexivity]. }
    step_body Hb.
    split; [lia |].
    rewrite Hy. rewrite random_draws_advance. simpl random_draws.
    rewrite (Nat.add_comm j). reflexivity.
  - intros x q q' y Hb. step_body Hb. reflexivity.
Qed.

End Series.

(** ** The model locator and the model cache *)

Lemma get_model_path_eq (state model_type : string) (p : process) :
  ModelPredictor._get_model_path state model_type p
  = (inr (artifact_path (models_dir p) state model_type), p).
Proof.
  unfold ModelPredictor._get_model_path, artifact_path.
  destruct (String.eqb model_type "LSTM"); reflexivity.
Qed.

Lemma advanced_get_model_path_eq (state model_type : string) (p : process) :
  AdvancedModelPredictor._get_model_path state model_type p
  = (inr (artifact_path (models_dir p) state model_type), p).
Proof.
  unfold AdvancedModelPredictor._get_model_path, artifact_path.
  destruct (String.eqb model_type "LSTM"); reflexivity.
Qed.

(** [_load_model] of [ModelPredictor], case by case. *)
Lemma load_model_eq (state model_type : string) (p : process) :
  let path := artifact_path (models_dir p) state model_type in
  let key := cache_key state model_type in
  let p1 := log (Ev_exists path) p in
  ModelPredictor._load_model state model_type p
  = match storage p !! path with
    | None => (inl (Py.FileNotFoundError ("Model not found: " ++ path)), p1)
    | Some file =>
        match model_cache p !! key with
        | Some model => (inr model, p1)
        | None =>
            if String.eqb model_type "LSTM" then
              (inr (PyStr ("LSTM_MODEL_" ++ state)),
               set_model_cache
                 (<[key := PyStr ("LSTM_MODEL_" ++ state)]> (model_cache p)) p1)
            else
              match file with
              | Pickled model =>
                  (inr model,
                   set_model_cache (<[key := model]> (model_cache p))
                     (log (Ev_load path) p1))
              | Damaged msg =>
                  (inl (Py.RuntimeError
                          ("Failed to load model " ++ path ++ ": " ++ msg)),
                   log (Ev_load path) p1)
              end
        end
    end.
Proof.
  intros path key p1. subst path key p1.
  unfold ModelPredictor._load_model.
  rewrite (bind_inr _ _ _ _ _ (get_model_path_eq state model_type p)).
  unfold bind at 1. unfold os_path_exists at 1.
  destruct (storage p !! artifact_path (models_dir p) state model_type)
    as [file |] eqn:Hfile; cbv beta iota.
  - change (negb true) with false. cbv iota.
    cbn [model_cache log].
    fold (cache_key state model_type).
    destruct (model_cache p !! cache_key state model_type) as [model |];
      [reflexivity |].
    unfold try_except, bind.
    destruct (String.eqb model_type "LSTM").
    + reflexivity.
    + unfold joblib_load.
      cbn [storage log].
      rewrite Hfile. destruct file; reflexivity.
  - reflexivity.
Qed.

(** [_load_model] of [AdvancedModelPredictor], case by case. *)
Lemma advanced_load_model_eq (E : env) (state model_type : string)
    (p : process) :
  let path := artifact_path (models_dir p) state model_type in
  let key := cache_key state model_type in
  let p1 := log (Ev_exists path) p in
  AdvancedModelPredictor._load_model E state model_type p
  = match storage p !! path with
    | None => (inl (Py.FileNotFoundError ("Model not found: " ++ path)), p1)
    | Some file =>
        match loaded_models p !! key with
        | Some model => (inr model, p1)
        | None =>
            if String.eqb model_type "LSTM" then
              if TENSORFLOW_AVAILABLE E then
                (inr (PyStr ("LSTM_MODEL_" ++ state)),
                 set_loaded_models
                   (<[key := PyStr ("LSTM_MODEL_" ++ state)]> (loaded_models p))
                   p1)
              else
                (inl (Py.RuntimeError
                        ("Failed to load model " ++ path
                         ++ ": TensorFlow not available for LSTM models")), p1)
            else if JOBLIB_AVAILABLE E then
              match file with
              | Pickled model =>
                  (inr model,
                   set_loaded_models (<[key := model]> (loaded_models p))
                     (log (Ev_load path) p1))
              | Damaged msg =>
                  (inl (Py.RuntimeError
                          ("Failed to load model " ++ path ++ ": " ++ msg)),
                   log (Ev_load path) p1)
              end
            else
              (inl (Py.RuntimeError
                      ("Failed to load model " ++ path
                       ++ ": joblib not available for model loading")), p1)
        end
    end.
Proof.
  intros path key p1. subst path key p1.
  unfold AdvancedModelPredictor._load_model.
  rewrite (bind_inr _ _ _ _ _ (advanced_get_model_path_eq state model_type p)).
  unfold bind at 1. unfold os_path_exists at 1.
  destruct (storage p !! artifact_path (models_dir p) state model_type)
    as [file |] eqn:Hfile; cbv beta iota.
  - change (negb true) with false. cbv iota.
    cbn [loaded_models log].
    fold (cache_key state model_type).
    destruct (loaded_models p !! cache_key state model_type) as [model |];
      [reflexivity |].
    unfold try_except, bind.
    destruct (String.eqb model_type "LSTM").
    + destruct (TENSORFLOW_AVAILABLE E); reflexivity.
    + destruct (JOBLIB_AVAILABLE E); [| reflexivity].
      cbn [negb]. unfold joblib_load.
      cbn [storage log].
      rewrite Hfile. destruct file; reflexivity.
  - reflexivity.
Qed.

(** ** The prediction engine *)

Section Engine.
Context (E : env).

Lemma try_except_raise_inv {A : Type} (m : M A) (f : Py.exn -> Py.exn)
    (p p' : process) (a : A) :
  try_except m (fun e => raise (f e)) p = (inr a, p') -> m p = (inr a, p').
Proof.
  unfold try_except, raise. destruct (m p) as [[e | x] q]; intros H.
  - discriminate.
  - exact H.
Qed.

Lemma strptime_inv (s format : string) (p p' : process)
    (d : Calendar.datetime) :
  datetime_strptime E s format p = (inr d, p') ->
  strptime E s format = inr d /\ p' = p.
Proof.
  unfold datetime_strptime, lift. intros H. inversion H. split; reflexivity.
Qed.

Lemma prepare_features_inv (state : string) (lat lon : R)
    (prediction_date model_type : string) (p p' : process)
    (features : list (list R)) :
  ModelPredictor._prepare_features E state lat lon prediction_date
    model_type p = (inr features, p') ->
  exists target, strptime E prediction_date "%Y-%m-%d" = inr target /\ p' = p.
Proof.
  unfold ModelPredictor._prepare_features. intros H.
  apply bind_inv in H. destruct H as (target & q & Ht & H).
  apply strptime_inv in Ht. destruct Ht as [Ht ->].
  unfold ret in H. inversion H. exists target. split; [exact Ht | reflexivity].
Qed.

Ltac synthetic_branch H target Htarget :=
  let d := fresh "d" in
  let q := fresh "q" in
  let Hd := fresh "Hd" in
  apply bind_inv in H; destruct H as (d & q & Hd & H);
  apply strptime_inv in Hd; destruct Hd as [Hd ->];
  rewrite Htarget in Hd; inversion Hd; subst d;
  cbv beta iota delta [bind np_random_normal ret] in H;
  inversion H; subst.

Lemma predict_inv (state : string) (lat lon : R)
    (prediction_date model_type : string) (p p' : process) (r : Prediction) :
  ModelPredictor.predict E state lat lon prediction_date model_type p
  = (inr r, p') ->
  exists model p1 features target u p2 hist p3 fc,
    ModelPredictor._load_model state model_type p = (inr model, p1)
    /\ ModelPredictor._prepare_features E state lat lon prediction_date
         model_type p1 = (inr features, p1)
    /\ strptime E prediction_date "%Y-%m-%d" = inr target
    /\ point_outcome E state model_type model features target p1 u p2
    /\ ModelPredictor._generate_historical_data E state 90 p2 = (inr hist, p3)
    /\ ModelPredictor._generate_forecast_data E state prediction_date
         (Z.max 1 (Calendar.sub_days target (clock_reading E (clock_reads p3))))
         (tick_clock p3) = (inr fc, p')
    /\ r = {| predicted_usage := Py.round2 u;
              model_type := model_type;
              historical_data := hist;
              forecast_data := fc;
              features_used := Rows features;
              model_loaded := None |}.
Proof.
  unfold ModelPredictor.predict. intros H.
  apply try_except_raise_inv in H.
  apply bind_inv in H. destruct H as (model & p1 & Hload & H).
  apply bind_inv in H. destruct H as (features & q & Hfeat & H).
  destruct (prepare_features_inv _ _ _ _ _ _ _ _ Hfeat) as (target & Htarget & ->).
  apply bind_inv in H. destruct H as (u & p2 & Hpoint & H).
  apply bind_inv in H. destruct H as (hist & p3 & Hhist & H).
  apply bind_inv in H. destruct H as (target' & q & Ht' & H).
  apply strptime_inv in Ht'. destruct Ht' as [Ht' ->].
  rewrite Htarget in Ht'. inversion Ht'; subst target'.
  apply bind_inv in H. destruct H as (now & q & Hnow & H).
  unfold datetime_now in Hnow. inversion Hnow; subst now q.
  apply bind_inv in H. destruct H as (fc & q & Hfc & H).
  unfold ret in H. inversion H; subst q r.
  exists model, p1, features, target, u, p2, hist, p3, fc.
  repeat (split; [first [assumption | reflexivity] |]).
  split; [| split; [assumption | split; [assumption | reflexivity]]].
  unfold point_outcome, synthetic_point, fallback_point, base_usage_of.
  destruct (String.eqb_spec model_type "ARIMA") as [-> | _].
  { left. synthetic_branch Hpoint target Htarget. repeat split; reflexivity. }
  destruct (String.eqb_spec model_type "XGBoost") as [-> | _].
  { right. right. right. split; [reflexivity |].
    unfold try_except in Hpoint.
    unfold bind at 1 in Hpoint.
    destruct (model_predict model features p1) as [[e | y] q] eqn:Hm.
    - right. exists e, q. 
      cbv beta iota delta [bind np_random_normal ret] in Hpoint.
      inversion Hpoint; subst. repeat split; reflexivity.
    - left. exists y. unfold ret in Hpoint. inversion Hpoint; subst.
      split; reflexivity. }
  destruct (String.eqb_spec model_type "LSTM") as [-> | _].
  { right. left. synthetic_branch Hpoint target Htarget. repeat split; reflexivity. }
  destruct (String.eqb_spec model_type "Prophet") as [-> | _].
  { right. right. left. synthetic_branch Hpoint target Htarget.
    repeat split; reflexivity. }
  unfold raise in Hpoint. discriminate.
Qed.

End Engine.

(** ** When a prediction returns *)

Section Returns.
Context (E : env).

Lemma historical_returns (state : string) (days : Z) (p : process) :
  0 <= days <= 999999999 ->
  days < Calendar.toordinal (clock_reading E (clock_reads p))
       <= Calendar._MAXORDINAL + 1 ->
  exists l,
    ModelPredictor._generate_historical_data E state days p
    = (inr l, advance (Z.to_nat days) (tick_clock p)).
Proof.
  intros Hdays Htoday.
  unfold ModelPredictor._generate_historical_data.
  unfold bind at 1. unfold datetime_now at 1.
  rewrite <- (range_down_length days).
  apply for_each_returns.
  intros j x Hj. apply range_down_lookup in Hj. destruct Hj as [Hj ->].
  eexists.
  cbv beta iota delta [bind minus_timedelta lift np_random_normal ret].
  rewrite timedelta_small by lia. rewrite add_days_in_range by lia.
  reflexivity.
Qed.

Lemma forecast_returns (state prediction_date : string) (n : Z)
    (target : Calendar.datetime) (p : process) :
  strptime E prediction_date "%Y-%m-%d" = inr target ->
  0 <= Calendar.toordinal target ->
  Calendar.toordinal target + n <= Calendar._MAXORDINAL ->
  exists l,
    ModelPredictor._generate_forecast_data E state prediction_date n p
    = (inr l, advance (Z.to_nat n) p).
Proof.
  intros Htarget Hlo Hhi.
  unfold ModelPredictor._generate_forecast_data.
  unfold bind at 1. unfold datetime_strptime, lift. rewrite Htarget.
  rewrite <- (range_up_length n).
  apply for_each_returns.
  intros j x Hj. apply range_up_lookup in Hj. destruct Hj as [Hj ->].
  eexists.
  cbv beta iota delta [bind plus_timedelta lift np_random_normal ret].
  assert (Calendar._MAXORDINAL = 3652059) by reflexivity.
  rewrite timedelta_small by lia. rewrite add_days_in_range by lia.
  reflexivity.
Qed.

End Returns.

Lemma load_model_frame (state model_type : string) (p p1 : process)
    (r : Py.exn + Model) :
  ModelPredictor._load_model state model_type p = (r, p1) ->
  storage p1 = storage p /\ models_dir p1 = models_dir p
  /\ clock_reads p1 = clock_reads p /\ random_draws p1 = random_draws p.
Proof.
  rewrite load_model_eq.
  destruct (storage p !! _) as [file |]; [| intros H; inversion H; now subst].
  destruct (model_cache p !! _); [intros H; inversion H; now subst |].
  destruct (String.eqb model_type "LSTM"); [intros H; inversion H; now subst |].
  destruct file; intros H; inversion H; now subst.
Qed.

Lemma model_predict_frame (model : Model) (features : list (list R))
    (p p' : process) (r : Py.exn + R) :
  model_predict model features p = (r, p') ->
  storage p' = storage p /\ models_dir p' = models_dir p
  /\ clock_reads p' = clock_reads p /\ random_draws p' = random_draws p
  /\ model_cache p' = model_cache p.
Proof.
  unfold model_predict. destruct model; intros H; inversion H; now subst.
Qed.

Section Predict_returns.
Context (E : env).

Lemma prepare_features_returns (state : string) (lat lon : R)
    (prediction_date model_type : string) (target : Calendar.datetime)
    (p : process) :
  strptime E prediction_date "%Y-%m-%d" = inr target ->
  exists features,
    ModelPredictor._prepare_features E state lat lon prediction_date
      model_type p = (inr features, p).
Proof.
  intros Htarget. unfold ModelPredictor._prepare_features.
  unfold bind, datetime_strptime, lift, ret. rewrite Htarget.
  eexists. reflexivity.
Qed.

Ltac run_point Htarget :=
  cbv beta iota zeta delta [String.eqb Ascii.eqb Bool.eqb];
  cbv beta iota delta [bind try_except datetime_strptime lift
                       np_random_normal ret];
  rewrite ?Htarget; cbv beta iota.

(** The converse of [predict_inv]. *)
Lemma predict_intro (state : string) (lat lon : R)
    (prediction_date model_type : string) (p p1 p2 p3 p' : process)
    (model : Model) (features : list (list R)) (target : Calendar.datetime)
    (u : R) (hist fc : list SeriesPoint) :
  ModelPredictor._load_model state model_type p = (inr model, p1) ->
  ModelPredictor._prepare_features E state lat lon prediction_date
    model_type p1 = (inr features, p1) ->
  strptime E prediction_date "%Y-%m-%d" = inr target ->
  point_outcome E state model_type model features target p1 u p2 ->
  ModelPredictor._generate_historical_data E state 90 p2 = (inr hist, p3) ->
  ModelPredictor._generate_forecast_data E state prediction_date
    (Z.max 1 (Calendar.sub_days target (clock_reading E (clock_reads p3))))
    (tick_clock p3) = (inr fc, p') ->
  ModelPredictor.predict E state lat lon prediction_date model_type p
  = (inr {| predicted_usage := Py.round2 u;
            model_type := model_type;
            historical_data := hist;
            forecast_data := fc;
            features_used := Rows features;
            model_loaded := None |}, p').
Proof.
  intros Hload Hfeat Htarget Hpoint Hhist Hfc.
  unfold ModelPredictor.predict. apply try_except_inr.
  rewrite (bind_inr _ _ _ _ _ Hload), (bind_inr _ _ _ _ _ Hfeat).
  unfold point_outcome, synthetic_point, fallback_point, base_usage_of in Hpoint.
  destruct Hpoint as [(-> & -> & ->) | [(-> & -> & ->) | [(-> & -> & ->)
    | (-> & [(y & Hm & ->) | (e & q & Hm & -> & ->)])]]];
    run_point Htarget; rewrite ?Hm; cbv beta iota;
    rewrite Hhist; cbv beta iota delta [datetime_now];
    rewrite Hfc; reflexivity.
Qed.

Lemma predict_returns (state : string) (lat lon : R)
    (prediction_date model_type : string) (p p1 : process) (model : Model)
    (target : Calendar.datetime) :
  ModelPredictor._load_model state model_type p = (inr model, p1) ->
  strptime E prediction_date "%Y-%m-%d" = inr target ->
  In model_type ["ARIMA"; "XGBoost"; "LSTM"; "Prophet"] ->
  90 < Calendar.toordinal (clock_reading E (clock_reads p))
     <= Calendar._MAXORDINAL + 1 ->
  0 <= Calendar.toordinal target ->
  Calendar.toordinal target
  + Z.max 1 (Calendar.sub_days target (clock_reading E (S (clock_reads p))))
  <= Calendar._MAXORDINAL ->
  exists r p',
    ModelPredictor.predict E state lat lon prediction_date model_type p
    = (inr r, p').
Proof.
  intros Hload Htarget Hfamily Htoday Hlo Hhi.
  destruct (load_model_frame _ _ _ _ _ Hload) as (_ & _ & Hclock & _).
  destruct (prepare_features_returns state lat lon prediction_date model_type
              target p1 Htarget) as (features & Hfeat).
  assert (Hpoint : exists u p2,
    point_outcome E state model_type model features target p1 u p2
    /\ clock_reads p2 = clock_reads p1).
  { unfold point_outcome. simpl in Hfamily.
    destruct Hfamily as [<- | [<- | [<- | [<- | []]]]].
    - eexists; eexists; split; [left; repeat split |]; reflexivity.
    - destruct (model_predict model features p1) as [[e | y] q] eqn:Hm;
        destruct (model_predict_frame _ _ _ _ _ Hm) as (_ & _ & Hc & _).
      + exists (fallback_point E state (random_draws q)), (tick_random q).
        split; [| exact Hc].
        right; right; right. split; [reflexivity |]. right.
        exists e, q. repeat split; reflexivity.
      + exists (Rmax 0 y), q. split; [| exact Hc].
        right; right; right. split; [reflexivity |]. left.
        exists y. split; reflexivity.
    - eexists; eexists; split; [right; left; repeat split |]; reflexivity.
    - eexists; eexists; split; [right; right; left; repeat split |];
        reflexivity. }
  destruct Hpoint as (u & p2 & Hpoint & Hclock2).
  destruct (historical_returns E state 90 p2) as (hist & Hhist).
  { lia. }
  { rewrite Hclock2, Hclock. exact Htoday. }
  destruct (forecast_returns E state prediction_date
              (Z.max 1 (Calendar.sub_days target
                          (clock_reading E
                             (clock_reads (advance 90 (tick_clock p2))))))
              target (tick_clock (advance 90 (tick_clock p2))) Htarget Hlo)
    as (fc & Hfc).
  { destruct (advance_fields 90 (tick_clock p2)) as (_ & _ & _ & _ & -> & _).
    simpl clock_reads. rewrite Hclock2, Hclock. exact Hhi. }
  eexists; eexists.
  exact (predict_intro _ _ _ _ _ _ _ _ _ _ _ _ _ _ _ _
           Hload Hfeat Htarget Hpoint Hhist Hfc).
Qed.

End Predict_returns.

Section Series_more.
Context (E : env).

Lemma forecast_inv (state prediction_date : string) (n : Z)
    (p p' : process) (l : list SeriesPoint) :
  ModelPredictor._generate_forecast_data E state prediction_date n p
  = (inr l, p') ->
  exists target,
    strptime E prediction_date "%Y-%m-%d" = inr target
    /\ p' = advance (Z.to_nat n) p
    /\ length l = Z.to_nat n
    /\ forall j : nat, (j < Z.to_nat n)%nat ->
         let i := 1 + Z.of_nat j in
         1 <= Calendar.toordinal target + i <= Calendar._MAXORDINAL
         /\ l !! j = Some
              {| date := Calendar.strftime (shifted target i);
                 usage :=
                   Py.round2
                     (Rmax 0
                        (IZR (100 + (py_hash E state mod 1000) mod 50)
                         + IZR i * 0.1
                         + seasonal (shifted target i)
                         + normal_sample E (random_draws p + j) 0 3)) |}.
Proof.
  intros H.
  unfold ModelPredictor._generate_forecast_data in H.
  apply bind_inv in H. destruct H as (target & q & Ht & H).
  unfold datetime_strptime, lift in Ht. inversion Ht as [[Htarget Hq]].
  subst q. exists target. split; [exact Htarget |].
  apply for_each_inv in H.
  - destruct H as (Hp & Hlen & Hnth).
    rewrite range_up_length in Hp, Hlen.
    split; [exact Hp | split; [exact Hlen |]].
    intros j Hj i. subst i.
    destruct (Hnth j (1 + Z.of_nat j)) as (y & Hy & Hb).
    { apply range_up_lookup. split; [exact Hj | reflexivity]. }
    step_body Hb.
    split; [lia |].
    rewrite Hy. rewrite random_draws_advance.
    rewrite (Nat.add_comm j). reflexivity.
  - intros x q q' y Hb. step_body Hb. reflexivity.
Qed.

Lemma advanced_historical_inv (state : string) (days : Z) (p p' : process)
    (l : list SeriesPoint) :
  AdvancedModelPredictor._generate_historical_data E state days p
  = (inr l, p') ->
  let today := clock_reading E (clock_reads p) in
  p' = advance (Z.to_nat days) (tick_clock p)
  /\ length l = Z.to_nat days
  /\ forall j : nat, (j < Z.to_nat days)%nat ->
       let i := days - Z.of_nat j in
       1 <= Calendar.toordinal today - i <= Calendar._MAXORDINAL
       /\ l !! j = Some
            {| date := Calendar.strftime (shifted today (- i));
               usage :=
                 Rmax 0
                   (Py.round2
                      (IZR (100 + (py_hash E state mod 1000) mod 50)
                       + IZR i * 0.1
                       + seasonal (shifted today (- i))
                       + normal_sample E (random_draws p + j) 0 5)) |}.
Proof.
  intros H today. subst today.
  unfold AdvancedModelPredictor._generate_historical_data in H.
  apply bind_inv in H. destruct H as (t & q & Hnow & H).
  unfold datetime_now in Hnow. inversion Hnow; subst t q; clear Hnow.
  apply for_each_inv in H.
  - destruct H as (Hp & Hlen & Hnth).
    rewrite range_down_length in Hp, Hlen.
    split; [exact Hp | split; [exact Hlen |]].
    intros j Hj i. subst i.
    destruct (Hnth j (days - Z.of_nat j)) as (y & Hy & Hb).
    { apply range_down_lookup. split; [exact Hj | reflexivity]. }
    step_body Hb.
    split; [lia |].
    rewrite Hy. rewrite random_draws_advance. simpl random_draws.
    rewrite (Nat.add_comm j). reflexivity.
  - intros x q q' y Hb. step_body Hb. reflexivity.
Qed.

Lemma advanced_forecast_inv (state prediction_date : string) (n : Z)
    (p p' : process) (l : list SeriesPoint) :
  AdvancedModelPredictor._generate_forecast_data E state prediction_date n p
  = (inr l, p') ->
  exists target,
    strptime E prediction_date "%Y-%m-%d" = inr target
    /\ p' = advance (Z.to_nat n) p
    /\ length l = Z.to_nat n
    /\ forall j : nat, (j < Z.to_nat n)%nat ->
         let i := 1 + Z.of_nat j in
         1 <= Calendar.toordinal target + i <= Calendar._MAXORDINAL
         /\ l !! j = Some
              {| date := Calendar.strftime (shifted target i);
                 usage :=
                   Rmax 0
                     (Py.round2
                        (IZR (100 + (py_hash E state mod 1000) mod 50)
                         + IZR i * 0.1
                         + seasonal (shifted target i)
                         + normal_sample E (random_draws p + j) 0 3)) |}.
Proof.
  intros H.
  unfold AdvancedModelPredictor._generate_forecast_data in H.
  apply bind_inv in H. destruct H as (target & q & Ht & H).
  unfold datetime_strptime, lift in Ht. inversion Ht as [[Htarget Hq]].
  subst q. exists target. split; [exact Htarget |].
  apply for_each_inv in H.
  - destruct H as (Hp & Hlen & Hnth).
    rewrite range_up_length in Hp, Hlen.
    split; [exact Hp | split; [exact Hlen |]].
    intros j Hj i. subst i.
    destruct (Hnth j (1 + Z.of_nat j)) as (y & Hy & Hb).
    { apply range_up_lookup. split; [exact Hj | reflexivity]. }
    step_body Hb.
    split; [lia |].
    rewrite Hy. rewrite random_draws_advance.
    rewrite (Nat.add_comm j). reflexivity.
  - intros x q q' y Hb. step_body Hb. reflexivity.
Qed.

End Series_more.

Section Advanced_engine.
Context (E : env).

Lemma advanced_prepare_features_inv (state : string) (lat lon : R)
    (prediction_date model_type : string) (p p' : process)
    (features : list (list R)) :
  AdvancedModelPredictor._prepare_features E state lat lon prediction_date
    model_type p = (inr features, p') ->
  exists target, strptime E prediction_date "%Y-%m-%d" = inr target /\ p' = p.
Proof.
  unfold AdvancedModelPredictor._prepare_features. intros H.
  apply bind_inv in H. destruct H as (target & q & Ht & H).
  apply (strptime_inv E) in Ht. destruct Ht as [Ht ->].
  unfold ret in H. inversion H. exists target. split; [exact Ht | reflexivity].
Qed.

Ltac advanced_synthetic_branch H target Htarget :=
  let d := fresh "d" in
  let q := fresh "q" in
  let Hd := fresh "Hd" in
  apply bind_inv in H; destruct H as (d & q & Hd & H);
  apply (strptime_inv E) in Hd; destruct Hd as [Hd ->];
  rewrite Htarget in Hd; inversion Hd; subst d;
  cbv beta iota delta [bind np_random_normal ret] in H;
  inversion H; subst; rewrite Rmax_round2.

(** The advanced predictor rounds inside each branch: its point
    prediction is the rounding of the same value [u]. *)
Lemma advanced_predict_inv (state : string) (lat lon : R)
    (prediction_date model_type : string) (p p' : process) (r : Prediction) :
  AdvancedModelPredictor.predict E state lat lon prediction_date model_type p
  = (inr r, p') ->
  exists model p1 features target u p2 hist p3 fc,
    AdvancedModelPredictor._load_model E state model_type p = (inr model, p1)
    /\ AdvancedModelPredictor._prepare_features E state lat lon
         prediction_date model_type p1 = (inr features, p1)
    /\ strptime E prediction_date "%Y-%m-%d" = inr target
    /\ point_outcome E state model_type model features target p1 u p2
    /\ AdvancedModelPredictor._generate_historical_data E state 90 p2
       = (inr hist, p3)
    /\ AdvancedModelPredictor._generate_forecast_data E state prediction_date
         (Z.max 1 (Calendar.sub_days target (clock_reading E (clock_reads p3))))
         (tick_clock p3) = (inr fc, p')
    /\ r = {| predicted_usage := Py.round2 u;
              model_type := model_type;
              historical_data := hist;
              forecast_data := fc;
              features_used := Rows features;
              model_loaded := Some true |}.
Proof.
  unfold AdvancedModelPredictor.predict. intros H.
  apply try_except_raise_inv in H.
  apply bind_inv in H. destruct H as (model & p1 & Hload & H).
  apply bind_inv in H. destruct H as (features & q & Hfeat & H).
  destruct (advanced_prepare_features_inv _ _ _ _ _ _ _ _ Hfeat)
    as (target & Htarget & ->).
  apply bind_inv in H. destruct H as (v & p2 & Hpoint & H).
  apply bind_inv in H. destruct H as (hist & p3 & Hhist & H).
  apply bind_inv in H. destruct H as (target' & q & Ht' & H).
  apply (strptime_inv E) in Ht'. destruct Ht' as [Ht' ->].
  rewrite Htarget in Ht'. inversion Ht'; subst target'.
  apply bind_inv in H. destruct H as (now & q & Hnow & H).
  unfold datetime_now in Hnow. inversion Hnow; subst now q.
  apply bind_inv in H. destruct H as (fc & q & Hfc & H).
  unfold ret in H. inversion H; subst q r.
  enough (Hu : exists u,
            point_outcome E state model_type model features target p1 u p2
            /\ v = Py.round2 u).
  { destruct Hu as (u & Hu & ->).
    exists model, p1, features, target, u, p2, hist, p3, fc.
    repeat (split; [first [assumption | reflexivity] |]). reflexivity. }
  unfold point_outcome, synthetic_point, fallback_point, base_usage_of.
  destruct (String.eqb_spec model_type "ARIMA") as [-> | _].
  { advanced_synthetic_branch Hpoint target Htarget.
    eexists. split; [left; repeat split |]; reflexivity. }
  destruct (String.eqb_spec model_type "XGBoost") as [-> | _].
  { unfold try_except in Hpoint.
    destruct model as [s | predict |]; cbn [hasattr_predict] in Hpoint.
    - cbv beta iota delta [raise bind np_random_normal ret] in Hpoint.
      inversion Hpoint; subst. rewrite Rmax_round2.
      eexists. split; [| reflexivity].
      right; right; right. split; [reflexivity |]. right.
      eexists; eexists. repeat split; reflexivity.
    - unfold bind at 1 in Hpoint.
      destruct (model_predict (Estimator predict) features p1)
        as [[e | y] q] eqn:Hm.
      + cbv beta iota delta [bind np_random_normal ret] in Hpoint.
        inversion Hpoint; subst. rewrite Rmax_round2.
        eexists. split; [| reflexivity].
        right; right; right. split; [reflexivity |]. right.
        exists e, q. repeat split; reflexivity.
      + unfold ret in Hpoint. inversion Hpoint; subst. rewrite Rmax_round2.
        eexists. split; [| reflexivity].
        right; right; right. split; [reflexivity |]. left.
        exists y. split; reflexivity.
    - cbv beta iota delta [raise bind np_random_normal ret] in Hpoint.
      inversion Hpoint; subst. rewrite Rmax_round2.
      eexists. split; [| reflexivity].
      right; right; right. split; [reflexivity |]. right.
      eexists; eexists. repeat split; reflexivity. }
  destruct (String.eqb_spec model_type "LSTM") as [-> | _].
  { advanced_synthetic_branch Hpoint target Htarget.
    eexists. split; [right; left; repeat split |]; reflexivity. }
  destruct (String.eqb_spec model_type "Prophet") as [-> | _].
  { advanced_synthetic_branch Hpoint target Htarget.
    eexists. split; [right; right; left; repeat split |]; reflexivity. }
  unfold raise in Hpoint. discriminate.
Qed.

End Advanced_engine.

(** ** The region name normaliser *)

Section Normalizer.

Lemma state_mapping_cases (k v : string) :
  ModelPredictor.state_mapping !! k = Some v ->
  In (k, v)
    [("Dadra & Nagar Haveli (DNH)", "DNH");
     ("Himachal Pradesh (HP)", "HP");
     ("Jammu & Kashmir (J&K)", "J&K");
     ("Madhya Pradesh (MP)", "MP");
     ("Puducherry (Pondy)", "Pondy");
     ("Uttar Pradesh (UP)", "UP")].
Proof.
  intros H. apply list_elem_of_In.
  apply (elem_of_list_to_map_2 (M := gmap string)) in H. exact H.
Qed.

Lemma model_state_of_value (k v : string) :
  ModelPredictor.state_mapping !! k = Some v ->
  In v ["DNH"; "HP"; "J&K"; "MP"; "Pondy"; "UP"]
  /\ ModelPredictor.model_state v = v.
Proof.
  intros H. apply state_mapping_cases in H. simpl in H.
  repeat (destruct H as [H | H];
          [inversion H; subst; split; [simpl; tauto | vm_compute; reflexivity] |]).
  contradiction.
Qed.

Lemma model_state_unmapped (x : string) :
  ModelPredictor.state_mapping !! x = None -> ModelPredictor.model_state x = x.
Proof. intros H. unfold ModelPredictor.model_state. now rewrite H. Qed.

(** C9. The region name normaliser (the lookup [state_mapping.get(state,
    state)] of [_get_model_path]) is idempotent; a label that is not a key
    of the six-entry table is a fixed point, every value of the table is
    one of DNH, HP, J&K, MP, Pondy, UP and is a fixed point too; the
    advanced predictor normalises in the same way. *)
Theorem normalizer_idempotent :
  (forall x : string,
     ModelPredictor.model_state (ModelPredictor.model_state x)
     = ModelPredictor.model_state x)
  /\ (forall x : string,
        ModelPredictor.state_mapping !! x = None ->
        ModelPredictor.model_state x = x)
  /\ (forall k v : string,
        ModelPredictor.state_mapping !! k = Some v ->
        In v ["DNH"; "HP"; "J&K"; "MP"; "Pondy"; "UP"]
        /\ ModelPredictor.model_state v = v)
  /\ size ModelPredictor.state_mapping = 6%nat
  /\ (forall x : string,
        AdvancedModelPredictor.model_state x = ModelPredictor.model_state x).
Proof.
  split; [| split; [| split; [| split]]].
  - intros x. destruct (ModelPredictor.state_mapping !! x) as [v |] eqn:Hx.
    + unfold ModelPredictor.model_state at 2 3. rewrite Hx. simpl.
      apply (model_state_of_value x v Hx).
    + now rewrite !(model_state_unmapped x Hx).
  - exact model_state_unmapped.
  - exact model_state_of_value.
  - vm_compute. reflexivity.
  - intros x. reflexivity.
Qed.

Example normalize_madhya_pradesh :
  ModelPredictor.model_state "Madhya Pradesh (MP)" = "MP"
  /\ artifact_path "models" "Madhya Pradesh (MP)" "XGBoost"
     = artifact_path "models" "MP" "XGBoost"
  /\ artifact_path "models" "MP" "XGBoost" = "models/MP_xgboost_model.joblib".
Proof. vm_compute. repeat split. Qed.

End Normalizer.

(** ** The model cache *)

Section Cache.

Lemma load_model_memoizes (state model_type : string) (p p1 : process)
    (model : Model) :
  ModelPredictor._load_model state model_type p = (inr model, p1) ->
  model_cache p1 !! cache_key state model_type = Some model
  /\ models_dir p1 = models_dir p.
Proof.
  rewrite load_model_eq.
  destruct (storage p !! _) as [file |]; [| discriminate].
  destruct (model_cache p !! cache_key state model_type) as [m |] eqn:Hc.
  - intros H. inversion H; subst. split; [exact Hc | reflexivity].
  - destruct (String.eqb model_type "LSTM").
    + intros H. inversion H; subst. split; [apply lookup_insert_eq | reflexivity].
    + destruct file; intros H; inversion H; subst.
      split; [apply lookup_insert_eq | reflexivity].
Qed.

Lemma load_model_cached (state model_type : string) (p : process)
    (model : Model) :
  model_cache p !! cache_key state model_type = Some model ->
  let path := artifact_path (models_dir p) state model_type in
  (forall file : Artifact,
     storage p !! path = Some file ->
     ModelPredictor._load_model state model_type p
     = (inr model, log (Ev_exists path) p))
  /\ (storage p !! path = None ->
      ModelPredictor._load_model state model_type p
      = (inl (Py.FileNotFoundError ("Model not found: " ++ path)),
         log (Ev_exists path) p)).
Proof.
  intros Hc path. subst path. split.
  - intros file Hfile. rewrite load_model_eq. now rewrite Hfile, Hc.
  - intros Hfile. rewrite load_model_eq. now rewrite Hfile.
Qed.

Lemma load_model_keeps_entries (state model_type key : string)
    (p p1 : process) (r : Py.exn + Model) (model : Model) :
  ModelPredictor._load_model state model_type p = (r, p1) ->
  model_cache p !! key = Some model ->
  model_cache p1 !! key = Some model.
Proof.
  rewrite load_model_eq. intros H Hkey.
  destruct (storage p !! _) as [file |]; [| inversion H; now subst].
  destruct (model_cache p !! cache_key state model_type) as [m |] eqn:Hc;
    [inversion H; now subst |].
  assert (Hne : cache_key state model_type <> key) by congruence.
  destruct (String.eqb model_type "LSTM").
  - inversion H; subst. cbn [model_cache set_model_cache].
    now rewrite lookup_insert_ne.
  - destruct file; inversion H; subst; cbn [model_cache set_model_cache log];
      [now rewrite lookup_insert_ne | exact Hkey].
Qed.

Lemma advanced_load_model_memoizes (E : env) (state model_type : string)
    (p p1 : process) (model : Model) :
  AdvancedModelPredictor._load_model E state model_type p = (inr model, p1) ->
  loaded_models p1 !! cache_key state model_type = Some model
  /\ models_dir p1 = models_dir p.
Proof.
  rewrite advanced_load_model_eq.
  destruct (storage p !! _) as [file |]; [| discriminate].
  destruct (loaded_models p !! cache_key state model_type) as [m |] eqn:Hc.
  - intros H. inversion H; subst. split; [exact Hc | reflexivity].
  - destruct (String.eqb model_type "LSTM").
    + destruct (TENSORFLOW_AVAILABLE E); [| discriminate].
      intros H. inversion H; subst. split; [apply lookup_insert_eq | reflexivity].
    + destruct (JOBLIB_AVAILABLE E); [| discriminate].
      destruct file; intros H; inversion H; subst.
      split; [apply lookup_insert_eq | reflexivity].
Qed.

Lemma advanced_load_model_cached (E : env) (state model_type : string)
    (p : process) (model : Model) :
  loaded_models p !! cache_key state model_type = Some model ->
  let path := artifact_path (models_dir p) state model_type in
  (forall file : Artifact,
     storage p !! path = Some file ->
     AdvancedModelPredictor._load_model E state model_type p
     = (inr model, log (Ev_exists path) p))
  /\ (storage p !! path = None ->
      AdvancedModelPredictor._load_model E state model_type p
      = (inl (Py.FileNotFoundError ("Model not found: " ++ path)),
         log (Ev_exists path) p)).
Proof.
  intros Hc path. subst path. split.
  - intros file Hfile. rewrite advanced_load_model_eq. now rewrite Hfile, Hc.
  - intros Hfile. rewrite advanced_load_model_eq. now rewrite Hfile.
Qed.

Lemma advanced_load_model_keeps_entries (E : env)
    (state model_type key : string) (p p1 : process) (r : Py.exn + Model)
    (model : Model) :
  AdvancedModelPredictor._load_model E state model_type p = (r, p1) ->
  loaded_models p !! key = Some model ->
  loaded_models p1 !! key = Some model.
Proof.
  rewrite advanced_load_model_eq. intros H Hkey.
  destruct (storage p !! _) as [file |]; [| inversion H; now subst].
  destruct (loaded_models p !! cache_key state model_type) as [m |] eqn:Hc;
    [inversion H; now subst |].
  assert (Hne : cache_key state model_type <> key) by congruence.
  destruct (String.eqb model_type "LSTM").
  - destruct (TENSORFLOW_AVAILABLE E); inversion H; subst;
      cbn [loaded_models set_loaded_models log];
      [now rewrite lookup_insert_ne | exact Hkey].
  - destruct (JOBLIB_AVAILABLE E); [| inversion H; now subst].
    destruct file; inversion H; subst;
      cbn [loaded_models set_loaded_models log];
      [now rewrite lookup_insert_ne | exact Hkey].
Qed.

(** C3, as the code has it. The first successful load of a (region,
    family) key is memoised, and no later load removes the entry. A later
    call for the key checks that the artifact path exists before it looks
    at the cache: when the path exists the cached handle is returned
    whatever the file now holds, the existence check being the only access
    to the store (nothing is deserialised again); when the file is gone
    the call fails with the not-found error although the key is cached.
    The advanced predictor does the same with [loaded_models]. *)
Theorem cache_memoizes_first_load (E : env) (state model_type : string)
    (p p1 : process) (model : Model) :
  (ModelPredictor._load_model state model_type p = (inr model, p1) ->
   model_cache p1 !! cache_key state model_type = Some model
   /\ (forall (state' model_type' : string) (q q' : process)
              (r : Py.exn + Model),
          model_cache q !! cache_key state model_type = Some model ->
          ModelPredictor._load_model state' model_type' q = (r, q') ->
          model_cache q' !! cache_key state model_type = Some model)
   /\ (forall q : process,
          model_cache q !! cache_key state model_type = Some model ->
          let path := artifact_path (models_dir q) state model_type in
          (forall file : Artifact,
             storage q !! path = Some file ->
             ModelPredictor._load_model state model_type q
             = (inr model, log (Ev_exists path) q))
          /\ (storage q !! path = None ->
              ModelPredictor._load_model state model_type q
              = (inl (Py.FileNotFoundError ("Model not found: " ++ path)),
                 log (Ev_exists path) q))))
  /\ (AdvancedModelPredictor._load_model E state model_type p
      = (inr model, p1) ->
      loaded_models p1 !! cache_key state model_type = Some model
      /\ (forall (state' model_type' : string) (q q' : process)
                 (r : Py.exn + Model),
             loaded_models q !! cache_key state model_type = Some model ->
             AdvancedModelPredictor._load_model E state' model_type' q
             = (r, q') ->
             loaded_models q' !! cache_key state model_type = Some model)
      /\ (forall q : process,
             loaded_models q !! cache_key state model_type = Some model ->
             let path := artifact_path (models_dir q) state model_type in
             (forall file : Artifact,
                storage q !! path = Some file ->
                AdvancedModelPredictor._load_model E state model_type q
                = (inr model, log (Ev_exists path) q))
             /\ (storage q !! path = None ->
                 AdvancedModelPredictor._load_model E state model_type q
                 = (inl (Py.FileNotFoundError ("Model not found: " ++ path)),
                    log (Ev_exists path) q)))).
Proof.
  split; intros Hload.
  - split; [exact (proj1 (load_model_memoizes _ _ _ _ _ Hload)) |].
    split.
    + intros state' model_type' q q' r Hq Hl.
      exact (load_model_keeps_entries _ _ _ _ _ _ _ Hl Hq).
    + intros q Hq. exact (load_model_cached _ _ _ _ Hq).
  - split; [exact (proj1 (advanced_load_model_memoizes _ _ _ _ _ _ Hload)) |].
    split.
    + intros state' model_type' q q' r Hq Hl.
      exact (advanced_load_model_keeps_entries _ _ _ _ _ _ _ _ Hl Hq).
    + intros q Hq. exact (advanced_load_model_cached _ _ _ _ _ Hq).
Qed.

(** C3 at the sample: the ARIMA artifact of Goa is loaded and cached. *)
Lemma cache_memoizes_first_load_witness :
  exists p1 : process,
    ModelPredictor._load_model "Goa" "ARIMA" (sample_process goa_store)
    = (inr Opaque, p1)
    /\ model_cache p1 !! cache_key "Goa" "ARIMA" = Some Opaque.
Proof.
  eexists. split.
  - vm_compute. reflexivity.
  - apply (proj1 (cache_memoizes_first_load (sample_env true) "Goa" "ARIMA"
                    (sample_process goa_store) _ Opaque)).
    vm_compute. reflexivity.
Defined.

(** C3 as stated fails: once the artifact file is removed, a call for a
    cached key raises the not-found error instead of returning the cached
    handle. *)
Lemma cached_load_depends_on_the_file :
  ~ (forall (state model_type : string) (p p1 : process) (model : Model),
       ModelPredictor._load_model state model_type p = (inr model, p1) ->
       forall store : gmap string Artifact,
       exists p2 : process,
         ModelPredictor._load_model state model_type (set_storage store p1)
         = (inr model, p2)).
Proof.
  intros H.
  destruct (H "Goa" "ARIMA" (sample_process goa_store)
              (snd (ModelPredictor._load_model "Goa" "ARIMA"
                      (sample_process goa_store)))
              Opaque) with (store := (∅ : gmap string Artifact))
    as (p2 & Hp2).
  - vm_compute. reflexivity.
  - vm_compute in Hp2. discriminate.
Qed.

End Cache.

(** ** The placeholder of the LSTM family *)

Section Placeholder.

Lemma lstm_load (state : string) (p : process) (file : Artifact) :
  let path := artifact_path (models_dir p) state "LSTM" in
  storage p !! path = Some file ->
  exists model,
    ModelPredictor._load_model state "LSTM" p
    = (inr model,
       match model_cache p !! cache_key state "LSTM" with
       | Some _ => log (Ev_exists path) p
       | None =>
           set_model_cache
             (<[cache_key state "LSTM" := model]> (model_cache p))
             (log (Ev_exists path) p)
       end)
    /\ (model_cache p !! cache_key state "LSTM" = None ->
        model = PyStr ("LSTM_MODEL_" ++ state)).
Proof.
  intros path Hfile. subst path. rewrite load_model_eq, Hfile.
  destruct (model_cache p !! cache_key state "LSTM") as [m |].
  - exists m. split; [reflexivity | discriminate].
  - exists (PyStr ("LSTM_MODEL_" ++ state)). split; reflexivity.
Qed.

Lemma advanced_lstm_load (E : env) (state : string) (p : process)
    (file : Artifact) :
  let path := artifact_path (models_dir p) state "LSTM" in
  storage p !! path = Some file ->
  TENSORFLOW_AVAILABLE E = true ->
  exists model,
    AdvancedModelPredictor._load_model E state "LSTM" p
    = (inr model,
       match loaded_models p !! cache_key state "LSTM" with
       | Some _ => log (Ev_exists path) p
       | None =>
           set_loaded_models
             (<[cache_key state "LSTM" := model]> (loaded_models p))
             (log (Ev_exists path) p)
       end)
    /\ (loaded_models p !! cache_key state "LSTM" = None ->
        model = PyStr ("LSTM_MODEL_" ++ state)).
Proof.
  intros path Hfile Htf. subst path.
  rewrite advanced_load_model_eq, Hfile, Htf.
  destruct (loaded_models p !! cache_key state "LSTM") as [m |].
  - exists m. split; [reflexivity | discriminate].
  - exists (PyStr ("LSTM_MODEL_" ++ state)). split; reflexivity.
Qed.

Lemma advanced_lstm_load_without_tensorflow (E : env) (state : string)
    (p : process) (file : Artifact) :
  let path := artifact_path (models_dir p) state "LSTM" in
  storage p !! path = Some file ->
  loaded_models p !! cache_key state "LSTM" = None ->
  TENSORFLOW_AVAILABLE E = false ->
  AdvancedModelPredictor._load_model E state "LSTM" p
  = (inl (Py.RuntimeError
            ("Failed to load model " ++ path
             ++ ": TensorFlow not available for LSTM models")),
     log (Ev_exists path) p).
Proof.
  intros path Hfile Hc Htf. subst path.
  now rewrite advanced_load_model_eq, Hfile, Hc, Htf.
Qed.

End Placeholder.

(** ** The synthetic families *)

Section Synthetic.
Context (E : env).

Lemma load_model_trace (state model_type : string) (p p1 : process)
    (r : Py.exn + Model) :
  ModelPredictor._load_model state model_type p = (r, p1) ->
  let path := artifact_path (models_dir p) state model_type in
  trace p1 = (trace p ++ [Ev_exists path])%list
  \/ trace p1 = (trace p ++ [Ev_exists path; Ev_load path])%list.
Proof.
  rewrite load_model_eq. intros H path. subst path.
  destruct (storage p !! _) as [file |]; [| inversion H; subst; now left].
  destruct (model_cache p !! _); [inversion H; subst; now left |].
  destruct (String.eqb model_type "LSTM"); [inversion H; subst; now left |].
  destruct file; inversion H; subst; right;
    cbn [trace set_model_cache log]; now rewrite <- app_assoc.
Qed.

Lemma advanced_load_model_trace (state model_type : string) (p p1 : process)
    (r : Py.exn + Model) :
  AdvancedModelPredictor._load_model E state model_type p = (r, p1) ->
  let path := artifact_path (models_dir p) state model_type in
  trace p1 = (trace p ++ [Ev_exists path])%list
  \/ trace p1 = (trace p ++ [Ev_exists path; Ev_load path])%list.
Proof.
  rewrite advanced_load_model_eq. intros H path. subst path.
  destruct (storage p !! _) as [file |]; [| inversion H; subst; now left].
  destruct (loaded_models p !! _); [inversion H; subst; now left |].
  destruct (String.eqb model_type "LSTM").
  - destruct (TENSORFLOW_AVAILABLE E); inversion H; subst; now left.
  - destruct (JOBLIB_AVAILABLE E); [| inversion H; subst; now left].
    destruct file; inversion H; subst; right;
      cbn [trace set_loaded_models log]; now rewrite <- app_assoc.
Qed.

Lemma advanced_load_model_frame (state model_type : string) (p p1 : process)
    (r : Py.exn + Model) :
  AdvancedModelPredictor._load_model E state model_type p = (r, p1) ->
  storage p1 = storage p /\ models_dir p1 = models_dir p
  /\ clock_reads p1 = clock_reads p /\ random_draws p1 = random_draws p.
Proof.
  rewrite advanced_load_model_eq.
  destruct (storage p !! _) as [file |]; [| intros H; inversion H; now subst].
  destruct (loaded_models p !! _); [intros H; inversion H; now subst |].
  destruct (String.eqb model_type "LSTM").
  - destruct (TENSORFLOW_AVAILABLE E); intros H; inversion H; now subst.
  - destruct (JOBLIB_AVAILABLE E); [| intros H; inversion H; now subst].
    destruct file; intros H; inversion H; now subst.
Qed.

(** What [point_outcome] says of a synthetic family. *)
Lemma point_outcome_synthetic (state model_type : string) (model : Model)
    (features : list (list R)) (target : Calendar.datetime)
    (p1 p2 : process) (u : R) :
  In model_type ["ARIMA"; "LSTM"; "Prophet"] ->
  point_outcome E state model_type model features target p1 u p2 ->
  u = synthetic_point E state target (noise_scale model_type) (random_draws p1)
  /\ p2 = tick_random p1.
Proof.
  intros Hfam Hpoint. simpl in Hfam.
  destruct Hfam as [<- | [<- | [<- | []]]];
    destruct Hpoint as [(Hm & -> & ->) | [(Hm & -> & ->) | [(Hm & -> & ->)
      | (Hm & _)]]]; try discriminate Hm; split; reflexivity.
Qed.

(** The clock is not read before the series are generated, whatever the
    family. *)
Lemma point_outcome_clock (state model_type : string) (model : Model)
    (features : list (list R)) (target : Calendar.datetime)
    (p1 p2 : process) (u : R) :
  point_outcome E state model_type model features target p1 u p2 ->
  clock_reads p2 = clock_reads p1 /\ (0 <= u)%R.
Proof.
  unfold synthetic_point, fallback_point.
  intros [(_ & -> & ->) | [(_ & -> & ->) | [(_ & -> & ->)
    | (_ & [(y & Hm & ->) | (e & q & Hm & -> & ->)])]]];
    try (split; [reflexivity | apply Rmax_l]).
  - apply model_predict_frame in Hm. destruct Hm as (_ & _ & Hc & _).
    split; [exact Hc | apply Rmax_l].
  - apply model_predict_frame in Hm. destruct Hm as (_ & _ & Hc & _).
    split; [exact Hc | apply Rmax_l].
Qed.

Lemma trace_advance (n : nat) (p : process) : trace (advance n p) = trace p.
Proof. now destruct (advance_fields n p) as (_ & _ & _ & _ & _ & ->). Qed.

Lemma clock_reads_advance (n : nat) (p : process) :
  clock_reads (advance n p) = clock_reads p.
Proof. now destruct (advance_fields n p) as (_ & _ & _ & _ & -> & _). Qed.

(** A synthetic family: the point prediction and the events of a run. *)
Lemma synthetic_prediction (state : string) (lat lon : R)
    (prediction_date model_type : string) (p p' : process) (r : Prediction) :
  In model_type ["ARIMA"; "LSTM"; "Prophet"] ->
  ModelPredictor.predict E state lat lon prediction_date model_type p
  = (inr r, p')
  \/ AdvancedModelPredictor.predict E state lat lon prediction_date
       model_type p = (inr r, p') ->
  exists target,
    strptime E prediction_date "%Y-%m-%d" = inr target
    /\ predicted_usage r
       = Py.round2 (synthetic_point E state target (noise_scale model_type)
                      (random_draws p))
    /\ let path := artifact_path (models_dir p) state model_type in
       trace p' = (trace p ++ [Ev_exists path])%list
       \/ trace p' = (trace p ++ [Ev_exists path; Ev_load path])%list.
Proof.
  intros Hfam [H | H].
  - apply predict_inv in H.
    destruct H as (model & p1 & features & target & u & p2 & hist & p3 & fc
                   & Hload & _ & Htarget & Hpoint & Hhist & Hfc & ->).
    destruct (point_outcome_synthetic _ _ _ _ _ _ _ _ Hfam Hpoint) as [-> ->].
    apply historical_inv in Hhist. destruct Hhist as (-> & _).
    apply forecast_inv in Hfc. destruct Hfc as (_ & _ & -> & _).
    destruct (load_model_frame _ _ _ _ _ Hload) as (_ & _ & _ & Hdraws).
    exists target. split; [exact Htarget |]. split.
    + cbn [predicted_usage]. now rewrite Hdraws.
    + rewrite trace_advance. cbn [trace tick_clock].
      rewrite trace_advance. cbn [trace tick_clock tick_random].
      exact (load_model_trace _ _ _ _ _ Hload).
  - apply advanced_predict_inv in H.
    destruct H as (model & p1 & features & target & u & p2 & hist & p3 & fc
                   & Hload & _ & Htarget & Hpoint & Hhist & Hfc & ->).
    destruct (point_outcome_synthetic _ _ _ _ _ _ _ _ Hfam Hpoint) as [-> ->].
    apply advanced_historical_inv in Hhist. destruct Hhist as (-> & _).
    apply advanced_forecast_inv in Hfc. destruct Hfc as (_ & _ & -> & _).
    destruct (advanced_load_model_frame _ _ _ _ _ Hload) as (_ & _ & _ & Hdraws).
    exists target. split; [exact Htarget |]. split.
    + cbn [predicted_usage]. now rewrite Hdraws.
    + rewrite trace_advance. cbn [trace tick_clock].
      rewrite trace_advance. cbn [trace tick_clock tick_random].
      exact (advanced_load_model_trace _ _ _ _ _ Hload).
Qed.

End Synthetic.

Section Placeholder_claim.

Lemma lstm_load_trace (state : string) (p p1 : process) (r : Py.exn + Model) :
  ModelPredictor._load_model state "LSTM" p = (r, p1) ->
  trace p1
  = (trace p ++ [Ev_exists (artifact_path (models_dir p) state "LSTM")])%list.
Proof.
  rewrite load_model_eq. intros H.
  destruct (storage p !! _) as [file |]; [| inversion H; now subst].
  destruct (model_cache p !! _); inversion H; now subst.
Qed.

Lemma advanced_lstm_load_trace (E : env) (state : string) (p p1 : process)
    (r : Py.exn + Model) :
  AdvancedModelPredictor._load_model E state "LSTM" p = (r, p1) ->
  trace p1
  = (trace p ++ [Ev_exists (artifact_path (models_dir p) state "LSTM")])%list.
Proof.
  rewrite advanced_load_model_eq. intros H.
  destruct (storage p !! _) as [file |]; [| inversion H; now subst].
  destruct (loaded_models p !! _); [inversion H; now subst |].
  change (String.eqb "LSTM" "LSTM") with true in H. cbv iota in H.
  destruct (TENSORFLOW_AVAILABLE E); inversion H; now subst.
Qed.

(** The sample request for Goa returns, for a family whose artifact loads. *)
Lemma sample_predict_returns (tensorflow : bool) (model_type : string)
    (model : Model) (p1 : process) :
  ModelPredictor._load_model "Goa" model_type (sample_process goa_store)
  = (inr model, p1) ->
  In model_type ["ARIMA"; "XGBoost"; "LSTM"; "Prophet"] ->
  exists r p',
    ModelPredictor.predict (sample_env tensorflow) "Goa" 15 74 "2024-12-01"
      model_type (sample_process goa_store) = (inr r, p').
Proof.
  intros Hload Hfam.
  apply (predict_returns (sample_env tensorflow) "Goa" 15 74 "2024-12-01"
           model_type (sample_process goa_store) p1 model
           (Calendar.mkDatetime 739221 0) Hload).
  - reflexivity.
  - exact Hfam.
  - vm_compute. split; [reflexivity | discriminate].
  - vm_compute. discriminate.
  - vm_compute. discriminate.
Qed.

(** C7, as the code has it. For the LSTM family the artifact is never
    deserialised: whenever the artifact path exists, [ModelPredictor] loads
    successfully, a first load giving the placeholder tagged with the
    region, and the existence check is the only access to the store; the
    advanced predictor does so provided TensorFlow could be imported, and
    raises the load error on a first load otherwise. A prediction for the
    family never calls the model: its run only checks that the path
    exists, and the point prediction is the synthetic one (noise
    scale 3). *)
Theorem lstm_placeholder_routes_to_fallback (E : env) (state : string) :
  (forall (p : process) (file : Artifact),
     let path := artifact_path (models_dir p) state "LSTM" in
     storage p !! path = Some file ->
     exists model p1,
       ModelPredictor._load_model state "LSTM" p = (inr model, p1)
       /\ (model_cache p !! cache_key state "LSTM" = None ->
           model = PyStr ("LSTM_MODEL_" ++ state))
       /\ trace p1 = (trace p ++ [Ev_exists path])%list)
  /\ (TENSORFLOW_AVAILABLE E = true ->
      forall (p : process) (file : Artifact),
        let path := artifact_path (models_dir p) state "LSTM" in
        storage p !! path = Some file ->
        exists model p1,
          AdvancedModelPredictor._load_model E state "LSTM" p = (inr model, p1)
          /\ (loaded_models p !! cache_key state "LSTM" = None ->
              model = PyStr ("LSTM_MODEL_" ++ state))
          /\ trace p1 = (trace p ++ [Ev_exists path])%list)
  /\ (forall (lat lon : R) (prediction_date : string) (p p' : process)
             (r : Prediction),
        ModelPredictor.predict E state lat lon prediction_date "LSTM" p
        = (inr r, p')
        \/ AdvancedModelPredictor.predict E state lat lon prediction_date
             "LSTM" p = (inr r, p') ->
        trace p'
        = (trace p ++ [Ev_exists (artifact_path (models_dir p) state "LSTM")])%list
        /\ exists target,
             strptime E prediction_date "%Y-%m-%d" = inr target
             /\ predicted_usage r
                = Py.round2 (synthetic_point E state target 3 (random_draws p)))
  /\ (TENSORFLOW_AVAILABLE E = false ->
      forall (p : process) (file : Artifact),
        let path := artifact_path (models_dir p) state "LSTM" in
        storage p !! path = Some file ->
        loaded_models p !! cache_key state "LSTM" = None ->
        AdvancedModelPredictor._load_model E state "LSTM" p
        = (inl (Py.RuntimeError
                  ("Failed to load model " ++ path
                   ++ ": TensorFlow not available for LSTM models")),
           log (Ev_exists path) p)).
Proof.
  split; [| split; [| split]];
    [| | | intros Htf p file path Hfile Hmiss;
           exact (advanced_lstm_load_without_tensorflow E state p file
                    Hfile Hmiss Htf)].
  - intros p file path Hfile.
    destruct (lstm_load state p file Hfile) as (model & Hload & Hmiss).
    eexists; eexists. split; [exact Hload |]. split; [exact Hmiss |].
    exact (lstm_load_trace _ _ _ _ Hload).
  - intros Htf p file path Hfile.
    destruct (advanced_lstm_load E state p file Hfile Htf)
      as (model & Hload & Hmiss).
    eexists; eexists. split; [exact Hload |]. split; [exact Hmiss |].
    exact (advanced_lstm_load_trace _ _ _ _ _ Hload).
  - intros lat lon prediction_date p p' r H.
    assert (Hfam : In "LSTM" ["ARIMA"; "LSTM"; "Prophet"]) by (simpl; tauto).
    destruct (synthetic_prediction E state lat lon prediction_date "LSTM"
                p p' r Hfam H) as (target & Htarget & Hu & _).
    split; [| exists target; split; [exact Htarget | exact Hu]].
    destruct H as [H | H].
    + apply predict_inv in H.
      destruct H as (model & p1 & features & t & u & p2 & hist & p3 & fc
                     & Hload & _ & _ & Hpoint & Hhist & Hfc & _).
      destruct (point_outcome_synthetic _ _ _ _ _ _ _ _ _ Hfam Hpoint) as [_ ->].
      apply historical_inv in Hhist. destruct Hhist as (-> & _).
      apply forecast_inv in Hfc. destruct Hfc as (_ & _ & -> & _).
      rewrite trace_advance. cbn [trace tick_clock].
      rewrite trace_advance. cbn [trace tick_clock tick_random].
      exact (lstm_load_trace _ _ _ _ Hload).
    + apply advanced_predict_inv in H.
      destruct H as (model & p1 & features & t & u & p2 & hist & p3 & fc
                     & Hload & _ & _ & Hpoint & Hhist & Hfc & _).
      destruct (point_outcome_synthetic _ _ _ _ _ _ _ _ _ Hfam Hpoint) as [_ ->].
      apply advanced_historical_inv in Hhist. destruct Hhist as (-> & _).
      apply advanced_forecast_inv in Hfc. destruct Hfc as (_ & _ & -> & _).
      rewrite trace_advance. cbn [trace tick_clock].
      rewrite trace_advance. cbn [trace tick_clock tick_random].
      exact (advanced_lstm_load_trace _ _ _ _ _ Hload).
Qed.

(** C7 at the sample: the LSTM file of Goa cannot be deserialised, and the
    load gives the placeholder. *)
Lemma lstm_placeholder_witness :
  exists model p1,
    ModelPredictor._load_model "Goa" "LSTM" (sample_process goa_store)
    = (inr model, p1)
    /\ (model_cache (sample_process goa_store) !! cache_key "Goa" "LSTM" = None ->
        model = PyStr "LSTM_MODEL_Goa")
    /\ trace p1 = [Ev_exists "models/Goa_lstm_model.h5"].
Proof.
  apply (proj1 (lstm_placeholder_routes_to_fallback (sample_env true) "Goa")
           (sample_process goa_store) (Damaged "not a pickle")).
  vm_compute. reflexivity.
Defined.

(** C7 as stated fails in the advanced predictor: without TensorFlow the
    load of an existing LSTM artifact raises the load error. *)
Lemma advanced_lstm_load_can_fail :
  ~ (forall (E : env) (state : string) (p : process) (file : Artifact),
       storage p !! artifact_path (models_dir p) state "LSTM" = Some file ->
       exists model p1,
         AdvancedModelPredictor._load_model E state "LSTM" p = (inr model, p1)).
Proof.
  intros H.
  destruct (H (sample_env false) "Goa" (sample_process goa_store)
              (Damaged "not a pickle")) as (model & p1 & Hload).
  - vm_compute. reflexivity.
  - rewrite (advanced_lstm_load_without_tensorflow (sample_env false) "Goa"
               (sample_process goa_store) (Damaged "not a pickle")) in Hload.
    + discriminate.
    + vm_compute. reflexivity.
    + vm_compute. reflexivity.
    + reflexivity.
Qed.

End Placeholder_claim.

(** ** The point prediction of the synthetic families *)

Section Point_prediction.

Lemma base_usage_range (E : env) (state : string) :
  100 <= base_usage_of E state <= 149.
Proof.
  unfold base_usage_of.
  pose proof (Z.mod_pos_bound (py_hash E state mod 1000) 50 ltac:(lia)). lia.
Qed.

Lemma seasonal_range (d : Calendar.datetime) : (-20 <= seasonal d <= 20)%R.
Proof.
  unfold seasonal.
  pose proof (SIN_bound (2 * PI * IZR (Calendar.tm_yday d) / 365.25)). lra.
Qed.

Lemma round2_Rmax_shift_ne (x : R) (k : Z) :
  (0 <= x)%R -> Z.even k = true -> 0 < k ->
  Py.round2 (Rmax 0 (x + IZR k / 100)) <> Py.round2 (Rmax 0 x).
Proof.
  intros Hx Hk Hpos.
  assert (0 < IZR k)%R by (apply IZR_lt; exact Hpos).
  rewrite !Rmax_right by lra.
  rewrite round2_shift by exact Hk. lra.
Qed.

(** C2, as the code has it. For ARIMA, LSTM and Prophet the loaded model
    is never called: a run only checks that the artifact exists and, on a
    first load, deserialises it. The point prediction is the base usage of
    the region plus a constant trend of 0.1, plus the seasonal term of the
    target date, plus a draw of scale 5, 3 or 4, floored at 0 and rounded
    to two decimal places. *)
Theorem synthetic_families_point_prediction (E : env) (state : string)
    (lat lon : R) (prediction_date model_type : string) (p p' : process)
    (r : Prediction) :
  In model_type ["ARIMA"; "LSTM"; "Prophet"] ->
  ModelPredictor.predict E state lat lon prediction_date model_type p
  = (inr r, p')
  \/ AdvancedModelPredictor.predict E state lat lon prediction_date
       model_type p = (inr r, p') ->
  (exists target,
     strptime E prediction_date "%Y-%m-%d" = inr target
     /\ predicted_usage r
        = Py.round2
            (Rmax 0
               (IZR (100 + (py_hash E state mod 1000) mod 50) + 0.1
                + 20 * sin (2 * PI * IZR (Calendar.tm_yday target) / 365.25)
                + normal_sample E (random_draws p) 0
                    (noise_scale model_type)))%R)
  /\ (exists events,
        trace p' = (trace p ++ events)%list
        /\ forall features, ~ In (Ev_predict features) events)
  /\ noise_scale "ARIMA" = 5%R /\ noise_scale "LSTM" = 3%R
  /\ noise_scale "Prophet" = 4%R.
Proof.
  intros Hfam H.
  destruct (synthetic_prediction E state lat lon prediction_date model_type
              p p' r Hfam H) as (target & Htarget & Hu & Htrace).
  split; [| split].
  - exists target. split; [exact Htarget | exact Hu].
  - destruct Htrace as [Ht | Ht]; eexists; (split; [exact Ht |]);
      intros features Hin; simpl in Hin;
      repeat (destruct Hin as [Hin | Hin]; [discriminate Hin |]);
      contradiction.
  - repeat split; reflexivity.
Qed.

(** C2 at the sample: an ARIMA prediction for Goa. *)
Lemma synthetic_families_point_prediction_witness :
  exists r p',
    ModelPredictor.predict (sample_env true) "Goa" 15 74 "2024-12-01" "ARIMA"
      (sample_process goa_store) = (inr r, p')
    /\ (exists events,
          trace p' = events
          /\ forall features, ~ In (Ev_predict features) events).
Proof.
  destruct (sample_predict_returns true "ARIMA" Opaque
              (snd (ModelPredictor._load_model "Goa" "ARIMA"
                      (sample_process goa_store))))
    as (r & p' & Hrun).
  - vm_compute. reflexivity.
  - simpl. tauto.
  - exists r, p'. split; [exact Hrun |].
    apply (synthetic_families_point_prediction (sample_env true) "Goa" 15 74
             "2024-12-01" "ARIMA" (sample_process goa_store) p' r).
    + simpl. tauto.
    + left. exact Hrun.
Defined.

(** C2 as stated fails: the trend of the point prediction is the constant
    0.1, not 0 times 0.1. *)
Lemma point_prediction_trend_is_not_zero :
  ~ (forall (E : env) (state : string) (lat lon : R)
            (prediction_date model_type : string) (p p' : process)
            (r : Prediction) (target : Calendar.datetime),
       In model_type ["ARIMA"; "LSTM"; "Prophet"] ->
       ModelPredictor.predict E state lat lon prediction_date model_type p
       = (inr r, p') ->
       strptime E prediction_date "%Y-%m-%d" = inr target ->
       predicted_usage r
       = Py.round2
           (Rmax 0
              (IZR (100 + (py_hash E state mod 1000) mod 50) + 0 * 0.1
               + 20 * sin (2 * PI * IZR (Calendar.tm_yday target) / 365.25)
               + normal_sample E (random_draws p) 0
                   (noise_scale model_type)))%R).
Proof.
  intros H.
  assert (Hfam : In "ARIMA" ["ARIMA"; "LSTM"; "Prophet"]) by (simpl; tauto).
  destruct (sample_predict_returns true "ARIMA" Opaque
              (snd (ModelPredictor._load_model "Goa" "ARIMA"
                      (sample_process goa_store))))
    as (r & p' & Hrun).
  { vm_compute. reflexivity. }
  { simpl. tauto. }
  destruct (synthetic_prediction (sample_env true) "Goa" 15 74 "2024-12-01"
              "ARIMA" (sample_process goa_store) p' r Hfam (or_introl Hrun))
    as (target & Htarget & Hu & _).
  specialize (H (sample_env true) "Goa" 15%R 74%R "2024-12-01" "ARIMA"
                (sample_process goa_store) p' r target Hfam Hrun Htarget).
  rewrite Hu in H. unfold synthetic_point in H.
  fold (base_usage_of (sample_env true) "Goa") in H.
  fold (seasonal target) in H.
  pose proof (base_usage_range (sample_env true) "Goa") as [Hb _].
  apply IZR_le in Hb.
  pose proof (seasonal_range target) as [Hs _].
  cbn [normal_sample sample_env] in H.
  revert H.
  replace (IZR (base_usage_of (sample_env true) "Goa") + 0.1
           + seasonal target + 0)%R
    with (IZR (base_usage_of (sample_env true) "Goa") + 0 * 0.1
          + seasonal target + 0 + IZR 10 / 100)%R by lra.
  apply round2_Rmax_shift_ne; [lra | reflexivity | lia].
Qed.

End Point_prediction.

(** ** The XGBoost family calls the model *)

Section Inference.
Context (E : env).

(** The counterpart of the synthetic families: with a loaded object that
    has a [predict] method, a prediction of the XGBoost family records the
    call of the model, whether the call returns or raises. *)
Lemma xgboost_prediction_calls_the_model (state : string) (lat lon : R)
    (prediction_date : string) (p p1 p' : process) (r : Prediction)
    (model : Model) :
  ModelPredictor.predict E state lat lon prediction_date "XGBoost" p
  = (inr r, p') ->
  ModelPredictor._load_model state "XGBoost" p = (inr model, p1) ->
  hasattr_predict model = true ->
  exists features, In (Ev_predict features) (trace p').
Proof.
  intros H Hload Hattr.
  apply predict_inv in H.
  destruct H as (model' & p1' & features & target & u & p2 & hist & p3 & fc
                 & Hload' & _ & _ & Hpoint & Hhist & Hfc & _).
  rewrite Hload in Hload'. inversion Hload'; subst model' p1'.
  apply historical_inv in Hhist. destruct Hhist as (-> & _).
  apply forecast_inv in Hfc. destruct Hfc as (_ & _ & -> & _).
  rewrite trace_advance. cbn [trace tick_clock].
  rewrite trace_advance. cbn [trace tick_clock].
  exists features.
  destruct model as [s | predict |]; try discriminate Hattr.
  destruct Hpoint as [(Hm & _) | [(Hm & _) | [(Hm & _) | (_ & Hx)]]];
    try discriminate Hm.
  destruct Hx as [(y & Hm & _) | (e & q & Hm & _ & ->)];
    unfold model_predict in Hm; inversion Hm; subst;
    cbn [trace log tick_random]; apply in_or_app; right; simpl; tauto.
Qed.

End Inference.

(** ** Unsupported model families *)

Section Unsupported.
Context (E : env).

Lemma unsupported_eqb (model_type : string) :
  ~ In model_type ["ARIMA"; "XGBoost"; "LSTM"; "Prophet"] ->
  String.eqb model_type "ARIMA" = false
  /\ String.eqb model_type "XGBoost" = false
  /\ String.eqb model_type "LSTM" = false
  /\ String.eqb model_type "Prophet" = false.
Proof.
  intros H. simpl in H.
  repeat split; apply String.eqb_neq; intros ->; tauto.
Qed.

(** [predict] of [ModelPredictor] on a family that is not recognised. *)
Lemma predict_unsupported_eq (state : string) (lat lon : R)
    (prediction_date model_type : string) (p : process) :
  ~ In model_type ["ARIMA"; "XGBoost"; "LSTM"; "Prophet"] ->
  ModelPredictor.predict E state lat lon prediction_date model_type p
  = match ModelPredictor._load_model state model_type p with
    | (inl e, p1) =>
        (inl (Py.RuntimeError ("Prediction failed: " ++ Py.str e)), p1)
    | (inr _, p1) =>
        match strptime E prediction_date "%Y-%m-%d" with
        | inl e =>
            (inl (Py.RuntimeError ("Prediction failed: " ++ Py.str e)), p1)
        | inr _ =>
            (inl (Py.RuntimeError
                    ("Prediction failed: Unsupported model type: "
                     ++ model_type)), p1)
        end
    end.
Proof.
  intros Hfam.
  destruct (unsupported_eqb model_type Hfam) as (H1 & H2 & H3 & H4).
  unfold ModelPredictor.predict.
  destruct (ModelPredictor._load_model state model_type p)
    as [[e | model] p1] eqn:Hload.
  - rewrite (try_except_inl _ _ _ _ _ (bind_inl _ _ _ _ _ Hload)).
    reflexivity.
  - unfold try_except. rewrite (bind_inr _ _ _ _ _ Hload).
    unfold ModelPredictor._prepare_features.
    cbv beta iota delta [bind datetime_strptime lift ret].
    destruct (strptime E prediction_date "%Y-%m-%d") as [e | target].
    + reflexivity.
    + rewrite H1, H2, H3, H4. reflexivity.
Qed.

(** [predict] of [AdvancedModelPredictor] on such a family. *)
Lemma advanced_predict_unsupported_eq (state : string) (lat lon : R)
    (prediction_date model_type : string) (p : process) :
  ~ In model_type ["ARIMA"; "XGBoost"; "LSTM"; "Prophet"] ->
  AdvancedModelPredictor.predict E state lat lon prediction_date model_type p
  = match AdvancedModelPredictor._load_model E state model_type p with
    | (inl e, p1) =>
        (inl (Py.RuntimeError ("Prediction failed: " ++ Py.str e)), p1)
    | (inr _, p1) =>
        match strptime E prediction_date "%Y-%m-%d" with
        | inl e =>
            (inl (Py.RuntimeError ("Prediction failed: " ++ Py.str e)), p1)
        | inr _ =>
            (inl (Py.RuntimeError
                    ("Prediction failed: Unsupported model type: "
                     ++ model_type)), p1)
        end
    end.
Proof.
  intros Hfam.
  destruct (unsupported_eqb model_type Hfam) as (H1 & H2 & H3 & H4).
  unfold AdvancedModelPredictor.predict.
  destruct (AdvancedModelPredictor._load_model E state model_type p)
    as [[e | model] p1] eqn:Hload.
  - rewrite (try_except_inl _ _ _ _ _ (bind_inl _ _ _ _ _ Hload)).
    reflexivity.
  - unfold try_except. rewrite (bind_inr _ _ _ _ _ Hload).
    unfold AdvancedModelPredictor._prepare_features.
    cbv beta iota delta [bind datetime_strptime lift ret].
    destruct (strptime E prediction_date "%Y-%m-%d") as [e | target].
    + reflexivity.
    + rewrite H1, H2, H3, H4. reflexivity.
Qed.

End Unsupported.

Section Unsupported_claim.

(** C1, as the code has it. A request whose family is not ARIMA, XGBoost,
    LSTM or Prophet never falls back: [predict] fails, and [main] prints a
    single error object, prints no series and exits with code 1. The
    family is examined after the artifact has been loaded and the date
    parsed, so the error is the unsupported-family one when both succeed,
    and the error of the load or of the date otherwise; when the artifact
    of the requested name is absent it is the not-found one. *)
Theorem unsupported_family_is_an_error (E : env) (state : string)
    (lat lon : R) (prediction_date model_type : string) (p : process) :
  ~ In model_type ["ARIMA"; "XGBoost"; "LSTM"; "Prophet"] ->
  (exists msg p',
     ModelPredictor.predict E state lat lon prediction_date model_type p
     = (inl (Py.RuntimeError ("Prediction failed: " ++ msg)), p'))
  /\ ModelPredictor.predict E state lat lon prediction_date model_type p
     = match ModelPredictor._load_model state model_type p with
       | (inl e, p1) =>
           (inl (Py.RuntimeError ("Prediction failed: " ++ Py.str e)), p1)
       | (inr _, p1) =>
           match strptime E prediction_date "%Y-%m-%d" with
           | inl e =>
               (inl (Py.RuntimeError ("Prediction failed: " ++ Py.str e)), p1)
           | inr _ =>
               (inl (Py.RuntimeError
                       ("Prediction failed: Unsupported model type: "
                        ++ model_type)), p1)
           end
       end
  /\ (forall (model : Model) (p1 : process) (target : Calendar.datetime),
        ModelPredictor._load_model state model_type p = (inr model, p1) ->
        strptime E prediction_date "%Y-%m-%d" = inr target ->
        ModelPredictor.predict E state lat lon prediction_date model_type p
        = (inl (Py.RuntimeError
                  ("Prediction failed: Unsupported model type: "
                   ++ model_type)), p1))
  /\ (let path := artifact_path (models_dir p) state model_type in
      storage p !! path = None ->
      ModelPredictor.predict E state lat lon prediction_date model_type p
      = (inl (Py.RuntimeError
                ("Prediction failed: Model not found: " ++ path)),
         log (Ev_exists path) p))
  /\ (forall script arg : string,
        decode_request E arg
        = inr (mkRequest state lat lon prediction_date model_type) ->
        exists msg p',
          AdvancedModelPredictor.main E [script; arg] p
          = ([Out_error ("Prediction failed: " ++ msg)], 1, p')).
Proof.
  intros Hfam. split; [| split; [| split; [| split]]].
  - rewrite (predict_unsupported_eq E) by exact Hfam.
    destruct (ModelPredictor._load_model state model_type p) as [[e | m] p1].
    + eexists; eexists; reflexivity.
    + destruct (strptime E prediction_date "%Y-%m-%d");
        eexists; eexists; reflexivity.
  - exact (predict_unsupported_eq E _ _ _ _ _ _ Hfam).
  - intros model p1 target Hload Htarget.
    rewrite (predict_unsupported_eq E) by exact Hfam.
    now rewrite Hload, Htarget.
  - intros path Hfile. subst path.
    rewrite (predict_unsupported_eq E) by exact Hfam.
    rewrite load_model_eq. now rewrite Hfile.
  - intros script arg Hreq.
    unfold AdvancedModelPredictor.main.
    cbv beta iota zeta delta [bind lift]. rewrite Hreq.
    cbv beta iota delta [req_state req_lat req_lon req_prediction_date
                         req_model_type].
    rewrite (advanced_predict_unsupported_eq E) by exact Hfam.
    destruct (AdvancedModelPredictor._load_model E state model_type _)
      as [[e | m] p1].
    + eexists; eexists; reflexivity.
    + destruct (strptime E prediction_date "%Y-%m-%d");
        eexists; eexists; reflexivity.
Qed.

(** C1 at the sample: the family [Unsupported]. *)
Lemma unsupported_family_witness :
  exists msg p',
    AdvancedModelPredictor.main (sample_env true)
      ["advanced-model-predictor.py"; sample_argument "Unsupported"]
      (sample_process goa_store)
    = ([Out_error ("Prediction failed: " ++ msg)], 1, p').
Proof.
  apply (proj2 (proj2 (proj2 (proj2
           (unsupported_family_is_an_error (sample_env true) "Goa" 15 74
              "2024-12-01" "Unsupported" (sample_process goa_store)
              ltac:(simpl; intros [H | [H | [H | [H | []]]]]; discriminate H)))))).
  vm_compute. reflexivity.
Defined.

(** C1 as stated fails: when no artifact carries the name of the family,
    the error is the not-found one, not the unsupported-family one. *)
Lemma unsupported_family_reports_missing_artifact :
  ~ (forall (E : env) (state : string) (lat lon : R)
            (prediction_date model_type : string) (p : process),
       ~ In model_type ["ARIMA"; "XGBoost"; "LSTM"; "Prophet"] ->
       exists p',
         ModelPredictor.predict E state lat lon prediction_date model_type p
         = (inl (Py.RuntimeError
                   ("Prediction failed: Unsupported model type: "
                    ++ model_type)), p')).
Proof.
  intros H.
  assert (Hfam : ~ In "Unsupported" ["ARIMA"; "XGBoost"; "LSTM"; "Prophet"]).
  { simpl. intros [E | [E | [E | [E | []]]]]; discriminate E. }
  destruct (H (sample_env true) "Goa" 15%R 74%R "2024-12-01" "Unsupported"
              (sample_process goa_store) Hfam) as (p' & Hp').
  rewrite (predict_unsupported_eq (sample_env true)) in Hp' by exact Hfam.
  rewrite load_model_eq in Hp'.
  vm_compute in Hp'. discriminate Hp'.
Qed.

End Unsupported_claim.

(** ** The series of a prediction *)

Section Prediction_series.
Context (E : env).

(** The two series of a prediction of either class, point by point: the
    historical series counts back from the first reading of the clock,
    the forecast series counts on from the target date. *)
Lemma predict_series (state : string) (lat lon : R)
    (prediction_date model_type : string) (p p' : process) (r : Prediction) :
  ModelPredictor.predict E state lat lon prediction_date model_type p
  = (inr r, p')
  \/ AdvancedModelPredictor.predict E state lat lon prediction_date
       model_type p = (inr r, p') ->
  exists (target : Calendar.datetime) (u : R) (draws : nat),
    strptime E prediction_date "%Y-%m-%d" = inr target
    /\ predicted_usage r = Py.round2 u /\ (0 <= u)%R
    /\ let today := clock_reading E (clock_reads p) in
       let now := clock_reading E (S (clock_reads p)) in
       let n := Z.max 1 (Calendar.sub_days target now) in
       length (historical_data r) = 90%nat
       /\ (forall j : nat, (j < 90)%nat ->
             let i := 90 - Z.of_nat j in
             1 <= Calendar.toordinal today - i <= Calendar._MAXORDINAL
             /\ historical_data r !! j = Some
                  {| date := Calendar.strftime (shifted today (- i));
                     usage :=
                       Py.round2
                         (Rmax 0
                            (IZR (base_usage_of E state) + IZR i * 0.1
                             + seasonal (shifted today (- i))
                             + normal_sample E (draws + j) 0 5)) |})
       /\ length (forecast_data r) = Z.to_nat n
       /\ (forall j : nat, (j < Z.to_nat n)%nat ->
             let i := 1 + Z.of_nat j in
             1 <= Calendar.toordinal target + i <= Calendar._MAXORDINAL
             /\ forecast_data r !! j = Some
                  {| date := Calendar.strftime (shifted target i);
                     usage :=
                       Py.round2
                         (Rmax 0
                            (IZR (base_usage_of E state) + IZR i * 0.1
                             + seasonal (shifted target i)
                             + normal_sample E (draws + 90 + j) 0 3)) |}).
Proof.
  intros [H | H].
  - apply predict_inv in H.
    destruct H as (model & p1 & features & target & u & p2 & hist & p3 & fc
                   & Hload & _ & Htarget & Hpoint & Hhist & Hfc & ->).
    destruct (point_outcome_clock E _ _ _ _ _ _ _ _ Hpoint) as [Hc2 Hu].
    destruct (load_model_frame _ _ _ _ _ Hload) as (_ & _ & Hc1 & _).
    apply historical_inv in Hhist. cbv zeta in Hhist.
    destruct Hhist as (-> & Hlen & Hnth).
    apply forecast_inv in Hfc.
    destruct Hfc as (target' & Htarget' & _ & Hflen & Hfnth).
    rewrite Htarget in Htarget'. inversion Htarget'; subst target'.
    rewrite clock_reads_advance in Hflen, Hfnth.
    cbn [clock_reads tick_clock] in Hflen, Hfnth.
    rewrite Hc2, Hc1 in Hnth, Hflen, Hfnth.
    exists target, u, (random_draws p2).
    split; [exact Htarget |]. split; [reflexivity |]. split; [exact Hu |].
    cbv zeta. cbn [historical_data forecast_data].
    split; [exact Hlen |]. split; [exact Hnth |]. split; [exact Hflen |].
    intros j Hj. destruct (Hfnth j Hj) as [Hrange Hpt].
    split; [exact Hrange |]. rewrite Hpt.
    cbn [random_draws tick_clock]. rewrite random_draws_advance.
    cbn [random_draws tick_clock].
    now rewrite (Nat.add_comm (Z.to_nat 90)).
  - apply advanced_predict_inv in H.
    destruct H as (model & p1 & features & target & u & p2 & hist & p3 & fc
                   & Hload & _ & Htarget & Hpoint & Hhist & Hfc & ->).
    destruct (point_outcome_clock E _ _ _ _ _ _ _ _ Hpoint) as [Hc2 Hu].
    destruct (advanced_load_model_frame E _ _ _ _ _ Hload) as (_ & _ & Hc1 & _).
    apply advanced_historical_inv in Hhist. cbv zeta in Hhist.
    destruct Hhist as (-> & Hlen & Hnth).
    apply advanced_forecast_inv in Hfc.
    destruct Hfc as (target' & Htarget' & _ & Hflen & Hfnth).
    rewrite Htarget in Htarget'. inversion Htarget'; subst target'.
    rewrite clock_reads_advance in Hflen, Hfnth.
    cbn [clock_reads tick_clock] in Hflen, Hfnth.
    rewrite Hc2, Hc1 in Hnth, Hflen, Hfnth.
    exists target, u, (random_draws p2).
    split; [exact Htarget |]. split; [reflexivity |]. split; [exact Hu |].
    cbv zeta. cbn [historical_data forecast_data].
    split; [exact Hlen |]. split.
    { intros j Hj. destruct (Hnth j Hj) as [Hrange Hpt].
      split; [exact Hrange |]. rewrite Hpt. now rewrite Rmax_round2. }
    split; [exact Hflen |].
    intros j Hj. destruct (Hfnth j Hj) as [Hrange Hpt].
    split; [exact Hrange |]. rewrite Hpt. rewrite Rmax_round2.
    cbn [random_draws tick_clock]. rewrite random_draws_advance.
    cbn [random_draws tick_clock].
    now rewrite (Nat.add_comm (Z.to_nat 90)).
Qed.

End Prediction_series.

(** ** The calendar: dates in text order *)

Section Calendar_order.

Lemma ord2ymd_year_day (n : Z) :
  Calendar._ord2ymd n
  = (fst (fst (year_day n)),
     fst (month_day (snd (fst (year_day n))) (snd (year_day n))),
     snd (month_day (snd (fst (year_day n))) (snd (year_day n)))).
Proof.
  unfold Calendar._ord2ymd, year_day.
  cbv zeta.
  destruct ((_ =? 4) || (_ =? 4)).
  - reflexivity.
  - cbn [fst snd]. unfold month_day. cbv zeta.
    destruct (_ <? _); reflexivity.
Qed.

Lemma year_day_spec (n : Z) :
  1 <= n ->
  let y := fst (fst (year_day n)) in
  let k := snd (fst (year_day n)) in
  let leap := snd (year_day n) in
  n - 1 = Calendar._days_before_year y + k
  /\ 0 <= k < 365 + (if leap then 1 else 0)
  /\ 1 <= y.
Proof.
  intros Hn. unfold year_day, Calendar._days_before_year.
  unfold Calendar._DI400Y, Calendar._DI100Y, Calendar._DI4Y.
  cbv zeta.
  destruct (Z.eqb_spec ((((n - 1) mod 146097) mod 36524) mod 1461 / 365) 4)
    as [H1 | H1];
  destruct (Z.eqb_spec ((n - 1) mod 146097 / 36524) 4) as [H100 | H100];
  cbn [orb fst snd].
  1-3: split; [| split; [lia |]]; Z.div_mod_to_equations; lia.
  destruct (Z.eqb_spec ((((n - 1) mod 146097) mod 36524) mod 1461 / 365) 3)
    as [H3 | H3];
  destruct (Z.eqb_spec (((n - 1) mod 146097) mod 36524 / 1461) 24)
    as [H24 | H24];
  destruct (Z.eqb_spec ((n - 1) mod 146097 / 36524) 3) as [H1003 | H1003];
  cbn [andb orb negb];
  (split; [| split]); Z.div_mod_to_equations; lia.
Qed.

Lemma year_day_leap (n : Z) :
  1 <= n ->
  snd (year_day n) = Calendar._is_leap (fst (fst (year_day n))).
Proof.
  intros Hn. unfold year_day, Calendar._is_leap.
  unfold Calendar._DI400Y, Calendar._DI100Y, Calendar._DI4Y.
  cbv zeta.
  destruct (Z.eqb_spec ((((n - 1) mod 146097) mod 36524) mod 1461 / 365) 4)
    as [H1 | H1];
  destruct (Z.eqb_spec ((n - 1) mod 146097 / 36524) 4) as [H100 | H100];
  cbn [orb fst snd];
  apply Bool.eq_iff_eq_true;
  rewrite ?andb_true_iff, ?orb_true_iff, ?negb_true_iff, ?Z.eqb_eq,
    ?Z.eqb_neq;
  Z.div_mod_to_equations; lia.
Qed.

Lemma days_before_year_succ (y : Z) :
  Calendar._days_before_year (y + 1)
  = Calendar._days_before_year y + 365
    + (if Calendar._is_leap y then 1 else 0).
Proof.
  unfold Calendar._days_before_year, Calendar._is_leap. cbv zeta.
  replace (y + 1 - 1) with y by lia.
  destruct (Z.eqb_spec (y mod 4) 0); destruct (Z.eqb_spec (y mod 100) 0);
    destruct (Z.eqb_spec (y mod 400) 0); cbn [andb orb negb];
    Z.div_mod_to_equations; lia.
Qed.

Lemma days_before_year_mono (y y' : Z) :
  y <= y' -> Calendar._days_before_year y <= Calendar._days_before_year y'.
Proof.
  intros H. unfold Calendar._days_before_year. cbv zeta.
  Z.div_mod_to_equations. lia.
Qed.

(** Later ordinals have a later year, or the same year and a later day. *)
Lemma year_day_increasing (n n' : Z) :
  1 <= n -> n < n' ->
  fst (fst (year_day n)) < fst (fst (year_day n'))
  \/ (fst (fst (year_day n)) = fst (fst (year_day n'))
      /\ snd (year_day n) = snd (year_day n')
      /\ snd (fst (year_day n)) < snd (fst (year_day n'))).
Proof.
  intros Hn Hlt.
  pose proof (year_day_spec n Hn) as Hs. cbv zeta in Hs.
  pose proof (year_day_spec n' ltac:(lia)) as Hs'. cbv zeta in Hs'.
  pose proof (year_day_leap n Hn) as Hl.
  pose proof (year_day_leap n' ltac:(lia)) as Hl'.
  destruct Hs as (He & Hk & Hy). destruct Hs' as (He' & Hk' & Hy').
  destruct (Z.lt_trichotomy (fst (fst (year_day n)))
              (fst (fst (year_day n')))) as [Hc | [Hc | Hc]].
  - left. exact Hc.
  - right. split; [exact Hc |]. split; [congruence |].
    rewrite Hc in He. lia.
  - exfalso.
    pose proof (days_before_year_mono (fst (fst (year_day n')) + 1)
                  (fst (fst (year_day n))) ltac:(lia)) as Hm.
    rewrite days_before_year_succ in Hm. rewrite <- Hl' in Hm. lia.
Qed.

Lemma month_day_table (leapyear : bool) :
  forallb (month_day_checked leapyear) (seq 0 366) = true.
Proof. destruct leapyear; vm_compute; reflexivity. Qed.

Lemma month_day_check (leapyear : bool) (k : Z) :
  0 <= k < 366 -> month_day_checked leapyear (Z.to_nat k) = true.
Proof.
  intros Hk.
  apply (proj1 (forallb_forall _ _) (month_day_table leapyear)).
  apply in_seq. lia.
Qed.

Lemma month_day_range (leapyear : bool) (k : Z) :
  0 <= k < 365 + (if leapyear then 1 else 0) ->
  1 <= fst (month_day k leapyear) <= 12
  /\ 1 <= snd (month_day k leapyear) <= 31.
Proof.
  intros Hk.
  pose proof (month_day_check leapyear k ltac:(destruct leapyear; lia)) as H.
  unfold month_day_checked in H. cbv zeta in H.
  rewrite Z2Nat.id in H by lia.
  apply andb_true_iff in H. destruct H as [H _].
  apply orb_true_iff in H. destruct H as [H | H].
  - apply negb_true_iff, Z.ltb_ge in H. lia.
  - rewrite !andb_true_iff, !Z.leb_le in H. lia.
Qed.

Lemma month_day_next (leapyear : bool) (k : Z) :
  0 <= k -> k + 1 < 365 + (if leapyear then 1 else 0) ->
  fst (month_day k leapyear) * 100 + snd (month_day k leapyear)
  < fst (month_day (k + 1) leapyear) * 100
    + snd (month_day (k + 1) leapyear).
Proof.
  intros Hk Hlast.
  pose proof (month_day_check leapyear k ltac:(destruct leapyear; lia)) as H.
  unfold month_day_checked in H. cbv zeta in H.
  rewrite Z2Nat.id in H by lia.
  apply andb_true_iff in H. destruct H as [_ H].
  apply orb_true_iff in H. destruct H as [H | H].
  - apply negb_true_iff, Z.ltb_ge in H. lia.
  - apply Z.ltb_lt in H. exact H.
Qed.

Lemma month_day_increasing (leapyear : bool) (k k' : Z) :
  0 <= k -> k < k' -> k' < 365 + (if leapyear then 1 else 0) ->
  fst (month_day k leapyear) * 100 + snd (month_day k leapyear)
  < fst (month_day k' leapyear) * 100 + snd (month_day k' leapyear).
Proof.
  intros Hk Hlt. assert (Hle : k + 1 <= k') by lia. clear Hlt.
  revert k' Hle.
  apply (Zlt_lower_bound_ind
           (fun k' =>
              k' < 365 + (if leapyear then 1 else 0) ->
              fst (month_day k leapyear) * 100 + snd (month_day k leapyear)
              < fst (month_day k' leapyear) * 100
                + snd (month_day k' leapyear)) (k + 1)).
  intros x IH Hx Hlast.
  destruct (Z.eq_dec x (k + 1)) as [-> | Hne].
  - apply month_day_next; lia.
  - specialize (IH (x - 1) ltac:(lia) ltac:(lia)).
    pose proof (month_day_next leapyear (x - 1) ltac:(lia) ltac:(lia)) as Hn.
    replace (x - 1 + 1) with x in Hn by lia. lia.
Qed.

(** Later ordinals have later dates. *)
Lemma date_code_increasing (n n' : Z) :
  1 <= n -> n < n' ->
  date_code (Calendar._ord2ymd n) < date_code (Calendar._ord2ymd n').
Proof.
  intros Hn Hlt. rewrite !ord2ymd_year_day. unfold date_code. cbn [fst snd].
  pose proof (year_day_spec n Hn) as Hs. cbv zeta in Hs.
  pose proof (year_day_spec n' ltac:(lia)) as Hs'. cbv zeta in Hs'.
  destruct Hs as (_ & Hk & _). destruct Hs' as (_ & Hk' & _).
  pose proof (month_day_range _ _ Hk) as Hr.
  pose proof (month_day_range _ _ Hk') as Hr'.
  destruct (year_day_increasing n n' Hn Hlt) as [Hy | (Hy & Hl & Hd)].
  - lia.
  - rewrite Hy, Hl. rewrite Hl in Hk.
    pose proof (month_day_increasing _ _ _ (proj1 Hk) Hd (proj2 Hk')). lia.
Qed.

Lemma year_day_year_max (n : Z) :
  1 <= n <= Calendar._MAXORDINAL -> fst (fst (year_day n)) <= 9999.
Proof.
  intros [Hn Hmax].
  pose proof (year_day_spec n Hn) as Hs. cbv zeta in Hs.
  destruct Hs as (He & Hk & _).
  destruct (Z_le_gt_dec (fst (fst (year_day n))) 9999) as [Hy | Hy];
    [exact Hy | exfalso].
  pose proof (days_before_year_mono 10000 (fst (fst (year_day n)))
                ltac:(lia)) as Hm.
  change (Calendar._days_before_year 10000) with 3652059 in Hm.
  unfold Calendar._MAXORDINAL in Hmax. lia.
Qed.

Lemma length_append (a b : string) :
  String.length (a ++ b) = (String.length a + String.length b)%nat.
Proof. induction a as [| c a IH]; simpl; [reflexivity | now rewrite IH]. Qed.

Lemma digits_length (w : nat) (n : Z) :
  String.length (Calendar.digits w n) = w.
Proof.
  revert n. induction w as [| w IH]; intros n; [reflexivity |].
  cbn [Calendar.digits]. rewrite length_append, IH. simpl. lia.
Qed.

Lemma compare_append (a a' b b' : string) :
  String.length a = String.length a' ->
  String.compare (a ++ b) (a' ++ b')
  = match String.compare a a' with
    | Eq => String.compare b b'
    | c => c
    end.
Proof.
  revert a'. induction a as [| c a IH]; intros [| c' a'] Hlen;
    try discriminate Hlen.
  - reflexivity.
  - simpl. destruct (Ascii.compare c c'); try reflexivity.
    apply IH. simpl in Hlen. congruence.
Qed.

Lemma digit_compare (a b : Z) :
  0 <= a <= 9 -> 0 <= b <= 9 ->
  Ascii.compare (Py.chr (48 + a)) (Py.chr (48 + b)) = (a ?= b).
Proof.
  intros Ha Hb. unfold Ascii.compare, Py.chr.
  rewrite !N_ascii_embedding by lia.
  rewrite Z2N.inj_compare by lia.
  apply Z.add_compare_mono_l.
Qed.

Lemma digits_compare (w : nat) (n n' : Z) :
  0 <= n < 10 ^ Z.of_nat w -> 0 <= n' < 10 ^ Z.of_nat w ->
  String.compare (Calendar.digits w n) (Calendar.digits w n') = (n ?= n').
Proof.
  revert n n'. induction w as [| w IH]; intros n n' Hn Hn'.
  - simpl in Hn, Hn'. assert (n = 0) by lia. assert (n' = 0) by lia.
    subst. reflexivity.
  - rewrite Nat2Z.inj_succ, Z.pow_succ_r in Hn, Hn' by lia.
    cbn [Calendar.digits].
    rewrite compare_append by now rewrite !digits_length.
    rewrite IH by (split; [apply Z.div_pos | apply Z.div_lt_upper_bound]; lia).
    simpl String.compare.
    rewrite digit_compare
      by (pose proof (Z.mod_pos_bound n 10); pose proof (Z.mod_pos_bound n' 10);
          lia).
    destruct (Z.compare_spec (n / 10) (n' / 10)) as [Hq | Hq | Hq];
      [destruct (Z.compare_spec (n mod 10) (n' mod 10)) as [Hr | Hr | Hr] |
       | ];
      symmetry;
      first [apply Z.compare_eq_iff | apply Z.compare_lt_iff
            | apply Z.compare_gt_iff];
      Z.div_mod_to_equations; lia.
Qed.

Lemma ord2ymd_ranges (n : Z) :
  1 <= n <= Calendar._MAXORDINAL ->
  1 <= fst (fst (Calendar._ord2ymd n)) <= 9999
  /\ 1 <= snd (fst (Calendar._ord2ymd n)) <= 12
  /\ 1 <= snd (Calendar._ord2ymd n) <= 31.
Proof.
  intros Hn. rewrite ord2ymd_year_day. cbn [fst snd].
  pose proof (year_day_spec n (proj1 Hn)) as Hs. cbv zeta in Hs.
  destruct Hs as (_ & Hk & Hy).
  pose proof (month_day_range _ _ Hk) as Hr.
  pose proof (year_day_year_max n Hn). lia.
Qed.

Lemma compare_dash (s s' : string) :
  String.compare ("-" ++ s) ("-" ++ s') = String.compare s s'.
Proof. reflexivity. Qed.

(** Dates written [YYYY-MM-DD] are ordered as texts the way their days
    are ordered. *)
Lemma strftime_increasing (a b : Calendar.datetime) :
  1 <= Calendar.toordinal a ->
  Calendar.toordinal a < Calendar.toordinal b ->
  Calendar.toordinal b <= Calendar._MAXORDINAL ->
  String.ltb (Calendar.strftime a) (Calendar.strftime b) = true.
Proof.
  intros Ha Hlt Hb.
  pose proof (date_code_increasing _ _ Ha Hlt) as Hcode.
  pose proof (ord2ymd_ranges (Calendar.toordinal a) ltac:(lia))
    as (Hy & Hm & Hd).
  pose proof (ord2ymd_ranges (Calendar.toordinal b) ltac:(lia))
    as (Hy' & Hm' & Hd').
  unfold date_code in Hcode.
  unfold String.ltb, Calendar.strftime, Calendar.year, Calendar.month,
    Calendar.day.
  rewrite compare_append by now rewrite !digits_length.
  rewrite digits_compare by (simpl; lia).
  destruct (Z.compare_spec (fst (fst (Calendar._ord2ymd (Calendar.toordinal a))))
              (fst (fst (Calendar._ord2ymd (Calendar.toordinal b)))))
    as [Hey | Hly | Hgy]; [| reflexivity | lia].
  rewrite compare_dash.
  rewrite compare_append by now rewrite !digits_length.
  rewrite digits_compare by (simpl; lia).
  destruct (Z.compare_spec (snd (fst (Calendar._ord2ymd (Calendar.toordinal a))))
              (snd (fst (Calendar._ord2ymd (Calendar.toordinal b)))))
    as [Hem | Hlm | Hgm]; [| reflexivity | lia].
  rewrite compare_dash.
  rewrite digits_compare by (simpl; lia).
  destruct (Z.compare_spec (snd (Calendar._ord2ymd (Calendar.toordinal a)))
              (snd (Calendar._ord2ymd (Calendar.toordinal b))))
    as [Hed | Hld | Hgd]; [lia | reflexivity | lia].
Qed.

End Calendar_order.

Section Series_claims.

Lemma rounded_usage (x : R) :
  (0 <= Py.round2 (Rmax 0 x))%R
  /\ Py.round2 (Py.round2 (Rmax 0 x)) = Py.round2 (Rmax 0 x).
Proof.
  split; [apply round2_nonneg, Rmax_l | apply round2_idempotent].
Qed.

(** The sample ARIMA request for Goa returns. *)
Lemma sample_arima_returns :
  exists r p',
    ModelPredictor.predict (sample_env true) "Goa" 15 74 "2024-12-01" "ARIMA"
      (sample_process goa_store) = (inr r, p').
Proof.
  apply (sample_predict_returns true "ARIMA" Opaque
           (snd (ModelPredictor._load_model "Goa" "ARIMA"
                   (sample_process goa_store)))).
  - vm_compute. reflexivity.
  - simpl. tauto.
Qed.

(** C8. In the result of a prediction (of either class), the predicted
    usage and the usage of every point of the historical and of the
    forecast series are non-negative and equal to their own rounding to
    two decimal places. *)
Theorem usage_values_nonnegative_two_decimals (E : env) (state : string)
    (lat lon : R) (prediction_date model_type : string) (p p' : process)
    (r : Prediction) :
  ModelPredictor.predict E state lat lon prediction_date model_type p
  = (inr r, p')
  \/ AdvancedModelPredictor.predict E state lat lon prediction_date
       model_type p = (inr r, p') ->
  ((0 <= predicted_usage r)%R
   /\ Py.round2 (predicted_usage r) = predicted_usage r)
  /\ Forall (fun pt => (0 <= usage pt)%R /\ Py.round2 (usage pt) = usage pt)
       (historical_data r)
  /\ Forall (fun pt => (0 <= usage pt)%R /\ Py.round2 (usage pt) = usage pt)
       (forecast_data r).
Proof.
  intros H.
  destruct (predict_series E _ _ _ _ _ _ _ _ H)
    as (target & u & draws & _ & Hu & Hu0 & Hseries).
  cbv zeta in Hseries.
  destruct Hseries as (Hlen & Hnth & Hflen & Hfnth).
  split; [| split].
  - rewrite Hu. split; [now apply round2_nonneg | apply round2_idempotent].
  - apply Forall_lookup. intros j pt Hpt.
    assert (Hj : (j < 90)%nat).
    { rewrite <- Hlen. eapply lookup_lt_Some. exact Hpt. }
    destruct (Hnth j Hj) as [_ Heq]. rewrite Heq in Hpt.
    inversion Hpt; subst pt. cbn [usage]. apply rounded_usage.
  - apply Forall_lookup. intros j pt Hpt.
    assert (Hj : (j < Z.to_nat (Z.max 1 (Calendar.sub_days target
                     (clock_reading E (S (clock_reads p))))))%nat).
    { rewrite <- Hflen. eapply lookup_lt_Some. exact Hpt. }
    destruct (Hfnth j Hj) as [_ Heq]. rewrite Heq in Hpt.
    inversion Hpt; subst pt. cbn [usage]. apply rounded_usage.
Qed.

(** C8 at the sample. *)
Lemma usage_values_witness :
  exists r p',
    ModelPredictor.predict (sample_env true) "Goa" 15 74 "2024-12-01" "ARIMA"
      (sample_process goa_store) = (inr r, p')
    /\ (0 <= predicted_usage r)%R
    /\ Py.round2 (predicted_usage r) = predicted_usage r.
Proof.
  destruct sample_arima_returns as (r & p' & Hrun).
  exists r, p'. split; [exact Hrun |].
  apply (usage_values_nonnegative_two_decimals (sample_env true) "Goa" 15 74
           "2024-12-01" "ARIMA" (sample_process goa_store) p' r).
  left. exact Hrun.
Defined.

(** C6. The historical series of a prediction (of either class) has
    exactly 90 points; point [j] is dated [90 - j] days before the day the
    clock gave when the series was generated, so the dates are consecutive
    days, the texts of the dates are strictly increasing, and the last one
    is the day before today. *)
Theorem historical_series_is_the_last_90_days (E : env) (state : string)
    (lat lon : R) (prediction_date model_type : string) (p p' : process)
    (r : Prediction) :
  ModelPredictor.predict E state lat lon prediction_date model_type p
  = (inr r, p')
  \/ AdvancedModelPredictor.predict E state lat lon prediction_date
       model_type p = (inr r, p') ->
  let today := clock_reading E (clock_reads p) in
  length (historical_data r) = 90%nat
  /\ (forall j : nat, (j < 90)%nat ->
        exists pt,
          historical_data r !! j = Some pt
          /\ date pt
             = Calendar.strftime (shifted today (Z.of_nat j - 90))
          /\ Calendar.toordinal (shifted today (Z.of_nat j - 90))
             = Calendar.toordinal today - 90 + Z.of_nat j
          /\ 1 <= Calendar.toordinal today - 90 + Z.of_nat j
             <= Calendar._MAXORDINAL)
  /\ (forall (i j : nat) (pi pj : SeriesPoint),
        (i < j)%nat ->
        historical_data r !! i = Some pi ->
        historical_data r !! j = Some pj ->
        String.ltb (date pi) (date pj) = true)
  /\ (exists pt,
        last (historical_data r) = Some pt
        /\ date pt = Calendar.strftime (shifted today (-1))).
Proof.
  intros H today.
  destruct (predict_series E _ _ _ _ _ _ _ _ H)
    as (target & u & draws & _ & _ & _ & Hseries).
  cbv zeta in Hseries. destruct Hseries as (Hlen & Hnth & _).
  fold today in Hnth.
  split; [exact Hlen |]. split; [| split].
  - intros j Hj. destruct (Hnth j Hj) as [Hrange Hpt].
    eexists. split; [exact Hpt |]. cbn [date].
    replace (- (90 - Z.of_nat j)) with (Z.of_nat j - 90) by lia.
    split; [reflexivity |]. split; [cbn [shifted Calendar.toordinal]; lia | lia].
  - intros i j pi pj Hij Hi Hj.
    assert (Hj90 : (j < 90)%nat).
    { rewrite <- Hlen. eapply lookup_lt_Some. exact Hj. }
    destruct (Hnth i ltac:(lia)) as [Hri Hpi].
    destruct (Hnth j Hj90) as [Hrj Hpj].
    rewrite Hpi in Hi. rewrite Hpj in Hj.
    inversion Hi; subst pi. inversion Hj; subst pj. cbn [date].
    apply strftime_increasing; cbn [shifted Calendar.toordinal]; lia.
  - destruct (Hnth 89%nat ltac:(lia)) as [_ Hpt].
    eexists. split.
    + rewrite last_lookup, Hlen. exact Hpt.
    + reflexivity.
Qed.

(** C6 at the sample. *)
Lemma historical_series_witness :
  exists r p',
    ModelPredictor.predict (sample_env true) "Goa" 15 74 "2024-12-01" "ARIMA"
      (sample_process goa_store) = (inr r, p')
    /\ length (historical_data r) = 90%nat
    /\ (exists pt,
          last (historical_data r) = Some pt /\ date pt = "2024-11-02").
Proof.
  destruct sample_arima_returns as (r & p' & Hrun).
  exists r, p'. split; [exact Hrun |].
  destruct (historical_series_is_the_last_90_days (sample_env true) "Goa"
              15 74 "2024-12-01" "ARIMA" (sample_process goa_store) p' r
              (or_introl Hrun)) as (Hlen & _ & _ & Hlast).
  split; [exact Hlen | exact Hlast].
Defined.

End Series_claims.

Section Forecast_claim.

(** [a < b] on naive datetimes. *)
Lemma sub_days_negative (a b : Calendar.datetime) :
  Calendar.toordinal a * Calendar.US_PER_DAY + Calendar.microsecond_of_day a
  < Calendar.toordinal b * Calendar.US_PER_DAY + Calendar.microsecond_of_day b ->
  Calendar.sub_days a b < 0.
Proof.
  intros H. unfold Calendar.sub_days.
  apply Z.div_lt_upper_bound; [reflexivity |]. lia.
Qed.

(** C4, as the code has it. The forecast series of a prediction has
    [N = max(1, d)] points, [d] being the whole days (rounded down) from
    the second reading of the clock to the target date, so it is never
    empty; point [j] is dated [j + 1] days after the target date (not
    after today), so the dates are consecutive days and their texts are
    strictly increasing; when the target date is before the reading of
    the clock the series has exactly one point. *)
Theorem forecast_series_follows_the_target_date (E : env) (state : string)
    (lat lon : R) (prediction_date model_type : string) (p p' : process)
    (r : Prediction) :
  ModelPredictor.predict E state lat lon prediction_date model_type p
  = (inr r, p')
  \/ AdvancedModelPredictor.predict E state lat lon prediction_date
       model_type p = (inr r, p') ->
  exists target,
    strptime E prediction_date "%Y-%m-%d" = inr target
    /\ let now := clock_reading E (S (clock_reads p)) in
       let n := Z.max 1 (Calendar.sub_days target now) in
       length (forecast_data r) = Z.to_nat n
       /\ (1 <= length (forecast_data r))%nat
       /\ (forall j : nat, (j < Z.to_nat n)%nat ->
             exists pt,
               forecast_data r !! j = Some pt
               /\ date pt
                  = Calendar.strftime (shifted target (1 + Z.of_nat j))
               /\ Calendar.toordinal (shifted target (1 + Z.of_nat j))
                  = Calendar.toordinal target + 1 + Z.of_nat j)
       /\ (forall (i j : nat) (pi pj : SeriesPoint),
             (i < j)%nat ->
             forecast_data r !! i = Some pi ->
             forecast_data r !! j = Some pj ->
             String.ltb (date pi) (date pj) = true)
       /\ (Calendar.toordinal target * Calendar.US_PER_DAY
           + Calendar.microsecond_of_day target
           < Calendar.toordinal now * Calendar.US_PER_DAY
             + Calendar.microsecond_of_day now ->
           length (forecast_data r) = 1%nat).
Proof.
  intros H.
  destruct (predict_series E _ _ _ _ _ _ _ _ H)
    as (target & u & draws & Htarget & _ & _ & Hseries).
  cbv zeta in Hseries. destruct Hseries as (_ & _ & Hflen & Hfnth).
  exists target. split; [exact Htarget |]. cbv zeta.
  split; [exact Hflen |]. split; [rewrite Hflen; lia |]. split; [| split].
  - intros j Hj. destruct (Hfnth j Hj) as [_ Hpt].
    eexists. split; [exact Hpt |]. split; [reflexivity |].
    cbn [shifted Calendar.toordinal]. lia.
  - intros i j pi pj Hij Hi Hj.
    assert (Hjn : (j < Z.to_nat (Z.max 1 (Calendar.sub_days target
                       (clock_reading E (S (clock_reads p))))))%nat).
    { rewrite <- Hflen. eapply lookup_lt_Some. exact Hj. }
    destruct (Hfnth i ltac:(lia)) as [Hri Hpi].
    destruct (Hfnth j Hjn) as [Hrj Hpj].
    rewrite Hpi in Hi. rewrite Hpj in Hj.
    inversion Hi; subst pi. inversion Hj; subst pj. cbn [date].
    apply strftime_increasing; cbn [shifted Calendar.toordinal]; lia.
  - intros Hpast. rewrite Hflen.
    pose proof (sub_days_negative _ _ Hpast). 
    replace (Z.max 1 _) with 1 by lia. reflexivity.
Qed.

(** C4 at the sample: a request made on 2024-11-03 for 2024-12-01. *)
Lemma forecast_series_witness :
  exists r p',
    ModelPredictor.predict (sample_env true) "Goa" 15 74 "2024-12-01" "ARIMA"
      (sample_process goa_store) = (inr r, p')
    /\ length (forecast_data r) = 27%nat
    /\ (exists pt, forecast_data r !! 0%nat = Some pt /\ date pt = "2024-12-02").
Proof.
  destruct sample_arima_returns as (r & p' & Hrun).
  exists r, p'. split; [exact Hrun |].
  destruct (forecast_series_follows_the_target_date (sample_env true) "Goa"
              15 74 "2024-12-01" "ARIMA" (sample_process goa_store) p' r
              (or_introl Hrun)) as (target & Htarget & Hlen & _ & Hnth & _ & _).
  assert (Ht : target = Calendar.mkDatetime 739221 0).
  { vm_compute in Htarget. now inversion Htarget. }
  subst target. split; [exact Hlen |].
  destruct (Hnth 0%nat) as (pt & Hpt & Hdate & _).
  { vm_compute. lia. }
  exists pt. split; [exact Hpt | exact Hdate].
Defined.

(** C4 as stated fails: the forecast series counts from the target date,
    not from today. *)
Lemma forecast_series_does_not_start_after_today :
  ~ (forall (E : env) (state : string) (lat lon : R)
            (prediction_date model_type : string) (p p' : process)
            (r : Prediction),
       ModelPredictor.predict E state lat lon prediction_date model_type p
       = (inr r, p') ->
       forall (j : nat) (pt : SeriesPoint),
         forecast_data r !! j = Some pt ->
         date pt
         = Calendar.strftime
             (shifted (clock_reading E (S (clock_reads p))) (1 + Z.of_nat j))).
Proof.
  intros H.
  destruct sample_arima_returns as (r & p' & Hrun).
  destruct (predict_series (sample_env true) "Goa" 15 74 "2024-12-01" "ARIMA"
              (sample_process goa_store) p' r (or_introl Hrun))
    as (target & u & draws & Htarget & _ & _ & Hseries).
  cbv zeta in Hseries. destruct Hseries as (_ & _ & _ & Hfnth).
  assert (Ht : target = Calendar.mkDatetime 739221 0).
  { vm_compute in Htarget. now inversion Htarget. }
  subst target.
  destruct (Hfnth 0%nat) as [_ Hpt].
  { vm_compute. lia. }
  specialize (H _ _ _ _ _ _ _ _ _ Hrun 0%nat _ Hpt).
  cbn [date] in H. vm_compute in H. discriminate H.
Qed.

End Forecast_claim.

(** ** The trend of the historical series *)

Section Trend.
Context (E : env).

(** The historical series of the simplified predictor. *)
Lemma simple_historical_inv (state : string) (lat lon : R)
    (prediction_date model_type : string) (p p' : process) (r : Prediction) :
  Simple.generate_prediction E state lat lon prediction_date model_type p
  = (inr r, p') ->
  let today := clock_reading E (clock_reads p) in
  length (historical_data r) = 90%nat
  /\ forall j : nat, (j < 90)%nat ->
       let i := 90 - Z.of_nat j in
       historical_data r !! j = Some
         {| date := Calendar.strftime (shifted today (- i));
            usage :=
              Rmax 0
                (Py.round2
                   (IZR (100 + Simple.hash_string state mod 50)
                    + IZR (90 - i) * 0.1
                    + seasonal (shifted today (- i))
                    + (uniform_sample E (random_draws p + 1 + j) - 0.5) * 10
                    + 300)) |}.
Proof.
  intros H today. subst today.
  unfold Simple.generate_prediction in H.
  apply bind_inv in H. destruct H as (pred_date & q & Hd & H).
  apply (strptime_inv E) in Hd. destruct Hd as [Hd ->].
  apply bind_inv in H. destruct H as (today & q & Hnow & H).
  unfold datetime_now in Hnow. inversion Hnow; subst today q; clear Hnow.
  apply bind_inv in H. destruct H as (u & q & Hu & H).
  unfold np_random_random in Hu. inversion Hu; subst u q; clear Hu.
  apply bind_inv in H. destruct H as (hist & q & Hhist & H).
  apply bind_inv in H. destruct H as (fc & q' & Hfc & H).
  unfold ret in H. inversion H; subst r q'; clear H.
  cbn [historical_data].
  apply for_each_inv in Hhist.
  - destruct Hhist as (_ & Hlen & Hnth).
    rewrite range_down_length in Hlen.
    split; [exact Hlen |].
    intros j Hj. cbv zeta.
    destruct (Hnth j (90 - Z.of_nat j)) as (y & Hy & Hb).
    { apply range_down_lookup. split; [exact Hj | reflexivity]. }
    step_body Hb.
    rewrite Hy. rewrite random_draws_advance.
    cbn [random_draws tick_random tick_clock].
    replace (j + S (random_draws p))%nat with (random_draws p + 1 + j)%nat
      by lia.
    reflexivity.
  - intros x q0 q0' y Hb. step_body Hb. reflexivity.
Qed.

End Trend.

Section Trend_claim.

(** C5, as the code has it. In [ModelPredictor] and in
    [AdvancedModelPredictor] the trend term of the historical point dated
    [k] days before today is [k * 0.1] (the offset is the distance itself,
    not its opposite), so the trend grows with the distance and strictly
    decreases as dates approach today; in the simplified predictor it is
    [(90 - k) * 0.1], which strictly increases as dates approach today. *)
Theorem historical_trend_is_a_tenth_of_the_distance (E : env)
    (state : string) :
  (forall (days : Z) (p p' : process) (l : list SeriesPoint),
     ModelPredictor._generate_historical_data E state days p = (inr l, p') ->
     let today := clock_reading E (clock_reads p) in
     forall j : nat, (j < Z.to_nat days)%nat ->
       let k := days - Z.of_nat j in
       l !! j = Some
         {| date := Calendar.strftime (shifted today (- k));
            usage :=
              Py.round2
                (Rmax 0
                   (IZR (100 + (py_hash E state mod 1000) mod 50)
                    + IZR k * 0.1
                    + seasonal (shifted today (- k))
                    + normal_sample E (random_draws p + j) 0 5)) |})
  /\ (forall (days : Z) (p p' : process) (l : list SeriesPoint),
        AdvancedModelPredictor._generate_historical_data E state days p
        = (inr l, p') ->
        let today := clock_reading E (clock_reads p) in
        forall j : nat, (j < Z.to_nat days)%nat ->
          let k := days - Z.of_nat j in
          l !! j = Some
            {| date := Calendar.strftime (shifted today (- k));
               usage :=
                 Rmax 0
                   (Py.round2
                      (IZR (100 + (py_hash E state mod 1000) mod 50)
                       + IZR k * 0.1
                       + seasonal (shifted today (- k))
                       + normal_sample E (random_draws p + j) 0 5)) |})
  /\ (forall k1 k2 : Z, k1 < k2 -> (IZR k1 * 0.1 < IZR k2 * 0.1)%R)
  /\ (forall (lat lon : R) (prediction_date model_type : string)
             (p p' : process) (r : Prediction),
        Simple.generate_prediction E state lat lon prediction_date
          model_type p = (inr r, p') ->
        let today := clock_reading E (clock_reads p) in
        forall j : nat, (j < 90)%nat ->
          let k := 90 - Z.of_nat j in
          historical_data r !! j = Some
            {| date := Calendar.strftime (shifted today (- k));
               usage :=
                 Rmax 0
                   (Py.round2
                      (IZR (100 + Simple.hash_string state mod 50)
                       + IZR (90 - k) * 0.1
                       + seasonal (shifted today (- k))
                       + (uniform_sample E (random_draws p + 1 + j) - 0.5) * 10
                       + 300)) |})
  /\ (forall k1 k2 : Z,
        k1 < k2 -> (IZR (90 - k2) * 0.1 < IZR (90 - k1) * 0.1)%R).
Proof.
  split; [| split; [| split; [| split]]].
  - intros days p p' l H today j Hj.
    apply historical_inv in H. destruct H as (_ & _ & Hnth).
    exact (proj2 (Hnth j Hj)).
  - intros days p p' l H today j Hj.
    apply advanced_historical_inv in H. destruct H as (_ & _ & Hnth).
    exact (proj2 (Hnth j Hj)).
  - intros k1 k2 Hk. apply IZR_lt in Hk. lra.
  - intros lat lon prediction_date model_type p p' r H today j Hj.
    apply simple_historical_inv in H. destruct H as (_ & Hnth).
    exact (Hnth j Hj).
  - intros k1 k2 Hk.
    assert (90 - k2 < 90 - k1) as Hlt by lia. apply IZR_lt in Hlt. lra.
Qed.

(** The historical series of the sample. *)
Lemma sample_historical_returns :
  exists l p',
    ModelPredictor._generate_historical_data (sample_env true) "Goa" 90
      (sample_process goa_store) = (inr l, p').
Proof.
  destruct (historical_returns (sample_env true) "Goa" 90
              (sample_process goa_store)) as (l & Hl).
  - lia.
  - vm_compute. split; [reflexivity | discriminate].
  - eexists; eexists; exact Hl.
Qed.

(** C5 at the sample: the oldest point, 90 days before 2024-11-03. *)
Lemma historical_trend_witness :
  exists l p' pt,
    ModelPredictor._generate_historical_data (sample_env true) "Goa" 90
      (sample_process goa_store) = (inr l, p')
    /\ l !! 0%nat = Some pt /\ date pt = "2024-08-05".
Proof.
  destruct sample_historical_returns as (l & p' & Hrun).
  exists l, p'. eexists. split; [exact Hrun |]. split.
  - apply (proj1 (historical_trend_is_a_tenth_of_the_distance
                    (sample_env true) "Goa") 90 (sample_process goa_store)
             p' l Hrun 0%nat).
    vm_compute. lia.
  - vm_compute. reflexivity.
Defined.

(** C5 as stated fails: the trend of the point 90 days before today is
    9, not -9. *)
Lemma historical_trend_is_not_negative :
  ~ (forall (E : env) (state : string) (days : Z) (p p' : process)
            (l : list SeriesPoint),
       ModelPredictor._generate_historical_data E state days p = (inr l, p') ->
       let today := clock_reading E (clock_reads p) in
       forall (j : nat) (pt : SeriesPoint),
         l !! j = Some pt ->
         let k := days - Z.of_nat j in
         usage pt
         = Py.round2
             (Rmax 0
                (IZR (100 + (py_hash E state mod 1000) mod 50)
                 + IZR (- k) * 0.1
                 + seasonal (shifted today (- k))
                 + normal_sample E (random_draws p + j) 0 5))%R).
Proof.
  intros H.
  destruct sample_historical_returns as (l & p' & Hrun).
  pose proof (historical_inv _ _ _ _ _ _ Hrun) as Hinv. cbv zeta in Hinv.
  destruct Hinv as (_ & _ & Hnth).
  destruct (Hnth 0%nat) as [_ Hpt]; [vm_compute; lia |].
  specialize (H _ _ _ _ _ _ Hrun 0%nat _ Hpt). cbv zeta in H.
  cbn [usage normal_sample sample_env] in H.
  fold (base_usage_of (sample_env true) "Goa") in H.
  pose proof (base_usage_range (sample_env true) "Goa") as [Hb _].
  apply IZR_le in Hb.
  set (d := shifted _ _) in H.
  pose proof (seasonal_range d) as [Hs _].
  change (90 - Z.of_nat 0) with 90 in H.
  revert H.
  replace (IZR (base_usage_of (sample_env true) "Goa") + IZR 90 * 0.1
           + seasonal d + 0)%R
    with (IZR (base_usage_of (sample_env true) "Goa") + IZR (- 90) * 0.1
          + seasonal d + 0 + IZR 1800 / 100)%R by lra.
  apply round2_Rmax_shift_ne; [rewrite opp_IZR; lra | reflexivity | lia].
Qed.

End Trend_claim.

(** ** The base usage of a region *)

Section Base_usage.

Lemma mod_1000_mod_50 (h : Z) : (h mod 1000) mod 50 = h mod 50.
Proof.
  Z.div_mod_to_equations. lia.
Qed.

Lemma hash_string_nonneg (s : string) : 0 <= Simple.hash_string s.
Proof. unfold Simple.hash_string. apply Z.abs_nonneg. Qed.

(** A prediction of either class, with the process [p2] in which the
    series start. *)
Lemma predict_explicit (E : env) (state : string) (lat lon : R)
    (prediction_date family : string) (p p' : process) (r : Prediction) :
  ModelPredictor.predict E state lat lon prediction_date family p
  = (inr r, p')
  \/ AdvancedModelPredictor.predict E state lat lon prediction_date
       family p = (inr r, p') ->
  exists (target : Calendar.datetime) (model : Model)
         (features : list (list R)) (p1 : process) (u : R) (p2 : process),
    strptime E prediction_date "%Y-%m-%d" = inr target
    /\ random_draws p1 = random_draws p
    /\ point_outcome E state family model features target p1 u p2
    /\ predicted_usage r = Py.round2 u
    /\ let today := clock_reading E (clock_reads p) in
       let now := clock_reading E (S (clock_reads p)) in
       let n := Z.max 1 (Calendar.sub_days target now) in
       length (historical_data r) = 90%nat
       /\ (forall j : nat, (j < 90)%nat ->
             let i := 90 - Z.of_nat j in
             historical_data r !! j = Some
               {| date := Calendar.strftime (shifted today (- i));
                  usage :=
                    Py.round2
                      (Rmax 0
                         (IZR (base_usage_of E state) + IZR i * 0.1
                          + seasonal (shifted today (- i))
                          + normal_sample E (random_draws p2 + j) 0 5)) |})
       /\ length (forecast_data r) = Z.to_nat n
       /\ (forall j : nat, (j < Z.to_nat n)%nat ->
             let i := 1 + Z.of_nat j in
             forecast_data r !! j = Some
               {| date := Calendar.strftime (shifted target i);
                  usage :=
                    Py.round2
                      (Rmax 0
                         (IZR (base_usage_of E state) + IZR i * 0.1
                          + seasonal (shifted target i)
                          + normal_sample E (random_draws p2 + 90 + j) 0 3)) |}).
Proof.
  intros [H | H].
  - apply predict_inv in H.
    destruct H as (model & p1 & features & target & u & p2 & hist & p3 & fc
                   & Hload & _ & Htarget & Hpoint & Hhist & Hfc & ->).
    destruct (point_outcome_clock E _ _ _ _ _ _ _ _ Hpoint) as [Hc2 _].
    destruct (load_model_frame _ _ _ _ _ Hload) as (_ & _ & Hc1 & Hd1).
    apply historical_inv in Hhist. cbv zeta in Hhist.
    destruct Hhist as (-> & Hlen & Hnth).
    apply forecast_inv in Hfc.
    destruct Hfc as (target' & Htarget' & _ & Hflen & Hfnth).
    rewrite Htarget in Htarget'. inversion Htarget'; subst target'.
    rewrite clock_reads_advance in Hflen, Hfnth.
    cbn [clock_reads tick_clock] in Hflen, Hfnth.
    rewrite Hc2, Hc1 in Hnth, Hflen, Hfnth.
    exists target, model, features, p1, u, p2.
    split; [exact Htarget |]. split; [exact Hd1 |].
    split; [exact Hpoint |]. split; [reflexivity |].
    cbv zeta. cbn [historical_data forecast_data].
    split; [exact Hlen |]. split.
    { intros j Hj. destruct (Hnth j Hj) as [_ Hpt]. exact Hpt. }
    split; [exact Hflen |].
    intros j Hj. destruct (Hfnth j Hj) as [_ Hpt]. rewrite Hpt.
    cbn [random_draws tick_clock]. rewrite random_draws_advance.
    cbn [random_draws tick_clock].
    now rewrite (Nat.add_comm (Z.to_nat 90)).
  - apply advanced_predict_inv in H.
    destruct H as (model & p1 & features & target & u & p2 & hist & p3 & fc
                   & Hload & _ & Htarget & Hpoint & Hhist & Hfc & ->).
    destruct (point_outcome_clock E _ _ _ _ _ _ _ _ Hpoint) as [Hc2 _].
    destruct (advanced_load_model_frame E _ _ _ _ _ Hload)
      as (_ & _ & Hc1 & Hd1).
    apply advanced_historical_inv in Hhist. cbv zeta in Hhist.
    destruct Hhist as (-> & Hlen & Hnth).
    apply advanced_forecast_inv in Hfc.
    destruct Hfc as (target' & Htarget' & _ & Hflen & Hfnth).
    rewrite Htarget in Htarget'. inversion Htarget'; subst target'.
    rewrite clock_reads_advance in Hflen, Hfnth.
    cbn [clock_reads tick_clock] in Hflen, Hfnth.
    rewrite Hc2, Hc1 in Hnth, Hflen, Hfnth.
    exists target, model, features, p1, u, p2.
    split; [exact Htarget |]. split; [exact Hd1 |].
    split; [exact Hpoint |]. split; [reflexivity |].
    cbv zeta. cbn [historical_data forecast_data].
    split; [exact Hlen |]. split.
    { intros j Hj. destruct (Hnth j Hj) as [_ Hpt]. rewrite Hpt.
      now rewrite Rmax_round2. }
    split; [exact Hflen |].
    intros j Hj. destruct (Hfnth j Hj) as [_ Hpt]. rewrite Hpt.
    cbn [random_draws tick_clock]. rewrite random_draws_advance.
    cbn [random_draws tick_clock].
    rewrite (Nat.add_comm (Z.to_nat 90)). now rewrite Rmax_round2.
Qed.

Section Simple_series.
Context (E : env).

(** The forecast series of the simplified predictor. *)
Lemma simple_forecast_inv (state : string) (lat lon : R)
    (prediction_date model_type : string) (p p' : process) (r : Prediction) :
  Simple.generate_prediction E state lat lon prediction_date model_type p
  = (inr r, p') ->
  exists target,
    strptime E prediction_date "%Y-%m-%d" = inr target
    /\ let n := Z.max 1 (Calendar.sub_days target
                           (clock_reading E (clock_reads p))) in
       length (forecast_data r) = Z.to_nat n
       /\ forall j : nat, (j < Z.to_nat n)%nat ->
            let i := 1 + Z.of_nat j in
            forecast_data r !! j = Some
              {| date := Calendar.strftime (shifted target i);
                 usage :=
                   Rmax 0
                     (Py.round2
                        (IZR (100 + Simple.hash_string state mod 50)
                         + IZR i * 0.1
                         + seasonal (shifted target i)
                         + (uniform_sample E (random_draws p + 91 + j) - 0.5)
                           * 5
                         + 300)) |}.
Proof.
  intros H.
  unfold Simple.generate_prediction in H.
  apply bind_inv in H. destruct H as (pred_date & q & Hd & H).
  apply (strptime_inv E) in Hd. destruct Hd as [Hd ->].
  apply bind_inv in H. destruct H as (today & q & Hnow & H).
  unfold datetime_now in Hnow. inversion Hnow; subst today q; clear Hnow.
  apply bind_inv in H. destruct H as (u & q & Hu & H).
  unfold np_random_random in Hu. inversion Hu; subst u q; clear Hu.
  apply bind_inv in H. destruct H as (hist & q & Hhist & H).
  apply bind_inv in H. destruct H as (fc & q' & Hfc & H).
  unfold ret in H. inversion H; subst r q'; clear H.
  cbn [forecast_data].
  exists pred_date. split; [exact Hd |]. cbv zeta.
  apply for_each_inv in Hhist;
    [| intros x q0 q0' y Hb; step_body Hb; reflexivity].
  destruct Hhist as (-> & _ & _). rewrite range_down_length in Hfc.
  apply for_each_inv in Hfc;
    [| intros x q0 q0' y Hb; step_body Hb; reflexivity].
  destruct Hfc as (_ & Hlen & Hnth).
  rewrite range_up_length in Hlen.
  split; [exact Hlen |].
  assert (Hq : random_draws
                 (advance (Z.to_nat 90) (tick_random (tick_clock p)))
               = (random_draws p + 91)%nat).
  { rewrite random_draws_advance. cbn [random_draws tick_random tick_clock].
    change (Z.to_nat 90) with 90%nat. lia. }
  revert Hq Hnth.
  generalize (advance (Z.to_nat 90) (tick_random (tick_clock p))).
  intros q0 Hq Hnth j Hj.
  destruct (Hnth j (1 + Z.of_nat j)) as (y & Hy & Hb).
  { apply range_up_lookup. split; [exact Hj | reflexivity]. }
  step_body Hb.
  rewrite Hy. rewrite random_draws_advance, Hq.
  replace (j + (random_draws p + 91))%nat
    with (random_draws p + 91 + j)%nat by lia.
  reflexivity.
Qed.

End Simple_series.

Section Simple_point.
Context (E : env).

(** The point prediction of the simplified predictor. *)
Lemma simple_point_inv (state : string) (lat lon : R)
    (prediction_date family : string) (p p' : process) (r : Prediction) :
  Simple.generate_prediction E state lat lon prediction_date family p
  = (inr r, p') ->
  exists target,
    strptime E prediction_date "%Y-%m-%d" = inr target
    /\ predicted_usage r
       = Rmax 0
           (Py.round2
              (IZR (100 + Simple.hash_string state mod 50)
               + seasonal target
               + 10 * sin (2 * PI * IZR (Calendar.month target) / 12)
               + 5 * sin (2 * PI * IZR (Calendar.weekday target) / 7)
               + (lat - 20) * 0.5 + (lon - 78) * 0.3
               + IZR (default 0%Z (Simple.model_adjustments !! family))
               + (uniform_sample E (random_draws p) - 0.5) * 10
               + 300)%R).
Proof.
  intros H.
  unfold Simple.generate_prediction in H.
  apply bind_inv in H. destruct H as (pred_date & q & Hd & H).
  apply (strptime_inv E) in Hd. destruct Hd as [Hd ->].
  apply bind_inv in H. destruct H as (today & q & Hnow & H).
  unfold datetime_now in Hnow. inversion Hnow; subst today q; clear Hnow.
  apply bind_inv in H. destruct H as (u & q & Hu & H).
  unfold np_random_random in Hu. inversion Hu; subst u q; clear Hu.
  apply bind_inv in H. destruct H as (hist & q & Hhist & H).
  apply bind_inv in H. destruct H as (fc & q' & Hfc & H).
  unfold ret in H. inversion H; subst r q'; clear H.
  exists pred_date. split; [exact Hd |].
  cbn [predicted_usage random_draws tick_clock]. reflexivity.
Qed.

End Simple_point.

(** C10. The base usage of a region, [100 + ((hash mod 1000) mod 50)], is
    an integer between 100 and 149, and it is a function of the region
    and of the hash of the process: the same value serves every run, and
    within a run the point prediction and every point of both series. In
    both classes the point prediction is the one [point_outcome] gives
    from the base usage of the region, the historical series has 90
    points and the forecast series one per day ahead, and the usage of a
    point is the rounding of the floor at 0 of the noise-free part, the
    base usage plus the trend of the point plus the seasonal term of its
    day, plus the draw of the point; the noise-free part is at least 100
    plus trend plus seasonality, and at most 149 plus them. The
    simplified predictor takes [hash_string] modulo 50 directly, which
    gives the same value between 100 and 149, and builds its point
    prediction and its two series on it in the same way, 300 being added
    before rounding. *)
Theorem base_usage_is_bounded_and_shared (E : env) (state : string) :
  100 <= base_usage_of E state <= 149
  /\ base_usage_of E state = 100 + (py_hash E state mod 1000) mod 50
  /\ (forall (lat lon : R) (prediction_date family : string)
             (p p' : process) (r : Prediction),
        ModelPredictor.predict E state lat lon prediction_date family p
        = (inr r, p')
        \/ AdvancedModelPredictor.predict E state lat lon prediction_date
             family p = (inr r, p') ->
        exists (target : Calendar.datetime) (model : Model)
               (features : list (list R)) (p1 : process) (u : R)
               (p2 : process),
          strptime E prediction_date "%Y-%m-%d" = inr target
          /\ random_draws p1 = random_draws p
          /\ point_outcome E state family model features target p1 u p2
          /\ predicted_usage r = Py.round2 u
          /\ let today := clock_reading E (clock_reads p) in
             let now := clock_reading E (S (clock_reads p)) in
             let n := Z.max 1 (Calendar.sub_days target now) in
             length (historical_data r) = 90%nat
             /\ (forall j : nat, (j < 90)%nat ->
                   let i := 90 - Z.of_nat j in
                   let day := shifted today (- i) in
                   let noise_free :=
                     (IZR (base_usage_of E state) + IZR i * 0.1
                      + seasonal day)%R in
                   historical_data r !! j = Some
                     {| date := Calendar.strftime day;
                        usage :=
                          Py.round2
                            (Rmax 0
                               (noise_free
                                + normal_sample E (random_draws p2 + j) 0 5)) |}
                   /\ (100 + IZR i * 0.1 + seasonal day <= noise_free
                       <= 149 + IZR i * 0.1 + seasonal day)%R)
             /\ length (forecast_data r) = Z.to_nat n
             /\ (forall j : nat, (j < Z.to_nat n)%nat ->
                   let i := 1 + Z.of_nat j in
                   let day := shifted target i in
                   let noise_free :=
                     (IZR (base_usage_of E state) + IZR i * 0.1
                      + seasonal day)%R in
                   forecast_data r !! j = Some
                     {| date := Calendar.strftime day;
                        usage :=
                          Py.round2
                            (Rmax 0
                               (noise_free
                                + normal_sample E (random_draws p2 + 90 + j)
                                    0 3)) |}
                   /\ (100 + IZR i * 0.1 + seasonal day <= noise_free
                       <= 149 + IZR i * 0.1 + seasonal day)%R))
  /\ (100 + Simple.hash_string state mod 50
      = 100 + (Simple.hash_string state mod 1000) mod 50
      /\ 100 <= 100 + Simple.hash_string state mod 50 <= 149)
  /\ (forall (lat lon : R) (prediction_date family : string)
             (p p' : process) (r : Prediction),
        Simple.generate_prediction E state lat lon prediction_date
          family p = (inr r, p') ->
        exists target : Calendar.datetime,
          strptime E prediction_date "%Y-%m-%d" = inr target
          /\ let base_usage := 100 + Simple.hash_string state mod 50 in
             let today := clock_reading E (clock_reads p) in
             let n := Z.max 1 (Calendar.sub_days target today) in
             predicted_usage r
             = Rmax 0
                 (Py.round2
                    (IZR base_usage + seasonal target
                     + 10 * sin (2 * PI * IZR (Calendar.month target) / 12)
                     + 5 * sin (2 * PI * IZR (Calendar.weekday target) / 7)
                     + (lat - 20) * 0.5 + (lon - 78) * 0.3
                     + IZR (default 0%Z (Simple.model_adjustments !! family))
                     + (uniform_sample E (random_draws p) - 0.5) * 10
                     + 300)%R)
             /\ length (historical_data r) = 90%nat
             /\ (forall j : nat, (j < 90)%nat ->
                   let i := 90 - Z.of_nat j in
                   let day := shifted today (- i) in
                   let noise_free :=
                     (IZR base_usage + IZR (90 - i) * 0.1 + seasonal day)%R in
                   historical_data r !! j = Some
                     {| date := Calendar.strftime day;
                        usage :=
                          Rmax 0
                            (Py.round2
                               (noise_free
                                + (uniform_sample E (random_draws p + 1 + j)
                                   - 0.5) * 10
                                + 300)) |}
                   /\ (100 + IZR (90 - i) * 0.1 + seasonal day <= noise_free
                       <= 149 + IZR (90 - i) * 0.1 + seasonal day)%R)
             /\ length (forecast_data r) = Z.to_nat n
             /\ (forall j : nat, (j < Z.to_nat n)%nat ->
                   let i := 1 + Z.of_nat j in
                   let day := shifted target i in
                   let noise_free :=
                     (IZR base_usage + IZR i * 0.1 + seasonal day)%R in
                   forecast_data r !! j = Some
                     {| date := Calendar.strftime day;
                        usage :=
                          Rmax 0
                            (Py.round2
                               (noise_free
                                + (uniform_sample E (random_draws p + 91 + j)
                                   - 0.5) * 5
                                + 300)) |}
                   /\ (100 + IZR i * 0.1 + seasonal day <= noise_free
                       <= 149 + IZR i * 0.1 + seasonal day)%R)).
Proof.
  pose proof (base_usage_range E state) as Hrange.
  assert (Hb : (100 <= IZR (base_usage_of E state) <= 149)%R).
  { split; apply IZR_le; lia. }
  pose proof (Z.mod_pos_bound (Simple.hash_string state) 50 ltac:(lia))
    as Hsimple.
  assert (Hsb : (100 <= IZR (100 + Simple.hash_string state mod 50)
                 <= 149)%R).
  { split; apply IZR_le; lia. }
  split; [exact Hrange |]. split; [reflexivity |].
  split; [| split; [split; [now rewrite mod_1000_mod_50 | lia] |]].
  - intros lat lon prediction_date family p p' r H.
    destruct (predict_explicit E _ _ _ _ _ _ _ _ H)
      as (target & model & features & p1 & u & p2 & Htarget & Hd1 & Hpoint
          & Hu & Hseries).
    cbv zeta in Hseries. destruct Hseries as (Hlen & Hnth & Hflen & Hfnth).
    exists target, model, features, p1, u, p2.
    split; [exact Htarget |]. split; [exact Hd1 |].
    split; [exact Hpoint |]. split; [exact Hu |].
    cbv zeta. split; [exact Hlen |]. split.
    { intros j Hj. split; [exact (Hnth j Hj) | lra]. }
    split; [exact Hflen |].
    intros j Hj. split; [exact (Hfnth j Hj) | lra].
  - intros lat lon prediction_date family p p' r H.
    destruct (simple_point_inv E _ _ _ _ _ _ _ _ H)
      as (target & Htarget & Hpoint).
    destruct (simple_historical_inv E _ _ _ _ _ _ _ _ H) as (Hlen & Hnth).
    destruct (simple_forecast_inv E _ _ _ _ _ _ _ _ H)
      as (target' & Htarget' & Hseries).
    rewrite Htarget in Htarget'. inversion Htarget'; subst target'.
    cbv zeta in Hseries. destruct Hseries as (Hflen & Hfnth).
    exists target. split; [exact Htarget |]. cbv zeta.
    split; [exact Hpoint |]. split; [exact Hlen |]. split.
    { intros j Hj. split; [exact (Hnth j Hj) | lra]. }
    split; [exact Hflen |].
    intros j Hj. split; [exact (Hfnth j Hj) | lra].
Qed.

(** C10 at the sample: the base usage of Goa is 119, and it is in the
    point prediction and in the oldest point of the historical series,
    dated 90 days before 2024-11-03. *)
Lemma base_usage_witness :
  base_usage_of (sample_env true) "Goa" = 119
  /\ exists r p',
       ModelPredictor.predict (sample_env true) "Goa" 15 74 "2024-12-01"
         "ARIMA" (sample_process goa_store) = (inr r, p')
       /\ predicted_usage r
          = Py.round2
              (Rmax 0
                 (119 + 0.1 + seasonal (Calendar.mkDatetime 739221 0) + 0))
       /\ historical_data r !! 0%nat = Some
            {| date := "2024-08-05";
               usage :=
                 Py.round2
                   (Rmax 0
                      (119 + 90 * 0.1
                       + seasonal (Calendar.mkDatetime 739103 36000000000)
                       + 0)) |}.
Proof.
  assert (Hbase : base_usage_of (sample_env true) "Goa" = 119)
    by (vm_compute; reflexivity).
  split; [exact Hbase |].
  destruct sample_arima_returns as (r & p' & Hrun).
  exists r, p'. split; [exact Hrun |].
  destruct (base_usage_is_bounded_and_shared (sample_env true) "Goa")
    as (_ & _ & Hclasses & _).
  destruct (Hclasses 15%R 74%R "2024-12-01" "ARIMA" (sample_process goa_store)
              p' r (or_introl Hrun))
    as (target & model & features & p1 & u & p2 & Htarget & Hd1 & Hpoint
        & Hu & Hseries).
  cbv zeta in Hseries. destruct Hseries as (_ & Hnth & _).
  inversion Htarget; subst target.
  destruct (point_outcome_synthetic (sample_env true) _ _ _ _ _ _ _ _
              ltac:(simpl; tauto) Hpoint) as [-> ->].
  split.
  - rewrite Hu. unfold synthetic_point. rewrite Hbase.
    cbn [normal_sample sample_env]. reflexivity.
  - destruct (Hnth 0%nat ltac:(lia)) as [Hpt _].
    rewrite Hpt, Hbase. cbn [normal_sample sample_env].
    f_equal.
Defined.

Example hash_string_goa : Simple.hash_string "Goa" = 71769.
Proof. reflexivity. Qed.

End Base_usage.

(** * Further properties *)

(** ** What no computation of the predictors does to the process *)

Section Frames.

Lemma extends_refl (p : process) : extends p p.
Proof.
  unfold extends. repeat split; auto. exists []. now rewrite app_nil_r.
Qed.

Lemma extends_trans (p q r : process) :
  extends p q -> extends q r -> extends p r.
Proof.
  intros (Hs & Hd & Hc & Hl & Hk & Hn & (e1 & Ht))
         (Hs' & Hd' & Hc' & Hl' & Hk' & Hn' & (e2 & Ht')).
  unfold extends. repeat split; try congruence; auto; try lia.
  exists (e1 ++ e2)%list. rewrite Ht', Ht. now rewrite app_assoc.
Qed.

Lemma extends_log (ev : Event) (p : process) : extends p (log ev p).
Proof.
  unfold extends. cbn [log storage models_dir model_cache loaded_models
                        clock_reads random_draws trace].
  repeat split; auto. exists [ev]. reflexivity.
Qed.

Lemma extends_tick_clock (p : process) : extends p (tick_clock p).
Proof.
  unfold extends. cbn. repeat split; auto. exists []. now rewrite app_nil_r.
Qed.

Lemma extends_tick_random (p : process) : extends p (tick_random p).
Proof.
  unfold extends. cbn. repeat split; auto. exists []. now rewrite app_nil_r.
Qed.

Context {A B : Type}.

Lemma frames_ret (a : A) : frames (ret a).
Proof. intros p p' r H. inversion H. apply extends_refl. Qed.

Lemma frames_raise (e : Py.exn) : frames (@raise A e).
Proof. intros p p' r H. inversion H. apply extends_refl. Qed.

Lemma frames_lift (x : Py.exn + A) : frames (lift x).
Proof. intros p p' r H. inversion H. apply extends_refl. Qed.

Lemma frames_bind (m : M A) (k : A -> M B) :
  frames m -> (forall a, frames (k a)) -> frames (bind m k).
Proof.
  intros Hm Hk p p' r H. unfold bind in H.
  destruct (m p) as [[e | a] q] eqn:Hq.
  - inversion H; subst. exact (Hm _ _ _ Hq).
  - exact (extends_trans _ _ _ (Hm _ _ _ Hq) (Hk a _ _ _ H)).
Qed.

Lemma frames_try_except (m : M A) (h : Py.exn -> M A) :
  frames m -> (forall e, frames (h e)) -> frames (try_except m h).
Proof.
  intros Hm Hh p p' r H. unfold try_except in H.
  destruct (m p) as [[e | a] q] eqn:Hq.
  - exact (extends_trans _ _ _ (Hm _ _ _ Hq) (Hh e _ _ _ H)).
  - inversion H; subst. exact (Hm _ _ _ Hq).
Qed.

End Frames.

Lemma frames_for_each {A B : Type} (l : list A) (body : A -> M B) :
  (forall x, frames (body x)) -> frames (for_each l body).
Proof.
  intros Hbody. induction l as [| x l IH]; cbn [for_each].
  - intros p p' r H. inversion H. apply extends_refl.
  - apply frames_bind; [apply Hbody |]. intros y.
    apply frames_bind; [exact IH |]. intros ys p p' r H.
    inversion H. apply extends_refl.
Qed.


Lemma frames_os_path_exists (path : string) : frames (os_path_exists path).
Proof. intros p p' r H. inversion H. apply extends_log. Qed.

Lemma frames_model_predict (model : Model) (features : list (list R)) :
  frames (model_predict model features).
Proof.
  intros p p' r H. unfold model_predict in H.
  destruct model; inversion H; subst;
    [apply extends_refl | apply extends_log | apply extends_refl].
Qed.

Lemma frames_datetime_now (E : env) : frames (datetime_now E).
Proof. intros p p' r H. inversion H. apply extends_tick_clock. Qed.

Lemma frames_np_random_normal (E : env) (loc scale : R) :
  frames (np_random_normal E loc scale).
Proof. intros p p' r H. inversion H. apply extends_tick_random. Qed.

Lemma frames_np_random_random (E : env) : frames (np_random_random E).
Proof. intros p p' r H. inversion H. apply extends_tick_random. Qed.

Lemma frames_load_model (state model_type : string) :
  frames (ModelPredictor._load_model state model_type).
Proof.
  intros p p' r H.
  destruct (load_model_frame _ _ _ _ _ H) as (Hs & Hd & Hc & Hn).
  unfold extends. split; [exact Hs |]. split; [exact Hd |].
  split; [intros k m Hk; exact (load_model_keeps_entries _ _ _ _ _ _ _ H Hk) |].
  split.
  - rewrite load_model_eq in H.
    destruct (storage p !! _) as [file |]; [| inversion H; subst; auto].
    destruct (model_cache p !! _); [inversion H; subst; auto |].
    destruct (String.eqb model_type "LSTM"); [inversion H; subst; auto |].
    destruct file; inversion H; subst; auto.
  - split; [lia |]. split; [lia |].
    destruct (load_model_trace _ _ _ _ _ H) as [Ht | Ht];
      eexists; exact Ht.
Qed.

Lemma frames_advanced_load_model (E : env) (state model_type : string) :
  frames (AdvancedModelPredictor._load_model E state model_type).
Proof.
  intros p p' r H.
  destruct (advanced_load_model_frame E _ _ _ _ _ H) as (Hs & Hd & Hc & Hn).
  unfold extends. split; [exact Hs |]. split; [exact Hd |].
  split.
  - rewrite advanced_load_model_eq in H.
    destruct (storage p !! _) as [file |]; [| inversion H; subst; auto].
    destruct (loaded_models p !! _); [inversion H; subst; auto |].
    destruct (String.eqb model_type "LSTM").
    + destruct (TENSORFLOW_AVAILABLE E); inversion H; subst; auto.
    + destruct (JOBLIB_AVAILABLE E); [| inversion H; subst; auto].
      destruct file; inversion H; subst; auto.
  - split;
      [intros k m Hk;
       exact (advanced_load_model_keeps_entries _ _ _ _ _ _ _ _ H Hk) |].
    split; [lia |]. split; [lia |].
    destruct (advanced_load_model_trace E _ _ _ _ _ H) as [Ht | Ht];
      eexists; exact Ht.
Qed.

Lemma frames_get_model_path (state model_type : string) :
  frames (ModelPredictor._get_model_path state model_type).
Proof.
  intros p p' r H. rewrite get_model_path_eq in H. inversion H.
  apply extends_refl.
Qed.

Lemma frames_advanced_get_model_path (state model_type : string) :
  frames (AdvancedModelPredictor._get_model_path state model_type).
Proof.
  intros p p' r H. rewrite advanced_get_model_path_eq in H. inversion H.
  apply extends_refl.
Qed.

(** One step of a proof that a computation written with the monad frames
    the process. *)
Ltac frames_step :=
  lazymatch goal with
  | |- frames (if ?b then _ else _) => destruct b
  | |- frames (match ?x with _ => _ end) => destruct x
  | |- frames (bind _ _) => apply frames_bind; [| intros ?]
  | |- frames (try_except _ _) => apply frames_try_except; [| intros ?]
  | |- frames (for_each _ _) => apply frames_for_each; intros ?
  | |- frames (ret _) => apply frames_ret
  | |- frames (raise _) => apply frames_raise
  | |- frames (lift _) => apply frames_lift
  | |- frames (os_path_exists _) => apply frames_os_path_exists
  | |- frames (model_predict _ _) => apply frames_model_predict
  | |- frames (datetime_now _) => apply frames_datetime_now
  | |- frames (np_random_normal _ _ _) => apply frames_np_random_normal
  | |- frames (np_random_random _) => apply frames_np_random_random
  | |- frames (ModelPredictor._load_model _ _) => apply frames_load_model
  | |- frames (AdvancedModelPredictor._load_model _ _ _) =>
      apply frames_advanced_load_model
  | |- frames (ModelPredictor._get_model_path _ _) =>
      apply frames_get_model_path
  | |- frames (AdvancedModelPredictor._get_model_path _ _) =>
      apply frames_advanced_get_model_path
  | |- frames (datetime_strptime _ _ _) => unfold datetime_strptime
  | |- frames (minus_timedelta _ _) => unfold minus_timedelta
  | |- frames (plus_timedelta _ _) => unfold plus_timedelta
  end.

Section Frames_of_the_predictors.
Context (E : env).

Lemma frames_prepare_features (state : string) (lat lon : R)
    (prediction_date model_type : string) :
  frames (ModelPredictor._prepare_features E state lat lon prediction_date
            model_type).
Proof.
  unfold ModelPredictor._prepare_features. cbv zeta. repeat frames_step.
Qed.

Lemma frames_historical (state : string) (days : Z) :
  frames (ModelPredictor._generate_historical_data E state days).
Proof.
  unfold ModelPredictor._generate_historical_data. cbv zeta.
  repeat frames_step.
Qed.

Lemma frames_forecast (state prediction_date : string) (days_ahead : Z) :
  frames (ModelPredictor._generate_forecast_data E state prediction_date
            days_ahead).
Proof.
  unfold ModelPredictor._generate_forecast_data. cbv zeta.
  repeat frames_step.
Qed.

Lemma frames_predict (state : string) (lat lon : R)
    (prediction_date model_type : string) :
  frames (ModelPredictor.predict E state lat lon prediction_date model_type).
Proof.
  unfold ModelPredictor.predict. cbv zeta.
  repeat first [apply frames_prepare_features | apply frames_historical
               | apply frames_forecast | frames_step].
Qed.

Lemma frames_advanced_predict (state : string) (lat lon : R)
    (prediction_date model_type : string) :
  frames (AdvancedModelPredictor.predict E state lat lon prediction_date
            model_type).
Proof.
  unfold AdvancedModelPredictor.predict,
    AdvancedModelPredictor._prepare_features,
    AdvancedModelPredictor._generate_historical_data,
    AdvancedModelPredictor._generate_forecast_data. cbv zeta.
  repeat frames_step.
Qed.

Lemma frames_generate_prediction (state : string) (lat lon : R)
    (prediction_date model_type : string) :
  frames (Simple.generate_prediction E state lat lon prediction_date
            model_type).
Proof.
  unfold Simple.generate_prediction. cbv zeta. repeat frames_step.
Qed.

End Frames_of_the_predictors.

(** ** [get_available_models] *)

Section Available_models.

Lemma available_among_eq (state : string) (l : list string) (p : process) :
  exists p',
    ModelPredictor.available_among state l p
    = (inr (List.filter (fun model_type =>
                      file_exists p
                        (artifact_path (models_dir p) state model_type)) l),
       p')
    /\ storage p' = storage p /\ models_dir p' = models_dir p
    /\ model_cache p' = model_cache p /\ loaded_models p' = loaded_models p
    /\ clock_reads p' = clock_reads p /\ random_draws p' = random_draws p
    /\ trace p'
       = (trace p
          ++ map (fun model_type =>
                    Ev_exists (artifact_path (models_dir p) state model_type))
               l)%list.
Proof.
  revert p. induction l as [| model_type l IH]; intros p.
  - exists p. cbn. rewrite app_nil_r. repeat split; reflexivity.
  - cbn [ModelPredictor.available_among].
    rewrite (bind_inr _ _ _ _ _ (get_model_path_eq state model_type p)).
    unfold bind at 1. unfold os_path_exists at 1.
    destruct (IH (log (Ev_exists (artifact_path (models_dir p) state
                                    model_type)) p))
      as (p' & Heq & Hs & Hd & Hc & Hl & Hk & Hn & Ht).
    exists p'. rewrite (bind_inr _ _ _ _ _ Heq).
    cbn [storage models_dir model_cache loaded_models clock_reads
         random_draws trace log] in *.
    split.
    + unfold ret. cbn [List.filter]. unfold file_exists.
      cbn [storage log].
      destruct (storage p !! artifact_path (models_dir p) state model_type);
        reflexivity.
    + repeat split; try assumption.
      rewrite Ht. cbn [map]. now rewrite <- app_assoc.
Qed.

Lemma advanced_available_among_eq (state : string) (l : list string)
    (p : process) :
  AdvancedModelPredictor.available_among state l p
  = ModelPredictor.available_among state l p.
Proof.
  revert p. induction l as [| model_type l IH]; intros p; [reflexivity |].
  cbn [AdvancedModelPredictor.available_among
       ModelPredictor.available_among].
  rewrite (bind_inr _ _ _ _ _ (advanced_get_model_path_eq state model_type p)).
  rewrite (bind_inr _ _ _ _ _ (get_model_path_eq state model_type p)).
  unfold bind at 1 3. unfold os_path_exists.
  unfold bind. now rewrite IH.
Qed.

End Available_models.

Section Available_models_properties.

Lemma get_available_models_lists_existing_artifacts_aux (state : string)
    (p : process) :
  exists (l : list string) (p' : process),
    ModelPredictor.get_available_models state p = (inr l, p')
    /\ AdvancedModelPredictor.get_available_models state p = (inr l, p')
    /\ (forall model_type : string,
          In model_type l <->
          In model_type ["ARIMA"; "XGBoost"; "LSTM"; "Prophet"]
          /\ storage p !! artifact_path (models_dir p) state model_type
             <> None).
Proof.
  destruct (available_among_eq state ["ARIMA"; "XGBoost"; "LSTM"; "Prophet"] p)
    as (p' & Heq & _).
  eexists; exists p'.
  split; [exact Heq |].
  split; [unfold AdvancedModelPredictor.get_available_models;
          rewrite advanced_available_among_eq; exact Heq |].
  intros model_type. rewrite filter_In. unfold file_exists.
  destruct (storage p !! artifact_path (models_dir p) state model_type);
    split; intros [H1 H2]; split; try assumption; try discriminate;
    try reflexivity; congruence.
Qed.

(** X1. [get_available_models] never raises and returns, in the order
    ARIMA, XGBoost, LSTM, Prophet, exactly the families whose artifact
    path exists for the region. It only asks the store four times whether
    a path exists: nothing is loaded, the caches, the store, the clock and
    the random generator are as before. Both classes agree. *)
Theorem get_available_models_lists_existing_artifacts (state : string)
    (p : process) :
  exists (l : list string) (p' : process),
    ModelPredictor.get_available_models state p = (inr l, p')
    /\ AdvancedModelPredictor.get_available_models state p = (inr l, p')
    /\ l = List.filter
             (fun model_type =>
                file_exists p (artifact_path (models_dir p) state model_type))
             ["ARIMA"; "XGBoost"; "LSTM"; "Prophet"]
    /\ (forall model_type : string,
          In model_type l <->
          In model_type ["ARIMA"; "XGBoost"; "LSTM"; "Prophet"]
          /\ storage p !! artifact_path (models_dir p) state model_type
             <> None)
    /\ storage p' = storage p /\ models_dir p' = models_dir p
    /\ model_cache p' = model_cache p /\ loaded_models p' = loaded_models p
    /\ clock_reads p' = clock_reads p /\ random_draws p' = random_draws p
    /\ trace p'
       = (trace p
          ++ map (fun model_type =>
                    Ev_exists (artifact_path (models_dir p) state model_type))
               ["ARIMA"; "XGBoost"; "LSTM"; "Prophet"])%list.
Proof.
  destruct (available_among_eq state ["ARIMA"; "XGBoost"; "LSTM"; "Prophet"] p)
    as (p' & Heq & Hs & Hd & Hc & Hl & Hk & Hn & Ht).
  eexists; exists p'.
  split; [exact Heq |].
  split; [unfold AdvancedModelPredictor.get_available_models;
          rewrite advanced_available_among_eq; exact Heq |].
  split; [reflexivity |].
  split.
  - intros model_type. rewrite filter_In. unfold file_exists.
    destruct (storage p !! artifact_path (models_dir p) state model_type);
      split; intros [H1 H2]; split; try assumption; try discriminate;
      try reflexivity; congruence.
  - repeat split; assumption.
Qed.

(** X2. A prediction returns only for a family that
    [get_available_models] lists for the region in the same process. *)
Theorem predicted_family_is_available (E : env) (state : string)
    (lat lon : R) (prediction_date model_type : string) (p p' : process)
    (r : Prediction) :
  ModelPredictor.predict E state lat lon prediction_date model_type p
  = (inr r, p')
  \/ AdvancedModelPredictor.predict E state lat lon prediction_date
       model_type p = (inr r, p') ->
  exists (l : list string) (q : process),
    ModelPredictor.get_available_models state p = (inr l, q)
    /\ AdvancedModelPredictor.get_available_models state p = (inr l, q)
    /\ In model_type l.
Proof.
  intros H.
  destruct (get_available_models_lists_existing_artifacts_aux state p)
    as (l & q & H1 & H2 & Hin).
  exists l, q. split; [exact H1 |]. split; [exact H2 |].
  apply Hin.
  destruct H as [H | H].
  - apply predict_inv in H.
    destruct H as (model & p1 & features & target & u & p2 & hist & p3 & fc
                   & Hload & _ & _ & Hpoint & _).
    split.
    + destruct Hpoint as [(-> & _) | [(-> & _) | [(-> & _) | (-> & _)]]];
        simpl; tauto.
    + rewrite load_model_eq in Hload.
      destruct (storage p !! _); [discriminate | discriminate Hload].
  - apply advanced_predict_inv in H.
    destruct H as (model & p1 & features & target & u & p2 & hist & p3 & fc
                   & Hload & _ & _ & Hpoint & _).
    split.
    + destruct Hpoint as [(-> & _) | [(-> & _) | [(-> & _) | (-> & _)]]];
        simpl; tauto.
    + rewrite advanced_load_model_eq in Hload.
      destruct (storage p !! _); [discriminate | discriminate Hload].
Qed.

End Available_models_properties.

(** X2 at the sample. *)
Lemma predicted_family_is_available_witness :
  exists (l : list string) (q : process),
    ModelPredictor.get_available_models "Goa" (sample_process goa_store)
    = (inr l, q)
    /\ AdvancedModelPredictor.get_available_models "Goa"
         (sample_process goa_store) = (inr l, q)
    /\ In "ARIMA" l.
Proof.
  destruct sample_arima_returns as (r & p' & Hrun).
  exact (predicted_family_is_available (sample_env true) "Goa" 15 74
           "2024-12-01" "ARIMA" (sample_process goa_store) p' r
           (or_introl Hrun)).
Defined.

(** ** How a prediction fails *)

Section Failures.
Context (E : env).

Lemma predict_load_fails (state : string) (lat lon : R)
    (prediction_date model_type : string) (p p1 : process) (e : Py.exn) :
  ModelPredictor._load_model state model_type p = (inl e, p1) ->
  ModelPredictor.predict E state lat lon prediction_date model_type p
  = (inl (Py.RuntimeError ("Prediction failed: " ++ Py.str e)), p1).
Proof.
  intros H. unfold ModelPredictor.predict.
  now rewrite (try_except_inl _ _ _ _ _ (bind_inl _ _ _ _ _ H)).
Qed.

Lemma advanced_predict_load_fails (state : string) (lat lon : R)
    (prediction_date model_type : string) (p p1 : process) (e : Py.exn) :
  AdvancedModelPredictor._load_model E state model_type p = (inl e, p1) ->
  AdvancedModelPredictor.predict E state lat lon prediction_date model_type p
  = (inl (Py.RuntimeError ("Prediction failed: " ++ Py.str e)), p1).
Proof.
  intros H. unfold AdvancedModelPredictor.predict.
  now rewrite (try_except_inl _ _ _ _ _ (bind_inl _ _ _ _ _ H)).
Qed.

Lemma predict_date_fails (state : string) (lat lon : R)
    (prediction_date model_type : string) (p p1 : process) (model : Model)
    (e : Py.exn) :
  ModelPredictor._load_model state model_type p = (inr model, p1) ->
  strptime E prediction_date "%Y-%m-%d" = inl e ->
  ModelPredictor.predict E state lat lon prediction_date model_type p
  = (inl (Py.RuntimeError ("Prediction failed: " ++ Py.str e)), p1).
Proof.
  intros Hload Hdate. unfold ModelPredictor.predict.
  unfold try_except. rewrite (bind_inr _ _ _ _ _ Hload).
  unfold ModelPredictor._prepare_features.
  cbv beta iota delta [bind datetime_strptime lift ret].
  now rewrite Hdate.
Qed.

Lemma advanced_predict_date_fails (state : string) (lat lon : R)
    (prediction_date model_type : string) (p p1 : process) (model : Model)
    (e : Py.exn) :
  AdvancedModelPredictor._load_model E state model_type p = (inr model, p1) ->
  strptime E prediction_date "%Y-%m-%d" = inl e ->
  AdvancedModelPredictor.predict E state lat lon prediction_date model_type p
  = (inl (Py.RuntimeError ("Prediction failed: " ++ Py.str e)), p1).
Proof.
  intros Hload Hdate. unfold AdvancedModelPredictor.predict.
  unfold try_except. rewrite (bind_inr _ _ _ _ _ Hload).
  unfold AdvancedModelPredictor._prepare_features.
  cbv beta iota delta [bind datetime_strptime lift ret].
  now rewrite Hdate.
Qed.

(** X3. Whatever the family, recognised or not, when the artifact path of
    the request does not exist both classes fail with the not-found
    message wrapped as a failed prediction; the only thing the request has
    done is the existence check: nothing is cached, drawn or read from the
    clock, and there is no fallback to a synthetic prediction. *)
Theorem missing_artifact_fails_the_prediction (state : string)
    (lat lon : R) (prediction_date model_type : string) (p : process) :
  storage p !! artifact_path (models_dir p) state model_type = None ->
  let path := artifact_path (models_dir p) state model_type in
  ModelPredictor.predict E state lat lon prediction_date model_type p
  = (inl (Py.RuntimeError ("Prediction failed: Model not found: " ++ path)),
     log (Ev_exists path) p)
  /\ AdvancedModelPredictor.predict E state lat lon prediction_date
       model_type p
     = (inl (Py.RuntimeError ("Prediction failed: Model not found: " ++ path)),
        log (Ev_exists path) p).
Proof.
  intros Hfile path. subst path. split.
  - apply (predict_load_fails _ _ _ _ _ _ _
             (Py.FileNotFoundError
                ("Model not found: "
                 ++ artifact_path (models_dir p) state model_type))).
    rewrite load_model_eq. now rewrite Hfile.
  - apply (advanced_predict_load_fails _ _ _ _ _ _ _
             (Py.FileNotFoundError
                ("Model not found: "
                 ++ artifact_path (models_dir p) state model_type))).
    rewrite advanced_load_model_eq. now rewrite Hfile.
Qed.

(** X4. When the date does not parse, the prediction fails with the
    message of the parser, but only after the model has been loaded: the
    model stays memoised in the process the failure leaves, and neither
    the clock nor the random generator has been used. *)
Theorem unparseable_date_fails_after_the_load (state : string)
    (lat lon : R) (prediction_date model_type : string) (p : process)
    (e : Py.exn) :
  strptime E prediction_date "%Y-%m-%d" = inl e ->
  (forall (model : Model) (p1 : process),
     ModelPredictor._load_model state model_type p = (inr model, p1) ->
     ModelPredictor.predict E state lat lon prediction_date model_type p
     = (inl (Py.RuntimeError ("Prediction failed: " ++ Py.str e)), p1)
     /\ model_cache p1 !! cache_key state model_type = Some model
     /\ clock_reads p1 = clock_reads p /\ random_draws p1 = random_draws p)
  /\ (forall (model : Model) (p1 : process),
        AdvancedModelPredictor._load_model E state model_type p
        = (inr model, p1) ->
        AdvancedModelPredictor.predict E state lat lon prediction_date
          model_type p
        = (inl (Py.RuntimeError ("Prediction failed: " ++ Py.str e)), p1)
        /\ loaded_models p1 !! cache_key state model_type = Some model
        /\ clock_reads p1 = clock_reads p /\ random_draws p1 = random_draws p).
Proof.
  intros Hdate. split; intros model p1 Hload.
  - split; [exact (predict_date_fails _ _ _ _ _ _ _ _ _ Hload Hdate) |].
    split; [exact (proj1 (load_model_memoizes _ _ _ _ _ Hload)) |].
    destruct (load_model_frame _ _ _ _ _ Hload) as (_ & _ & Hc & Hn).
    split; assumption.
  - split; [exact (advanced_predict_date_fails _ _ _ _ _ _ _ _ _ Hload Hdate) |].
    split; [exact (proj1 (advanced_load_model_memoizes _ _ _ _ _ _ Hload)) |].
    destruct (advanced_load_model_frame E _ _ _ _ _ Hload) as (_ & _ & Hc & Hn).
    split; assumption.
Qed.

End Failures.

(** X3 at the sample: Goa has no Prophet artifact. *)
Lemma missing_artifact_witness :
  exists p',
    ModelPredictor.predict (sample_env true) "Goa" 15 74 "2024-12-01"
      "Prophet" (sample_process goa_store)
    = (inl (Py.RuntimeError
              "Prediction failed: Model not found: models/Goa_prophet_model.joblib"),
       p').
Proof.
  eexists.
  apply (proj1 (missing_artifact_fails_the_prediction (sample_env true) "Goa"
                  15 74 "2024-12-01" "Prophet" (sample_process goa_store)
                  ltac:(vm_compute; reflexivity))).
Defined.

(** X4 at the sample: the thirteenth month. *)
Lemma unparseable_date_witness :
  exists p1,
    ModelPredictor.predict (sample_env true) "Goa" 15 74 "2024-13-01" "ARIMA"
      (sample_process goa_store)
    = (inl (Py.RuntimeError
              "Prediction failed: time data '2024-13-01' does not match format '%Y-%m-%d'"),
       p1)
    /\ model_cache p1 !! cache_key "Goa" "ARIMA" = Some Opaque.
Proof.
  eexists.
  destruct (proj1 (unparseable_date_fails_after_the_load (sample_env true)
                     "Goa" 15 74 "2024-13-01" "ARIMA"
                     (sample_process goa_store)
                     (Py.ValueError
                        "time data '2024-13-01' does not match format '%Y-%m-%d'")
                     ltac:(vm_compute; reflexivity))
              Opaque
              (snd (ModelPredictor._load_model "Goa" "ARIMA"
                      (sample_process goa_store)))
              ltac:(vm_compute; reflexivity))
    as (Hrun & Hcache & _).
  split; [exact Hrun | exact Hcache].
Defined.

Section Failed_loads.

(** X5. A load that fails is not memoised. When the artifact of a family
    other than LSTM exists but cannot be deserialised, [_load_model]
    raises the load error carrying the path and the cause, the cache is
    left as it was, and the next call for the same key deserialises the
    file again and fails in the same way; a prediction reports the error
    wrapped once more. *)
Theorem failed_load_is_not_memoized (E : env) (state : string)
    (lat lon : R) (prediction_date model_type msg : string) (p : process) :
  model_type <> "LSTM" ->
  storage p !! artifact_path (models_dir p) state model_type
  = Some (Damaged msg) ->
  model_cache p !! cache_key state model_type = None ->
  let path := artifact_path (models_dir p) state model_type in
  let failure :=
    Py.RuntimeError ("Failed to load model " ++ path ++ ": " ++ msg) in
  let p1 := log (Ev_load path) (log (Ev_exists path) p) in
  ModelPredictor._load_model state model_type p = (inl failure, p1)
  /\ model_cache p1 = model_cache p
  /\ ModelPredictor._load_model state model_type p1
     = (inl failure, log (Ev_load path) (log (Ev_exists path) p1))
  /\ ModelPredictor.predict E state lat lon prediction_date model_type p
     = (inl (Py.RuntimeError
               ("Prediction failed: Failed to load model " ++ path ++ ": "
                ++ msg)), p1).
Proof.
  intros Hlstm Hfile Hmiss path failure p1. subst path failure p1.
  apply String.eqb_neq in Hlstm.
  assert (Hload :
    ModelPredictor._load_model state model_type p
    = (inl (Py.RuntimeError
              ("Failed to load model "
               ++ artifact_path (models_dir p) state model_type ++ ": " ++ msg)),
       log (Ev_load (artifact_path (models_dir p) state model_type))
         (log (Ev_exists (artifact_path (models_dir p) state model_type)) p))).
  { rewrite load_model_eq. now rewrite Hfile, Hmiss, Hlstm. }
  split; [exact Hload |]. split; [reflexivity |]. split.
  - rewrite load_model_eq.
    cbn [storage models_dir model_cache log].
    now rewrite Hfile, Hmiss, Hlstm.
  - exact (predict_load_fails E _ _ _ _ _ _ _ _ Hload).
Qed.

(** X5 at the sample: the XGBoost file of Goa is damaged. *)
Lemma failed_load_witness :
  exists p1,
    ModelPredictor._load_model "Goa" "XGBoost" (sample_process goa_store)
    = (inl (Py.RuntimeError
              "Failed to load model models/Goa_xgboost_model.joblib: invalid load key"),
       p1)
    /\ model_cache p1 = ∅.
Proof.
  eexists.
  destruct (failed_load_is_not_memoized (sample_env true) "Goa" 15 74
              "2024-12-01" "XGBoost" "invalid load key"
              (sample_process goa_store)
              ltac:(discriminate)
              ltac:(vm_compute; reflexivity)
              ltac:(vm_compute; reflexivity))
    as (Hload & Hcache & _).
  split; [exact Hload | exact Hcache].
Defined.

End Failed_loads.

(** ** What a prediction leaves of the process *)

Section Process_invariants.
Context (E : env).

(** X6. Whatever its outcome, a result or an error, a run of [predict]
    (of either class) or of [generate_prediction] leaves the artifact
    store and [models_dir] as they were, keeps every entry of the caches,
    and only adds to the events, the clock readings and the draws. A run
    of [predict] that returns has read the clock exactly twice. *)
Theorem prediction_preserves_store_and_cache (state : string) (lat lon : R)
    (prediction_date model_type : string) (p p' : process)
    (r : Py.exn + Prediction) :
  ModelPredictor.predict E state lat lon prediction_date model_type p
  = (r, p')
  \/ AdvancedModelPredictor.predict E state lat lon prediction_date
       model_type p = (r, p')
  \/ Simple.generate_prediction E state lat lon prediction_date model_type p
     = (r, p') ->
  storage p' = storage p
  /\ models_dir p' = models_dir p
  /\ (forall (k : string) (m : Model),
        model_cache p !! k = Some m -> model_cache p' !! k = Some m)
  /\ (forall (k : string) (m : Model),
        loaded_models p !! k = Some m -> loaded_models p' !! k = Some m)
  /\ (clock_reads p <= clock_reads p')%nat
  /\ (random_draws p <= random_draws p')%nat
  /\ (exists events, trace p' = (trace p ++ events)%list)
  /\ (forall res : Prediction,
        r = inr res ->
        ModelPredictor.predict E state lat lon prediction_date model_type p
        = (r, p')
        \/ AdvancedModelPredictor.predict E state lat lon prediction_date
             model_type p = (r, p') ->
        clock_reads p' = (clock_reads p + 2)%nat).
Proof.
  intros H.
  assert (Hext : extends p p').
  { destruct H as [H | [H | H]].
    - exact (frames_predict E _ _ _ _ _ _ _ _ H).
    - exact (frames_advanced_predict E _ _ _ _ _ _ _ _ H).
    - exact (frames_generate_prediction E _ _ _ _ _ _ _ _ H). }
  destruct Hext as (Hs & Hd & Hc & Hl & Hk & Hn & Ht).
  repeat (split; [assumption |]).
  intros res -> [H' | H'].
  - apply predict_inv in H'.
    destruct H' as (model & p1 & features & target & u & p2 & hist & p3 & fc
                    & Hload & _ & _ & Hpoint & Hhist & Hfc & _).
    destruct (point_outcome_clock E _ _ _ _ _ _ _ _ Hpoint) as [Hc2 _].
    destruct (load_model_frame _ _ _ _ _ Hload) as (_ & _ & Hc1 & _).
    apply historical_inv in Hhist. destruct Hhist as (-> & _).
    apply forecast_inv in Hfc. destruct Hfc as (_ & _ & -> & _).
    rewrite clock_reads_advance. cbn [clock_reads tick_clock].
    rewrite clock_reads_advance. cbn [clock_reads tick_clock]. lia.
  - apply advanced_predict_inv in H'.
    destruct H' as (model & p1 & features & target & u & p2 & hist & p3 & fc
                    & Hload & _ & _ & Hpoint & Hhist & Hfc & _).
    destruct (point_outcome_clock E _ _ _ _ _ _ _ _ Hpoint) as [Hc2 _].
    destruct (advanced_load_model_frame E _ _ _ _ _ Hload) as (_ & _ & Hc1 & _).
    apply advanced_historical_inv in Hhist. destruct Hhist as (-> & _).
    apply advanced_forecast_inv in Hfc. destruct Hfc as (_ & _ & -> & _).
    rewrite clock_reads_advance. cbn [clock_reads tick_clock].
    rewrite clock_reads_advance. cbn [clock_reads tick_clock]. lia.
Qed.

End Process_invariants.

(** X6 at the sample. *)
Lemma prediction_preserves_store_witness :
  exists r p',
    ModelPredictor.predict (sample_env true) "Goa" 15 74 "2024-12-01" "ARIMA"
      (sample_process goa_store) = (inr r, p')
    /\ storage p' = storage (sample_process goa_store)
    /\ models_dir p' = "models".
Proof.
  destruct sample_arima_returns as (r & p' & Hrun).
  exists r, p'. split; [exact Hrun |].
  destruct (prediction_preserves_store_and_cache (sample_env true) "Goa"
              15 74 "2024-12-01" "ARIMA" (sample_process goa_store) p' (inr r)
              (or_introl Hrun)) as (Hs & Hd & _).
  split; [exact Hs | exact Hd].
Defined.

(** ** The XGBoost strategy *)

Section XGBoost.
Context (E : env).

Lemma xgboost_outcome (state : string) (model : Model)
    (features : list (list R)) (target : Calendar.datetime) (p1 p2 : process)
    (u : R) :
  point_outcome E state "XGBoost" model features target p1 u p2 ->
  u = match model with
      | Estimator predict =>
          match predict features with
          | inr y => Rmax 0 y
          | inl _ =>
              Rmax 0 (IZR (100 + (py_hash E state mod 1000) mod 50)
                      + normal_sample E (random_draws p1) 0 10)
          end
      | _ =>
          Rmax 0 (IZR (100 + (py_hash E state mod 1000) mod 50)
                  + normal_sample E (random_draws p1) 0 10)
      end%R.
Proof.
  intros [(Hm & _) | [(Hm & _) | [(Hm & _) | (_ & Hx)]]];
    try discriminate Hm.
  unfold fallback_point, base_usage_of in Hx.
  destruct Hx as [(y & Hm & ->) | (e & q & Hm & -> & _)];
    unfold model_predict in Hm; destruct model as [s | predict |];
    inversion Hm; subst; try reflexivity.
  - now rewrite H0.
  - rewrite H0. reflexivity.
Qed.

(** X7. The strategy of the XGBoost family. When the loaded object has a
    [predict] method and the call returns [y], the predicted usage is [y]
    floored at 0 and rounded to two decimals, so a negative answer of the
    model gives 0. When the object has no such method or the call raises,
    the failure is absorbed: the predicted usage is the base usage of the
    region plus a draw of scale 10, with no trend and no seasonal term,
    floored and rounded. *)
Theorem xgboost_uses_the_model_or_falls_back (state : string) (lat lon : R)
    (prediction_date : string) (p p' : process) (r : Prediction) :
  (ModelPredictor.predict E state lat lon prediction_date "XGBoost" p
   = (inr r, p') ->
   exists model p1 features,
     ModelPredictor._load_model state "XGBoost" p = (inr model, p1)
     /\ ModelPredictor._prepare_features E state lat lon prediction_date
          "XGBoost" p1 = (inr features, p1)
     /\ predicted_usage r
        = Py.round2
            match model with
            | Estimator predict =>
                match predict features with
                | inr y => Rmax 0 y
                | inl _ =>
                    Rmax 0 (IZR (100 + (py_hash E state mod 1000) mod 50)
                            + normal_sample E (random_draws p) 0 10)
                end
            | _ =>
                Rmax 0 (IZR (100 + (py_hash E state mod 1000) mod 50)
                        + normal_sample E (random_draws p) 0 10)
            end%R)
  /\ (AdvancedModelPredictor.predict E state lat lon prediction_date
        "XGBoost" p = (inr r, p') ->
      exists model p1 features,
        AdvancedModelPredictor._load_model E state "XGBoost" p
        = (inr model, p1)
        /\ AdvancedModelPredictor._prepare_features E state lat lon
             prediction_date "XGBoost" p1 = (inr features, p1)
        /\ predicted_usage r
           = Py.round2
               match model with
               | Estimator predict =>
                   match predict features with
                   | inr y => Rmax 0 y
                   | inl _ =>
                       Rmax 0 (IZR (100 + (py_hash E state mod 1000) mod 50)
                               + normal_sample E (random_draws p) 0 10)
                   end
               | _ =>
                   Rmax 0 (IZR (100 + (py_hash E state mod 1000) mod 50)
                           + normal_sample E (random_draws p) 0 10)
               end%R).
Proof.
  split; intros H.
  - apply predict_inv in H.
    destruct H as (model & p1 & features & target & u & p2 & hist & p3 & fc
                   & Hload & Hfeat & _ & Hpoint & _ & _ & ->).
    exists model, p1, features. split; [exact Hload |]. split; [exact Hfeat |].
    cbn [predicted_usage].
    rewrite (xgboost_outcome _ _ _ _ _ _ _ Hpoint).
    destruct (load_model_frame _ _ _ _ _ Hload) as (_ & _ & _ & ->).
    reflexivity.
  - apply advanced_predict_inv in H.
    destruct H as (model & p1 & features & target & u & p2 & hist & p3 & fc
                   & Hload & Hfeat & _ & Hpoint & _ & _ & ->).
    exists model, p1, features. split; [exact Hload |]. split; [exact Hfeat |].
    cbn [predicted_usage].
    rewrite (xgboost_outcome _ _ _ _ _ _ _ Hpoint).
    destruct (advanced_load_model_frame E _ _ _ _ _ Hload) as (_ & _ & _ & ->).
    reflexivity.
Qed.

End XGBoost.

(** The sample request on the store whose model answers -3. *)
Lemma booster_returns :
  exists r p',
    ModelPredictor.predict (sample_env true) "Goa" 15 74 "2024-12-01"
      "XGBoost" (sample_process booster_store) = (inr r, p').
Proof.
  apply (predict_returns (sample_env true) "Goa" 15 74 "2024-12-01"
           "XGBoost" (sample_process booster_store)
           (snd (ModelPredictor._load_model "Goa" "XGBoost"
                   (sample_process booster_store)))
           (Estimator (fun _ => inr (-3)%R))
           (Calendar.mkDatetime 739221 0)).
  - rewrite load_model_eq. vm_compute. reflexivity.
  - reflexivity.
  - simpl. tauto.
  - vm_compute. split; [reflexivity | discriminate].
  - vm_compute. discriminate.
  - vm_compute. discriminate.
Qed.

(** X7 at the sample: a model that answers -3 gives a predicted usage
    of 0. *)
Lemma xgboost_witness :
  exists r p',
    ModelPredictor.predict (sample_env true) "Goa" 15 74 "2024-12-01"
      "XGBoost" (sample_process booster_store) = (inr r, p')
    /\ predicted_usage r = 0%R.
Proof.
  destruct booster_returns as (r & p' & Hrun).
  exists r, p'. split; [exact Hrun |].
  destruct (proj1 (xgboost_uses_the_model_or_falls_back (sample_env true)
                     "Goa" 15 74 "2024-12-01" (sample_process booster_store)
                     p' r) Hrun) as (model & p1 & features & Hload & _ & Hu).
  rewrite load_model_eq in Hload.
  assert (Hm : model = Estimator (fun _ => inr (-3)%R)).
  { vm_compute in Hload. now inversion Hload. }
  subst model. rewrite Hu.
  rewrite Rmax_left by lra. apply round2_zero.
Defined.

Lemma model_cache_set (c : gmap string Model) (p : process) :
  model_cache (set_model_cache c p) = c.
Proof. reflexivity. Qed.

Lemma trace_set_model_cache (c : gmap string Model) (p : process) :
  trace (set_model_cache c p) = trace p.
Proof. reflexivity. Qed.

Lemma trace_log (ev : Event) (p : process) :
  trace (log ev p) = (trace p ++ [ev])%list.
Proof. reflexivity. Qed.

(** ** When a prediction of the advanced predictor returns *)

Section Advanced_returns.
Context (E : env).

Lemma advanced_historical_returns (state : string) (days : Z) (p : process) :
  0 <= days <= 999999999 ->
  days < Calendar.toordinal (clock_reading E (clock_reads p))
       <= Calendar._MAXORDINAL + 1 ->
  exists l,
    AdvancedModelPredictor._generate_historical_data E state days p
    = (inr l, advance (Z.to_nat days) (tick_clock p)).
Proof.
  intros Hdays Htoday.
  unfold AdvancedModelPredictor._generate_historical_data.
  unfold bind at 1. unfold datetime_now at 1.
  rewrite <- (range_down_length days).
  apply for_each_returns.
  intros j x Hj. apply range_down_lookup in Hj. destruct Hj as [Hj ->].
  eexists.
  cbv beta iota delta [bind minus_timedelta lift np_random_normal ret].
  rewrite timedelta_small by lia. rewrite add_days_in_range by lia.
  reflexivity.
Qed.

Lemma advanced_forecast_returns (state prediction_date : string) (n : Z)
    (target : Calendar.datetime) (p : process) :
  strptime E prediction_date "%Y-%m-%d" = inr target ->
  0 <= Calendar.toordinal target ->
  Calendar.toordinal target + n <= Calendar._MAXORDINAL ->
  exists l,
    AdvancedModelPredictor._generate_forecast_data E state prediction_date n p
    = (inr l, advance (Z.to_nat n) p).
Proof.
  intros Htarget Hlo Hhi.
  unfold AdvancedModelPredictor._generate_forecast_data.
  unfold bind at 1. unfold datetime_strptime, lift. rewrite Htarget.
  rewrite <- (range_up_length n).
  apply for_each_returns.
  intros j x Hj. apply range_up_lookup in Hj. destruct Hj as [Hj ->].
  eexists.
  cbv beta iota delta [bind plus_timedelta lift np_random_normal ret].
  assert (Calendar._MAXORDINAL = 3652059) by reflexivity.
  rewrite timedelta_small by lia. rewrite add_days_in_range by lia.
  reflexivity.
Qed.

Lemma advanced_prepare_features_returns (state : string) (lat lon : R)
    (prediction_date model_type : string) (target : Calendar.datetime)
    (p : process) :
  strptime E prediction_date "%Y-%m-%d" = inr target ->
  exists features,
    AdvancedModelPredictor._prepare_features E state lat lon prediction_date
      model_type p = (inr features, p).
Proof.
  intros Htarget. unfold AdvancedModelPredictor._prepare_features.
  unfold bind, datetime_strptime, lift, ret. rewrite Htarget.
  eexists. reflexivity.
Qed.

(** The point prediction of the advanced predictor returns for the four
    families, and does not read the clock. *)
Lemma advanced_point_returns (state prediction_date model_type : string)
    (model : Model) (features : list (list R)) (target : Calendar.datetime)
    (p1 : process) :
  strptime E prediction_date "%Y-%m-%d" = inr target ->
  In model_type ["ARIMA"; "XGBoost"; "LSTM"; "Prophet"] ->
  exists v p2,
    (if String.eqb model_type "ARIMA" then
       let state_seed := py_hash E state mod 1000 in
       let base_usage := 100 + state_seed mod 50 in
       let* pred_date := datetime_strptime E prediction_date "%Y-%m-%d" in
       let day_of_year := Calendar.tm_yday pred_date in
       let seasonality := (20 * sin (2 * PI * IZR day_of_year / 365.25))%R in
       let trend := 0.1%R in
       let* noise := np_random_normal E 0 5 in
       let predicted_usage :=
         (IZR base_usage + trend + seasonality + noise)%R in
       ret (Rmax 0 (Py.round2 predicted_usage))
     else if String.eqb model_type "XGBoost" then
       try_except
         (if hasattr_predict model then
            let* predicted_usage := model_predict model features in
            ret (Rmax 0 (Py.round2 predicted_usage))
          else
            raise (Py.AttributeError "Model does not have predict method"))
         (fun e =>
            let state_seed := py_hash E state mod 1000 in
            let base_usage := 100 + state_seed mod 50 in
            let* noise := np_random_normal E 0 10 in
            let predicted_usage := (IZR base_usage + noise)%R in
            ret (Rmax 0 (Py.round2 predicted_usage)))
     else if String.eqb model_type "LSTM" then
       let state_seed := py_hash E state mod 1000 in
       let base_usage := 100 + state_seed mod 50 in
       let* pred_date := datetime_strptime E prediction_date "%Y-%m-%d" in
       let day_of_year := Calendar.tm_yday pred_date in
       let seasonality := (20 * sin (2 * PI * IZR day_of_year / 365.25))%R in
       let trend := 0.1%R in
       let* noise := np_random_normal E 0 3 in
       let predicted_usage :=
         (IZR base_usage + trend + seasonality + noise)%R in
       ret (Rmax 0 (Py.round2 predicted_usage))
     else if String.eqb model_type "Prophet" then
       let state_seed := py_hash E state mod 1000 in
       let base_usage := 100 + state_seed mod 50 in
       let* pred_date := datetime_strptime E prediction_date "%Y-%m-%d" in
       let day_of_year := Calendar.tm_yday pred_date in
       let seasonality := (20 * sin (2 * PI * IZR day_of_year / 365.25))%R in
       let trend := 0.1%R in
       let* noise := np_random_normal E 0 4 in
       let predicted_usage :=
         (IZR base_usage + trend + seasonality + noise)%R in
       ret (Rmax 0 (Py.round2 predicted_usage))
     else raise (Py.ValueError ("Unsupported model type: " ++ model_type)))
      p1 = (inr v, p2)
    /\ clock_reads p2 = clock_reads p1.
Proof.
  intros Htarget Hfamily. simpl in Hfamily.
  destruct Hfamily as [<- | [<- | [<- | [<- | []]]]];
    cbv beta iota zeta delta [String.eqb Ascii.eqb Bool.eqb].
  - cbv beta iota delta [bind datetime_strptime lift np_random_normal ret].
    rewrite Htarget. eexists; eexists. split; reflexivity.
  - unfold try_except.
    destruct model as [s | predict |]; cbn [hasattr_predict].
    + cbv beta iota delta [raise bind np_random_normal ret].
      eexists; eexists. split; reflexivity.
    + unfold bind at 1.
      destruct (model_predict (Estimator predict) features p1)
        as [[e | y] q] eqn:Hm;
        destruct (model_predict_frame _ _ _ _ _ Hm) as (_ & _ & Hc & _).
      * cbv beta iota delta [bind np_random_normal ret].
        eexists; eexists. split; [reflexivity | exact Hc].
      * unfold ret. eexists; eexists. split; [reflexivity | exact Hc].
    + cbv beta iota delta [raise bind np_random_normal ret].
      eexists; eexists. split; reflexivity.
  - cbv beta iota delta [bind datetime_strptime lift np_random_normal ret].
    rewrite Htarget. eexists; eexists. split; reflexivity.
  - cbv beta iota delta [bind datetime_strptime lift np_random_normal ret].
    rewrite Htarget. eexists; eexists. split; reflexivity.
Qed.

Lemma advanced_predict_returns (state : string) (lat lon : R)
    (prediction_date model_type : string) (p p1 : process) (model : Model)
    (target : Calendar.datetime) :
  AdvancedModelPredictor._load_model E state model_type p = (inr model, p1) ->
  strptime E prediction_date "%Y-%m-%d" = inr target ->
  In model_type ["ARIMA"; "XGBoost"; "LSTM"; "Prophet"] ->
  90 < Calendar.toordinal (clock_reading E (clock_reads p))
     <= Calendar._MAXORDINAL + 1 ->
  0 <= Calendar.toordinal target ->
  Calendar.toordinal target
  + Z.max 1 (Calendar.sub_days target (clock_reading E (S (clock_reads p))))
  <= Calendar._MAXORDINAL ->
  exists r p',
    AdvancedModelPredictor.predict E state lat lon prediction_date
      model_type p = (inr r, p').
Proof.
  intros Hload Htarget Hfamily Htoday Hlo Hhi.
  destruct (advanced_load_model_frame E _ _ _ _ _ Hload)
    as (_ & _ & Hclock & _).
  destruct (advanced_prepare_features_returns state lat lon prediction_date
              model_type target p1 Htarget) as (features & Hfeat).
  destruct (advanced_point_returns state prediction_date model_type model
              features target p1 Htarget Hfamily)
    as (v & p2 & Hpoint & Hclock2).
  destruct (advanced_historical_returns state 90 p2) as (hist & Hhist).
  { lia. }
  { rewrite Hclock2, Hclock. exact Htoday. }
  destruct (advanced_forecast_returns state prediction_date
              (Z.max 1 (Calendar.sub_days target
                          (clock_reading E
                             (clock_reads (advance 90 (tick_clock p2))))))
              target (tick_clock (advance 90 (tick_clock p2))) Htarget Hlo)
    as (fc & Hfc).
  { rewrite clock_reads_advance.
    replace (clock_reads (tick_clock p2)) with (S (clock_reads p))
      by (unfold tick_clock; cbn [clock_reads]; now rewrite Hclock2, Hclock).
    exact Hhi. }
  eexists; eexists.
  unfold AdvancedModelPredictor.predict. apply try_except_inr.
  rewrite (bind_inr _ _ _ _ _ Hload), (bind_inr _ _ _ _ _ Hfeat).
  rewrite (bind_inr _ _ _ _ _ Hpoint), (bind_inr _ _ _ _ _ Hhist).
  change (Z.to_nat 90) with 90%nat.
  unfold bind at 1. unfold datetime_strptime, lift. rewrite Htarget.
  unfold bind at 1. unfold datetime_now.
  rewrite (bind_inr _ _ _ _ _ Hfc). reflexivity.
Qed.

End Advanced_returns.

(** ** When [predict] returns *)

Section Returns_exactly.
Context (E : env).

Lemma series_dates_exist (state : string) (lat lon : R)
    (prediction_date model_type : string) (p p' : process) (r : Prediction) :
  ModelPredictor.predict E state lat lon prediction_date model_type p
  = (inr r, p')
  \/ AdvancedModelPredictor.predict E state lat lon prediction_date
       model_type p = (inr r, p') ->
  exists target,
    strptime E prediction_date "%Y-%m-%d" = inr target
    /\ 90 < Calendar.toordinal (clock_reading E (clock_reads p))
       <= Calendar._MAXORDINAL + 1
    /\ 0 <= Calendar.toordinal target
    /\ Calendar.toordinal target
       + Z.max 1 (Calendar.sub_days target
                    (clock_reading E (S (clock_reads p))))
       <= Calendar._MAXORDINAL.
Proof.
  intros H.
  pose proof (predict_series E _ _ _ _ _ _ _ _ H)
    as (target & u & draws & Htarget & _ & _ & Hseries).
  cbv zeta in Hseries. destruct Hseries as (_ & Hnth & Hflen & Hfnth).
  exists target. split; [exact Htarget |].
  destruct (Hnth 0%nat ltac:(lia)) as [H0 _].
  destruct (Hnth 89%nat ltac:(lia)) as [H89 _].
  set (n := Z.max 1 (Calendar.sub_days target
                       (clock_reading E (S (clock_reads p))))) in *.
  destruct (Hfnth 0%nat ltac:(lia)) as [Hf0 _].
  destruct (Hfnth (Z.to_nat n - 1)%nat ltac:(lia)) as [Hfn _].
  split; [lia |]. split; [lia |].
  rewrite Nat2Z.inj_sub in Hfn by lia. rewrite Z2Nat.id in Hfn by lia. lia.
Qed.

Lemma point_outcome_family (state model_type : string) (model : Model)
    (features : list (list R)) (target : Calendar.datetime)
    (p1 p2 : process) (u : R) :
  point_outcome E state model_type model features target p1 u p2 ->
  In model_type ["ARIMA"; "XGBoost"; "LSTM"; "Prophet"].
Proof.
  intros [(-> & _) | [(-> & _) | [(-> & _) | (-> & _)]]]; simpl; tauto.
Qed.

(** X8. [predict] returns a result exactly when the model loads, the date
    parses, the family is one of the four, the day the clock first gives
    is late enough for 90 earlier days to exist, and the last day of the
    forecast is not after 9999-12-31; this holds for both classes, each
    with its own [_load_model]. A failure of the model's own [predict] is
    not among the causes of an error, while a target date too close to
    the end of the calendar is. *)
Theorem predict_returns_exactly_when (state : string) (lat lon : R)
    (prediction_date model_type : string) (p : process) :
  let dates_exist (target : Calendar.datetime) :=
    90 < Calendar.toordinal (clock_reading E (clock_reads p))
    <= Calendar._MAXORDINAL + 1
    /\ 0 <= Calendar.toordinal target
    /\ Calendar.toordinal target
       + Z.max 1 (Calendar.sub_days target
                    (clock_reading E (S (clock_reads p))))
       <= Calendar._MAXORDINAL in
  ((exists r p',
      ModelPredictor.predict E state lat lon prediction_date model_type p
      = (inr r, p'))
   <->
   (exists model p1 target,
      ModelPredictor._load_model state model_type p = (inr model, p1)
      /\ strptime E prediction_date "%Y-%m-%d" = inr target
      /\ In model_type ["ARIMA"; "XGBoost"; "LSTM"; "Prophet"]
      /\ dates_exist target))
  /\ ((exists r p',
         AdvancedModelPredictor.predict E state lat lon prediction_date
           model_type p = (inr r, p'))
      <->
      (exists model p1 target,
         AdvancedModelPredictor._load_model E state model_type p
         = (inr model, p1)
         /\ strptime E prediction_date "%Y-%m-%d" = inr target
         /\ In model_type ["ARIMA"; "XGBoost"; "LSTM"; "Prophet"]
         /\ dates_exist target)).
Proof.
  intros dates_exist. subst dates_exist. cbv beta. split; split.
  - intros (r & p' & H).
    destruct (series_dates_exist _ _ _ _ _ _ _ _ (or_introl H))
      as (target & Htarget & Hdates).
    apply predict_inv in H.
    destruct H as (model & p1 & features & target' & u & p2 & hist & p3 & fc
                   & Hload & _ & _ & Hpoint & _).
    exists model, p1, target.
    split; [exact Hload |]. split; [exact Htarget |].
    split; [exact (point_outcome_family _ _ _ _ _ _ _ _ Hpoint) |].
    exact Hdates.
  - intros (model & p1 & target & Hload & Htarget & Hfam & Htoday & Hlo & Hhi).
    exact (predict_returns E _ _ _ _ _ _ _ _ _ Hload Htarget Hfam Htoday
             Hlo Hhi).
  - intros (r & p' & H).
    destruct (series_dates_exist _ _ _ _ _ _ _ _ (or_intror H))
      as (target & Htarget & Hdates).
    apply advanced_predict_inv in H.
    destruct H as (model & p1 & features & target' & u & p2 & hist & p3 & fc
                   & Hload & _ & _ & Hpoint & _).
    exists model, p1, target.
    split; [exact Hload |]. split; [exact Htarget |].
    split; [exact (point_outcome_family _ _ _ _ _ _ _ _ Hpoint) |].
    exact Hdates.
  - intros (model & p1 & target & Hload & Htarget & Hfam & Htoday & Hlo & Hhi).
    exact (advanced_predict_returns E _ _ _ _ _ _ _ _ _ Hload Htarget Hfam
             Htoday Hlo Hhi).
Qed.

End Returns_exactly.

(** ** The two classes side by side *)

Section Side_by_side.
Context (E : env).

(** X9. For the synthetic families the two classes compute the same
    numbers. When a [ModelPredictor] and an [AdvancedModelPredictor] that
    have read the clock and the random generator equally often both
    return, their results have the same predicted usage, the same
    historical series and the same forecast series: rounding before or
    after the floor at 0 makes no difference. Only [features_used] and
    [model_loaded] tell the results apart. *)
Theorem both_classes_give_the_same_numbers (state : string) (lat lon : R)
    (prediction_date family : string) (p p' q q' : process)
    (r r' : Prediction) :
  In family ["ARIMA"; "LSTM"; "Prophet"] ->
  clock_reads q = clock_reads p ->
  random_draws q = random_draws p ->
  ModelPredictor.predict E state lat lon prediction_date family p
  = (inr r, p') ->
  AdvancedModelPredictor.predict E state lat lon prediction_date
    family q = (inr r', q') ->
  predicted_usage r' = predicted_usage r
  /\ historical_data r' = historical_data r
  /\ forecast_data r' = forecast_data r
  /\ model_type r' = model_type r
  /\ clock_reads q' = clock_reads p'
  /\ random_draws q' = random_draws p'.
Proof.
  intros Hfam Hclock Hdraws H H'.
  apply predict_inv in H.
  destruct H as (model & p1 & features & target & u & p2 & hist & p3 & fc
                 & Hload & _ & Htarget & Hpoint & Hhist & Hfc & ->).
  apply advanced_predict_inv in H'.
  destruct H' as (model' & q1 & features' & target' & u' & q2 & hist' & q3
                  & fc' & Hload' & _ & Htarget' & Hpoint' & Hhist' & Hfc'
                  & ->).
  rewrite Htarget in Htarget'. inversion Htarget'; subst target'.
  destruct (point_outcome_synthetic E _ _ _ _ _ _ _ _ Hfam Hpoint) as [-> ->].
  destruct (point_outcome_synthetic E _ _ _ _ _ _ _ _ Hfam Hpoint')
    as [-> ->].
  destruct (load_model_frame _ _ _ _ _ Hload) as (_ & _ & Hc1 & Hd1).
  destruct (advanced_load_model_frame E _ _ _ _ _ Hload')
    as (_ & _ & Hc1' & Hd1').
  assert (Hc : clock_reads q1 = clock_reads p1) by congruence.
  assert (Hd : random_draws q1 = random_draws p1) by congruence.
  apply historical_inv in Hhist. cbv zeta in Hhist.
  destruct Hhist as (-> & Hlen & Hnth).
  apply advanced_historical_inv in Hhist'. cbv zeta in Hhist'.
  destruct Hhist' as (-> & Hlen' & Hnth').
  apply forecast_inv in Hfc.
  destruct Hfc as (t & Ht & -> & Hflen & Hfnth).
  rewrite Htarget in Ht. inversion Ht; subst t.
  apply advanced_forecast_inv in Hfc'.
  destruct Hfc' as (t & Ht' & -> & Hflen' & Hfnth').
  rewrite Htarget in Ht'. inversion Ht'; subst t.
  rewrite !clock_reads_advance in *. rewrite !random_draws_advance in *.
  cbn [clock_reads random_draws tick_clock tick_random] in *.
  rewrite !clock_reads_advance in *. rewrite !random_draws_advance in *.
  cbn [clock_reads random_draws tick_clock tick_random] in *.
  rewrite Hc, Hd in *.
  cbn [predicted_usage historical_data forecast_data model_type].
  split; [reflexivity |]. split; [| split; [| split; [reflexivity |]]].
  - apply list_eq. intros j.
    destruct (Nat.lt_ge_cases j (Z.to_nat 90)) as [Hj | Hj].
    + destruct (Hnth j Hj) as [_ ->]. destruct (Hnth' j Hj) as [_ ->].
      now rewrite Rmax_round2.
    + rewrite (lookup_ge_None_2 hist) by lia.
      rewrite (lookup_ge_None_2 hist') by lia. reflexivity.
  - apply list_eq. intros j.
    set (n := Z.max 1 (Calendar.sub_days target
                         (clock_reading E (S (clock_reads p1))))) in *.
    destruct (Nat.lt_ge_cases j (Z.to_nat n)) as [Hj | Hj].
    + destruct (Hfnth j Hj) as [_ ->]. destruct (Hfnth' j Hj) as [_ ->].
      now rewrite Rmax_round2.
    + rewrite (lookup_ge_None_2 fc) by lia.
      rewrite (lookup_ge_None_2 fc') by lia. reflexivity.
  - split; reflexivity.
Qed.

End Side_by_side.

(** The sample request for Goa and ARIMA returns in the advanced
    predictor. *)
Lemma sample_advanced_arima_returns :
  exists r p',
    AdvancedModelPredictor.predict (sample_env true) "Goa" 15 74 "2024-12-01"
      "ARIMA" (sample_process goa_store) = (inr r, p').
Proof.
  apply (advanced_predict_returns (sample_env true) "Goa" 15 74 "2024-12-01"
           "ARIMA" (sample_process goa_store)
           (snd (AdvancedModelPredictor._load_model (sample_env true) "Goa"
                   "ARIMA" (sample_process goa_store)))
           Opaque (Calendar.mkDatetime 739221 0)).
  - vm_compute. reflexivity.
  - reflexivity.
  - simpl. tauto.
  - vm_compute. split; [reflexivity | discriminate].
  - vm_compute. discriminate.
  - vm_compute. discriminate.
Qed.

(** X9 at the sample. *)
Lemma both_classes_witness :
  exists r p' r' q',
    ModelPredictor.predict (sample_env true) "Goa" 15 74 "2024-12-01" "ARIMA"
      (sample_process goa_store) = (inr r, p')
    /\ AdvancedModelPredictor.predict (sample_env true) "Goa" 15 74
         "2024-12-01" "ARIMA" (sample_process goa_store) = (inr r', q')
    /\ predicted_usage r' = predicted_usage r
    /\ historical_data r' = historical_data r
    /\ forecast_data r' = forecast_data r.
Proof.
  destruct sample_arima_returns as (r & p' & H).
  destruct sample_advanced_arima_returns as (r' & q' & H').
  exists r, p', r', q'. split; [exact H |]. split; [exact H' |].
  destruct (both_classes_give_the_same_numbers (sample_env true) "Goa" 15 74
              "2024-12-01" "ARIMA" (sample_process goa_store) p'
              (sample_process goa_store) q' r r'
              ltac:(simpl; tauto) eq_refl eq_refl H H')
    as (Hu & Hh & Hf & _).
  split; [exact Hu |]. split; [exact Hh | exact Hf].
Defined.

(** ** The simplified predictor *)

Lemma round2_lower (x : R) (c : Z) :
  (IZR c / 100 <= x)%R -> (IZR c / 100 <= Py.round2 x)%R.
Proof.
  intros H. unfold Py.round2.
  assert (Hc : c <= Py.round_half_even (x * 100)).
  { unfold Py.round_half_even.
    pose proof (Int_part_bounds (x * 100)) as [H1 H2].
    assert (c <= Int_part (x * 100)).
    { apply Z.lt_succ_r. apply lt_IZR. rewrite succ_IZR. lra. }
    destruct (Rlt_dec _ _); [assumption |].
    destruct (Rlt_dec _ _); [lia |].
    destruct (Z.even _); lia. }
  apply IZR_le in Hc. lra.
Qed.

Lemma round2_upper (x : R) (c : Z) :
  (x <= IZR c / 100)%R -> (Py.round2 x <= IZR c / 100)%R.
Proof.
  intros H. unfold Py.round2.
  assert (Hc : Py.round_half_even (x * 100) <= c).
  { unfold Py.round_half_even.
    pose proof (Int_part_bounds (x * 100)) as [H1 H2].
    assert (Hle : Int_part (x * 100) <= c).
    { apply le_IZR. lra. }
    destruct (Rlt_dec _ _) as [| Hn]; [assumption |].
    assert (Int_part (x * 100) <> c).
    { intros Heq. rewrite Heq in Hn, H1. apply Hn. lra. }
    destruct (Rlt_dec _ _); [lia |].
    destruct (Z.even _); lia. }
  apply IZR_le in Hc. lra.
Qed.


Section Simple_bounds.
Context (E : env).

(** X10. In the simplified predictor the floor at 0 never applies to a
    point of a series. When [np.random.random] draws from [0, 1), every
    usage of the historical series lies between 375 and 482.9 and every
    usage of the forecast series is at least 377.6, whatever the region,
    the coordinates, the dates and the family. *)
Theorem simple_series_stay_above_the_floor (state : string) (lat lon : R)
    (prediction_date model_type : string) (p p' : process) (r : Prediction) :
  (forall k : nat, (0 <= uniform_sample E k < 1)%R) ->
  Simple.generate_prediction E state lat lon prediction_date model_type p
  = (inr r, p') ->
  (forall pt : SeriesPoint, In pt (historical_data r) ->
     (375 <= usage pt <= 482.9)%R)
  /\ (forall pt : SeriesPoint, In pt (forecast_data r) ->
        (377.6 <= usage pt)%R).
Proof.
  intros Hu H.
  pose proof (Z.mod_pos_bound (Simple.hash_string state) 50 ltac:(lia))
    as Hbase.
  assert (Hb : (100 <= IZR (100 + Simple.hash_string state mod 50) <= 149)%R).
  { split; apply IZR_le; lia. }
  split; intros pt Hin; apply list_elem_of_In in Hin;
    apply list_elem_of_lookup_1 in Hin; destruct Hin as [j Hj];
    pose proof (lookup_lt_Some _ _ _ Hj) as Hlt.
  - destruct (simple_historical_inv E _ _ _ _ _ _ _ _ H) as [Hlen Hnth].
    rewrite Hlen in Hlt. specialize (Hnth j Hlt). cbv zeta in Hnth.
    rewrite Hnth in Hj. inversion Hj; subst pt; clear Hj. cbn [usage].
    set (d := shifted _ _).
    pose proof (seasonal_range d) as Hs.
    pose proof (Hu (random_draws p + 1 + j)%nat) as Hk.
    assert (Ht : (0 <= IZR (90 - (90 - Z.of_nat j)) <= 89)%R).
    { split; apply IZR_le; lia. }
    set (x := (_ + 300)%R).
    assert (Hx : (IZR 37500 / 100 <= x <= IZR 48290 / 100)%R).
    { subst x. lra. }
    pose proof (round2_lower x 37500 (proj1 Hx)) as Hlo.
    pose proof (round2_upper x 48290 (proj2 Hx)) as Hhi.
    rewrite Rmax_right by lra. lra.
  - destruct (simple_forecast_inv E _ _ _ _ _ _ _ _ H)
      as (target & _ & Hseries).
    cbv zeta in Hseries. destruct Hseries as [Hlen Hnth].
    rewrite Hlen in Hlt. specialize (Hnth j Hlt).
    rewrite Hnth in Hj. inversion Hj; subst pt; clear Hj. cbn [usage].
    set (d := shifted _ _).
    pose proof (seasonal_range d) as Hs.
    pose proof (Hu (random_draws p + 91 + j)%nat) as Hk.
    assert (Ht : (1 <= IZR (1 + Z.of_nat j))%R).
    { apply IZR_le. lia. }
    set (x := (_ + 300)%R).
    assert (Hx : (IZR 37760 / 100 <= x)%R).
    { subst x. lra. }
    pose proof (round2_lower x 37760 Hx) as Hlo.
    rewrite Rmax_right by lra. lra.
Qed.

End Simple_bounds.

Section Simple_returns.
Context (E : env).

Lemma simple_returns (state : string) (lat lon : R)
    (prediction_date model_type : string) (p : process)
    (target : Calendar.datetime) :
  strptime E prediction_date "%Y-%m-%d" = inr target ->
  90 < Calendar.toordinal (clock_reading E (clock_reads p))
     <= Calendar._MAXORDINAL + 1 ->
  0 <= Calendar.toordinal target ->
  Calendar.toordinal target
  + Z.max 1 (Calendar.sub_days target (clock_reading E (clock_reads p)))
  <= Calendar._MAXORDINAL ->
  exists r p',
    Simple.generate_prediction E state lat lon prediction_date model_type p
    = (inr r, p').
Proof.
  intros Htarget Htoday Hlo Hhi.
  unfold Simple.generate_prediction.
  unfold bind at 1. unfold datetime_strptime, lift. rewrite Htarget.
  unfold bind at 1. unfold datetime_now at 1.
  unfold bind at 1. unfold np_random_random at 1.
  match goal with
  | |- context [bind (for_each (Py.range 90 0 (-1)) ?body)] =>
      destruct (for_each_returns body (Py.range 90 0 (-1))
                  (tick_random (tick_clock p))) as (hist & Hhist)
  end.
  { intros j x Hj. apply range_down_lookup in Hj. destruct Hj as [Hj ->].
    change (Z.to_nat 90) with 90%nat in Hj.
    eexists.
    cbv beta iota delta [bind minus_timedelta lift np_random_random ret].
    rewrite timedelta_small by lia. rewrite add_days_in_range by lia.
    reflexivity. }
  rewrite (bind_inr _ _ _ _ _ Hhist).
  set (n := Z.max 1 (Calendar.sub_days target
                       (clock_reading E (clock_reads p)))) in *.
  match goal with
  | |- context [bind (for_each (Py.range 1 (n + 1) 1) ?body)] =>
      destruct (for_each_returns body (Py.range 1 (n + 1) 1)
                  (advance (length (Py.range 90 0 (-1)))
                     (tick_random (tick_clock p)))) as (fc & Hfc)
  end.
  { intros j x Hj. apply range_up_lookup in Hj. destruct Hj as [Hj ->].
    eexists.
    cbv beta iota delta [bind plus_timedelta lift np_random_random ret].
    assert (Calendar._MAXORDINAL = 3652059) by reflexivity.
    rewrite timedelta_small by lia. rewrite add_days_in_range by lia.
    reflexivity. }
  rewrite (bind_inr _ _ _ _ _ Hfc).
  unfold ret. eexists. eexists. reflexivity.
Qed.

Lemma simple_returns_inv (state : string) (lat lon : R)
    (prediction_date model_type : string) (p p' : process) (r : Prediction) :
  Simple.generate_prediction E state lat lon prediction_date model_type p
  = (inr r, p') ->
  exists target,
    strptime E prediction_date "%Y-%m-%d" = inr target
    /\ 90 < Calendar.toordinal (clock_reading E (clock_reads p))
       <= Calendar._MAXORDINAL + 1
    /\ 0 <= Calendar.toordinal target
    /\ Calendar.toordinal target
       + Z.max 1 (Calendar.sub_days target
                    (clock_reading E (clock_reads p)))
       <= Calendar._MAXORDINAL.
Proof.
  intros H.
  destruct (simple_historical_inv E _ _ _ _ _ _ _ _ H) as [_ Hnth].
  destruct (simple_forecast_inv E _ _ _ _ _ _ _ _ H)
    as (target & Htarget & Hseries).
  exists target. split; [exact Htarget |].
  revert H. unfold Simple.generate_prediction.
  unfold bind at 1. unfold datetime_strptime, lift. rewrite Htarget.
  unfold bind at 1. unfold datetime_now at 1.
  unfold bind at 1. unfold np_random_random at 1.
  intros H.
  apply bind_inv in H. destruct H as (hist & q & Hhist & H).
  apply bind_inv in H. destruct H as (fc & q' & Hfc & _).
  apply for_each_inv in Hhist;
    [| intros x q0 q0' y Hb; step_body Hb; reflexivity].
  destruct Hhist as (-> & _ & Hh).
  apply for_each_inv in Hfc;
    [| intros x q0 q0' y Hb; step_body Hb; reflexivity].
  destruct Hfc as (_ & _ & Hf).
  set (n := Z.max 1 (Calendar.sub_days target
                       (clock_reading E (clock_reads p)))) in *.
  assert (Hday : forall j, (j < 90)%nat ->
            1 <= Calendar.toordinal (clock_reading E (clock_reads p))
                 - (90 - Z.of_nat j) <= Calendar._MAXORDINAL).
  { intros j Hj.
    destruct (Hh j (90 - Z.of_nat j)) as (y & _ & Hb).
    { apply range_down_lookup. split; [exact Hj | reflexivity]. }
    revert Hb. generalize (advance j (tick_random (tick_clock p))).
    generalize (advance (S j) (tick_random (tick_clock p))).
    intros q1 q2 Hb.
    cbv beta iota delta [bind minus_timedelta lift] in Hb.
    destruct (Calendar.timedelta _) eqn:Ht; [discriminate |].
    apply timedelta_inr in Ht; subst.
    destruct (Calendar.add_days _ _) eqn:Ha; [discriminate |].
    apply add_days_inr in Ha. destruct Ha as [_ Ha]. lia. }
  assert (Hfday : forall j, (j < Z.to_nat n)%nat ->
            1 <= Calendar.toordinal target + (1 + Z.of_nat j)
              <= Calendar._MAXORDINAL).
  { intros j Hj.
    destruct (Hf j (1 + Z.of_nat j)) as (y & _ & Hb).
    { apply range_up_lookup. split; [exact Hj | reflexivity]. }
    revert Hb.
    generalize (advance j (advance (length (Py.range 90 0 (-1)))
                             (tick_random (tick_clock p)))).
    generalize (advance (S j) (advance (length (Py.range 90 0 (-1)))
                                 (tick_random (tick_clock p)))).
    intros q1 q2 Hb.
    cbv beta iota delta [bind plus_timedelta lift] in Hb.
    destruct (Calendar.timedelta _) eqn:Ht; [discriminate |].
    apply timedelta_inr in Ht; subst.
    destruct (Calendar.add_days _ _) eqn:Ha; [discriminate |].
    apply add_days_inr in Ha. destruct Ha as [_ Ha]. lia. }
  pose proof (Hday 0%nat ltac:(lia)) as H0.
  pose proof (Hday 89%nat ltac:(lia)) as H89.
  pose proof (Hfday 0%nat ltac:(lia)) as Hf0.
  pose proof (Hfday (Z.to_nat n - 1)%nat ltac:(lia)) as Hfn.
  rewrite Nat2Z.inj_sub in Hfn by lia. rewrite Z2Nat.id in Hfn by lia.
  split; [lia |]. split; lia.
Qed.

(** X11. The simplified predictor reads no artifact and rejects no family:
    [generate_prediction] returns exactly when the date parses, the day the
    clock gives is late enough for 90 earlier days to exist and the last
    day of the forecast is not after 9999-12-31. Neither the region, nor
    the coordinates, nor the family, nor the artifact store has a say. *)
Theorem simple_prediction_returns_exactly_when (state : string) (lat lon : R)
    (prediction_date model_type : string) (p : process) :
  (exists r p',
     Simple.generate_prediction E state lat lon prediction_date model_type p
     = (inr r, p'))
  <->
  (exists target,
     strptime E prediction_date "%Y-%m-%d" = inr target
     /\ 90 < Calendar.toordinal (clock_reading E (clock_reads p))
        <= Calendar._MAXORDINAL + 1
     /\ 0 <= Calendar.toordinal target
     /\ Calendar.toordinal target
        + Z.max 1 (Calendar.sub_days target
                     (clock_reading E (clock_reads p)))
        <= Calendar._MAXORDINAL).
Proof.
  split.
  - intros (r & p' & H). exact (simple_returns_inv _ _ _ _ _ _ _ _ H).
  - intros (target & Htarget & Htoday & Hlo & Hhi).
    exact (simple_returns _ _ _ _ _ _ _ Htarget Htoday Hlo Hhi).
Qed.

End Simple_returns.

(** The sample request returns in the simplified predictor, whatever the
    family and the store. *)
Lemma sample_simple_returns (model_type : string)
    (files : list (string * Artifact)) :
  exists r p',
    Simple.generate_prediction (sample_env true) "Goa" 15 74 "2024-12-01"
      model_type (sample_process files) = (inr r, p').
Proof.
  apply (simple_returns (sample_env true) "Goa" 15 74 "2024-12-01"
           model_type (sample_process files)
           (Calendar.mkDatetime 739221 0)).
  - reflexivity.
  - vm_compute. split; [reflexivity | discriminate].
  - vm_compute. discriminate.
  - vm_compute. discriminate.
Qed.

Lemma simple_series_witness :
  exists (r : Prediction) (p' : process),
    Simple.generate_prediction (sample_env true) "Goa" 15 74 "2024-12-01"
      "ARIMA" (sample_process []) = (inr r, p')
    /\ (forall pt : SeriesPoint, In pt (historical_data r) ->
          (375 <= usage pt <= 482.9)%R)
    /\ (forall pt : SeriesPoint, In pt (forecast_data r) ->
          (377.6 <= usage pt)%R).
Proof.
  destruct (sample_simple_returns "ARIMA" []) as (r & p' & H).
  exists r, p'. split; [exact H |].
  apply (simple_series_stay_above_the_floor (sample_env true) "Goa" 15 74
           "2024-12-01" "ARIMA" (sample_process []) p' r).
  - intros k. cbn [uniform_sample sample_env]. lra.
  - exact H.
Defined.

Section Keeps_trace.
Context (E : env).

Lemma keeps_trace_ret {A : Type} (a : A) : keeps_trace (ret a).
Proof. intros p r p' H. unfold ret in H. now inversion H. Qed.

Lemma keeps_trace_lift {A : Type} (r : Py.exn + A) : keeps_trace (lift r).
Proof. intros p r' p' H. unfold lift in H. now inversion H. Qed.

Lemma keeps_trace_bind {A B : Type} (m : M A) (k : A -> M B) :
  keeps_trace m -> (forall a, keeps_trace (k a)) -> keeps_trace (bind m k).
Proof.
  intros Hm Hk p r p' H. unfold bind in H.
  destruct (m p) as [[e | a] q] eqn:Hq.
  - inversion H; subst. exact (Hm _ _ _ Hq).
  - rewrite (Hk _ _ _ _ H). exact (Hm _ _ _ Hq).
Qed.

Lemma keeps_trace_for_each {A B : Type} (body : A -> M B) (l : list A) :
  (forall x, keeps_trace (body x)) -> keeps_trace (for_each l body).
Proof.
  intros Hbody. induction l as [| x l IH]; simpl.
  - apply keeps_trace_ret.
  - apply keeps_trace_bind; [apply Hbody |]. intros y.
    apply keeps_trace_bind; [exact IH |]. intros ys. apply keeps_trace_ret.
Qed.

Lemma keeps_trace_datetime_now : keeps_trace (datetime_now E).
Proof. intros p r p' H. unfold datetime_now in H. now inversion H. Qed.

Lemma keeps_trace_np_random_random : keeps_trace (np_random_random E).
Proof. intros p r p' H. unfold np_random_random in H. now inversion H. Qed.

Lemma keeps_trace_generate_prediction (state : string) (lat lon : R)
    (prediction_date model_type : string) :
  keeps_trace
    (Simple.generate_prediction E state lat lon prediction_date model_type).
Proof.
  unfold Simple.generate_prediction, datetime_strptime, minus_timedelta,
    plus_timedelta.
  repeat first
    [ apply keeps_trace_ret
    | apply keeps_trace_lift
    | apply keeps_trace_datetime_now
    | apply keeps_trace_np_random_random
    | apply keeps_trace_for_each; intros ?
    | apply keeps_trace_bind; [| intros ?] ].
Qed.

End Keeps_trace.

Section Simple_family.
Context (E : env).

Lemma model_adjustments_unknown (model_type : string) :
  ~ In model_type families ->
  Simple.model_adjustments !! model_type = None.
Proof.
  intros H. unfold Simple.model_adjustments.
  apply not_elem_of_list_to_map_1. intros Hin.
  apply list_elem_of_In in Hin. apply H. exact Hin.
Qed.

Lemma bind_relabel {A : Type} (f : Prediction -> Prediction) (m : M A)
    (k1 k2 : A -> M Prediction) (p : process) :
  (forall a q,
     k2 a q = (match fst (k1 a q) with
               | inl e => inl e
               | inr r => inr (f r)
               end, snd (k1 a q))) ->
  bind m k2 p = (match fst (bind m k1 p) with
                 | inl e => inl e
                 | inr r => inr (f r)
                 end, snd (bind m k1 p)).
Proof.
  intros H. unfold bind. destruct (m p) as [[e | a] q]; [reflexivity |].
  apply H.
Qed.

(** X12. What a family unknown to the simplified predictor gets. When the
    family is none of the four, [model_adjustments.get(model_type, 0)] is
    0, the adjustment of ARIMA: the request is served as an ARIMA request,
    with the same numbers, the same series and the same error if any, and
    only the label of the result differs. The run consults neither the
    artifact store nor a model. *)
Theorem simple_unknown_family_is_served_as_arima (state : string)
    (lat lon : R) (prediction_date model_type : string) (p : process) :
  ~ In model_type families ->
  let served :=
    Simple.generate_prediction E state lat lon prediction_date "ARIMA" p in
  Simple.generate_prediction E state lat lon prediction_date model_type p
  = (match fst served with
     | inl e => inl e
     | inr r => inr (with_model_type model_type r)
     end, snd served)
  /\ trace (snd served) = trace p.
Proof.
  intros Hfam served. subst served. split.
  - unfold Simple.generate_prediction.
    rewrite (model_adjustments_unknown _ Hfam).
    replace (Simple.model_adjustments !! "ARIMA") with (Some 0)
      by (symmetry; vm_compute; reflexivity).
    cbn [default from_option].
    repeat (apply bind_relabel; intros ? ?).
    reflexivity.
  - destruct (Simple.generate_prediction E state lat lon prediction_date
                "ARIMA" p) as [r p'] eqn:H.
    exact (keeps_trace_generate_prediction E _ _ _ _ _ _ _ _ H).
Qed.

End Simple_family.

Lemma simple_unknown_family_witness :
  ~ In "Unsupported" families
  /\ exists r p',
       Simple.generate_prediction (sample_env true) "Goa" 15 74 "2024-12-01"
         "ARIMA" (sample_process []) = (inr r, p')
       /\ Simple.generate_prediction (sample_env true) "Goa" 15 74
            "2024-12-01" "Unsupported" (sample_process [])
          = (inr (with_model_type "Unsupported" r), p').
Proof.
  assert (Hfam : ~ In "Unsupported" families).
  { unfold families. simpl. intros [H | [H | [H | [H | []]]]]; discriminate. }
  split; [exact Hfam |].
  destruct (sample_simple_returns "ARIMA" []) as (r & p' & H).
  exists r, p'. split; [exact H |].
  destruct (simple_unknown_family_is_served_as_arima (sample_env true) "Goa"
              15 74 "2024-12-01" "Unsupported" (sample_process []) Hfam)
    as [Heq _].
  rewrite H in Heq. exact Heq.
Defined.

(** ** The command line of the simplified predictor *)

Section Simple_main.
Context (E : env).

(** X13. What [main] of the simplified predictor reports. It prints
    exactly one object, a result with exit code 0 or an error with exit
    code 1, and touches neither the artifact store nor a model. The exit
    code is 0 exactly when the command line has one argument, the
    argument decodes, the date parses and the dates of both series exist
    in the calendar. *)
Theorem simple_main_exit_code (argv : list string) (p p' : process)
    (outs : list Output) (code : Z) :
  Simple.main E argv p = (outs, code, p') ->
  storage p' = storage p
  /\ trace p' = trace p
  /\ ((code = 0 /\ exists r, outs = [Out_result r])
      \/ (code = 1 /\ exists msg, outs = [Out_error msg]))
  /\ (code = 0 <->
      exists name arg req target,
        argv = [name; arg]
        /\ decode_request E arg = inr req
        /\ strptime E (req_prediction_date req) "%Y-%m-%d" = inr target
        /\ 90 < Calendar.toordinal (clock_reading E (clock_reads p))
           <= Calendar._MAXORDINAL + 1
        /\ 0 <= Calendar.toordinal target
        /\ Calendar.toordinal target
           + Z.max 1 (Calendar.sub_days target
                        (clock_reading E (clock_reads p)))
           <= Calendar._MAXORDINAL).
Proof.
  unfold Simple.main.
  destruct argv as [| name [| arg [| x l]]].
  1, 2, 4: intros H; inversion H; subst;
    (split; [reflexivity |]); (split; [reflexivity |]);
    (split; [right; split; [reflexivity | eexists; reflexivity] |]);
    (split; [discriminate |]);
    intros (name' & arg' & req & target & Hargv & _); discriminate Hargv.
  unfold bind at 1. unfold lift at 1.
  destruct (decode_request E arg) as [e | req] eqn:Hdec.
  { intros H.
    assert (Hout : code = 1 /\ p' = p /\ exists msg, outs = [Out_error msg]).
    { destruct e; inversion H; subst;
        (split; [reflexivity |]); (split; [reflexivity |]);
        eexists; reflexivity. }
    destruct Hout as (-> & -> & Hmsg).
    split; [reflexivity |]. split; [reflexivity |].
    split; [right; split; [reflexivity | exact Hmsg] |].
    split; [discriminate |].
    intros (name' & arg' & req & target & Hargv & Hdec' & _).
    inversion Hargv; subst. rewrite Hdec in Hdec'. discriminate Hdec'. }
  destruct (Simple.generate_prediction E (req_state req) (req_lat req)
              (req_lon req) (req_prediction_date req) (req_model_type req) p)
    as [[e | r] q] eqn:Hrun; intros H.
  - assert (Hout : code = 1 /\ p' = q /\ exists msg, outs = [Out_error msg]).
    { destruct e; inversion H; subst;
        (split; [reflexivity |]); (split; [reflexivity |]);
        eexists; reflexivity. }
    destruct Hout as (-> & -> & Hmsg).
    pose proof (frames_generate_prediction E _ _ _ _ _ _ _ _ Hrun) as Hext.
    destruct Hext as (Hs & _).
    split; [exact Hs |].
    split; [exact (keeps_trace_generate_prediction E _ _ _ _ _ _ _ _ Hrun) |].
    split; [right; split; [reflexivity | exact Hmsg] |].
    split; [discriminate |].
    intros (name' & arg' & req' & target & Hargv & Hdec' & Ht & H1 & H2 & H3).
    inversion Hargv; subst. rewrite Hdec in Hdec'. inversion Hdec'; subst.
    destruct (simple_returns E (req_state req') (req_lat req') (req_lon req')
                _ (req_model_type req') _ _ Ht H1 H2 H3) as (r & p' & Hr).
    rewrite Hrun in Hr. discriminate Hr.
  - inversion H; subst.
    pose proof (frames_generate_prediction E _ _ _ _ _ _ _ _ Hrun) as Hext.
    destruct Hext as (Hs & _).
    split; [exact Hs |].
    split; [exact (keeps_trace_generate_prediction E _ _ _ _ _ _ _ _ Hrun) |].
    split; [left; split; [reflexivity | eexists; reflexivity] |].
    split; [intros _ | reflexivity].
    destruct (simple_returns_inv E _ _ _ _ _ _ _ _ Hrun)
      as (target & Ht & H1 & H2 & H3).
    exists name, arg, req, target. repeat (split; [assumption || reflexivity |]).
    exact H3.
Qed.

End Simple_main.

(** X13 at the sample. *)
Lemma simple_main_witness :
  exists outs code p',
    Simple.main (sample_env true)
      ["model-predictor-simple.py"; sample_argument "ARIMA"]
      (sample_process []) = (outs, code, p')
    /\ code = 0.
Proof.
  destruct (Simple.main (sample_env true)
              ["model-predictor-simple.py"; sample_argument "ARIMA"]
              (sample_process [])) as [[outs code] p'] eqn:H.
  exists outs, code, p'. split; [reflexivity |].
  destruct (simple_main_exit_code (sample_env true) _ _ _ _ _ H)
    as (_ & _ & _ & Hcode).
  apply Hcode.
  exists "model-predictor-simple.py", (sample_argument "ARIMA"),
    (mkRequest "Goa" 15 74 "2024-12-01" "ARIMA"),
    (Calendar.mkDatetime 739221 0).
  split; [reflexivity |]. split; [vm_compute; reflexivity |].
  split; [reflexivity |].
  split; [vm_compute; split; [reflexivity | discriminate] |].
  split; vm_compute; discriminate.
Defined.

(** ** [hash_string] *)



(** ** The command line of the advanced predictor *)

Section Main.
Context (E : env).

Lemma advanced_predict_error (state : string) (lat lon : R)
    (prediction_date model_type : string) (p p' : process) (e : Py.exn) :
  AdvancedModelPredictor.predict E state lat lon prediction_date model_type p
  = (inl e, p') ->
  exists m, e = Py.RuntimeError ("Prediction failed: " ++ m).
Proof.
  unfold AdvancedModelPredictor.predict, try_except, raise.
  match goal with
  | |- context [match ?m p with _ => _ end] => destruct (m p) as [[e' | r] q]
  end; intros H; inversion H. now exists (Py.str e').
Qed.

Lemma point_outcome_frame (state model_type : string) (model : Model)
    (features : list (list R)) (target : Calendar.datetime)
    (p1 p2 : process) (u : R) :
  point_outcome E state model_type model features target p1 u p2 ->
  loaded_models p2 = loaded_models p1
  /\ model_cache p2 = model_cache p1
  /\ exists events, trace p2 = (trace p1 ++ events)%list.
Proof.
  assert (Hm : forall r q, model_predict model features p1 = (r, q) ->
            loaded_models q = loaded_models p1
            /\ model_cache q = model_cache p1
            /\ exists events, trace q = (trace p1 ++ events)%list).
  { unfold model_predict. intros r q H.
    destruct model; inversion H; subst;
      cbn [loaded_models model_cache trace log];
      (split; [reflexivity |]; split; [reflexivity |]);
      [exists []; now rewrite app_nil_r
      | eexists; reflexivity
      | exists []; now rewrite app_nil_r]. }
  intros [(_ & _ & ->) | [(_ & _ & ->) | [(_ & _ & ->)
    | (_ & [(y & Hy & _) | (e & q & Hq & _ & ->)])]]];
    try (cbn [loaded_models model_cache trace tick_random];
         split; [reflexivity |]; split; [reflexivity |];
         exists []; now rewrite app_nil_r).
  - exact (Hm _ _ Hy).
  - cbn [loaded_models model_cache trace tick_random]. exact (Hm _ _ Hq).
Qed.


Lemma loaded_models_advance (n : nat) (p : process) :
  loaded_models (advance n p) = loaded_models p.
Proof. now destruct (advance_fields n p) as (_ & _ & -> & _). Qed.

Lemma tick_clock_fields (p : process) :
  trace (tick_clock p) = trace p
  /\ loaded_models (tick_clock p) = loaded_models p.
Proof. split; reflexivity. Qed.

Lemma loaded_models_set (c : gmap string Model) (p : process) :
  loaded_models (set_loaded_models c p) = c.
Proof. reflexivity. Qed.

Lemma trace_set_loaded_models (c : gmap string Model) (p : process) :
  trace (set_loaded_models c p) = trace p.
Proof. reflexivity. Qed.

(** A successful prediction of a predictor that has just been built. *)
Lemma advanced_fresh_prediction (state : string) (lat lon : R)
    (prediction_date family : string) (p0 p' : process)
    (r : Prediction) :
  loaded_models p0 = ∅ ->
  AdvancedModelPredictor.predict E state lat lon prediction_date family p0
  = (inr r, p') ->
  exists model,
    model_type r = family
    /\ loaded_models p' = {[ cache_key state family := model ]}
    /\ (family <> "LSTM" ->
        In (Ev_load (artifact_path (models_dir p0) state family))
           (trace p')).
Proof.
  intros Hl0 Hrun.
  apply advanced_predict_inv in Hrun.
  destruct Hrun as (model & p1 & features & target & u & p2 & hist & p3
                    & fc & Hload & _ & _ & Hpoint & Hhist & Hfc & ->).
  exists model. split; [reflexivity |].
  apply advanced_historical_inv in Hhist. destruct Hhist as (-> & _).
  apply advanced_forecast_inv in Hfc. destruct Hfc as (_ & _ & -> & _).
  destruct (point_outcome_frame _ _ _ _ _ _ _ _ Hpoint)
    as (Hl2 & _ & events & Ht2).
  rewrite !trace_advance, !loaded_models_advance.
  rewrite (proj1 (tick_clock_fields _)), (proj2 (tick_clock_fields _)).
  rewrite !trace_advance, !loaded_models_advance.
  rewrite (proj1 (tick_clock_fields p2)), (proj2 (tick_clock_fields p2)).
  rewrite Hl2, Ht2. clear Hl2 Ht2 Hpoint.
  rewrite advanced_load_model_eq in Hload.
  rewrite Hl0, lookup_empty in Hload.
  destruct (storage p0 !! _) as [file |]; [| discriminate].
  destruct (String.eqb family "LSTM") eqn:Hlstm.
  + destruct (TENSORFLOW_AVAILABLE E); [| discriminate].
    inversion Hload; subst. split.
    * rewrite loaded_models_set. apply insert_empty.
    * intros Hne. apply String.eqb_neq in Hne. congruence.
  + destruct (JOBLIB_AVAILABLE E); [| discriminate].
    destruct file; [| discriminate]. inversion Hload; subst. split.
    * rewrite loaded_models_set. apply insert_empty.
    * intros _. rewrite trace_set_loaded_models, trace_log.
      rewrite !in_app_iff. left. right. left. reflexivity.
Qed.

(** X15. What [main] of the advanced predictor reports. It prints exactly
    one object and leaves the artifact store alone. The object is the
    error [Invalid arguments] when the command line has not exactly one
    argument, and the decoding error when the argument cannot be decoded
    (in both cases nothing else has happened). Otherwise a fresh predictor
    runs [predict]: when it raises, the object is its error, whose message
    starts with [Prediction failed: ]; when it returns, the object is the
    result with exit code 0 if [json.dumps] encodes the result, and the
    error of [json.dumps] with exit code 1 if it raises, which is the one
    error of a run that has neither prefix. Every run builds its own
    predictor, so the cache never serves a request made on the command
    line: once [predict] has returned, the cache holds the model of the
    request and nothing else, and a family other than LSTM has had its
    artifact deserialised. *)
Theorem advanced_main_reports_one_object (argv : list string)
    (p p' : process) (outs : list Output) (code : Z) :
  AdvancedModelPredictor.main E argv p = (outs, code, p') ->
  storage p' = storage p
  /\ ((length argv <> 2%nat
       /\ outs = [Out_error "Invalid arguments"] /\ code = 1 /\ p' = p)
      \/ (exists name arg e,
            argv = [name; arg] /\ decode_request E arg = inl e
            /\ outs = [Out_error (Py.str e)] /\ code = 1 /\ p' = p)
      \/ (exists name arg req m,
            argv = [name; arg] /\ decode_request E arg = inr req
            /\ AdvancedModelPredictor.predict E (req_state req) (req_lat req)
                 (req_lon req) (req_prediction_date req) (req_model_type req)
                 (AdvancedModelPredictor.__init__ "models" p)
               = (inl (Py.RuntimeError ("Prediction failed: " ++ m)), p')
            /\ outs = [Out_error ("Prediction failed: " ++ m)] /\ code = 1)
      \/ (exists name arg req r model,
            argv = [name; arg] /\ decode_request E arg = inr req
            /\ AdvancedModelPredictor.predict E (req_state req) (req_lat req)
                 (req_lon req) (req_prediction_date req) (req_model_type req)
                 (AdvancedModelPredictor.__init__ "models" p)
               = (inr r, p')
            /\ model_type r = req_model_type req
            /\ loaded_models p'
               = {[ cache_key (req_state req) (req_model_type req) := model ]}
            /\ (req_model_type req <> "LSTM" ->
                In (Ev_load (artifact_path "models" (req_state req)
                               (req_model_type req)))
                   (trace p'))
            /\ ((exists text,
                   json_dumps E r = inr text
                   /\ outs = [Out_result r] /\ code = 0)
                \/ (exists e,
                      json_dumps E r = inl e
                      /\ outs = [Out_error (Py.str e)] /\ code = 1)))).
Proof.
  unfold AdvancedModelPredictor.main.
  destruct argv as [| name [| arg [| x l]]].
  1, 2, 4: intros H; inversion H; subst; split; [reflexivity |]; left;
    repeat split; cbn [length]; lia.
  unfold bind at 1. unfold lift at 1.
  destruct (decode_request E arg) as [e | req] eqn:Hdec.
  { intros H. inversion H; subst. split; [reflexivity |]. right; left.
    exists name, arg, e. repeat split; assumption. }
  unfold bind at 1.
  assert (Hinit : storage (AdvancedModelPredictor.__init__ "models" p)
                  = storage p
                  /\ models_dir (AdvancedModelPredictor.__init__ "models" p)
                     = "models"
                  /\ loaded_models (AdvancedModelPredictor.__init__ "models" p)
                     = ∅) by (repeat split).
  remember (AdvancedModelPredictor.__init__ "models" p) as p0 eqn:Hp0.
  destruct Hinit as (Hs0 & Hd0 & Hl0).
  unfold bind at 1.
  destruct (AdvancedModelPredictor.predict E (req_state req) (req_lat req)
              (req_lon req) (req_prediction_date req) (req_model_type req) p0)
    as [[e | r] q] eqn:Hrun.
  - intros H; inversion H; subst outs code p'; clear H.
    pose proof (frames_advanced_predict E _ _ _ _ _ _ _ _ Hrun) as Hext.
    destruct Hext as (Hs & _). split; [now rewrite Hs |].
    right; right; left.
    destruct (advanced_predict_error _ _ _ _ _ _ _ _ Hrun) as (m & ->).
    exists name, arg, req, m.
    split; [reflexivity |]. split; [exact Hdec |].
    split; [exact Hrun |]. split; reflexivity.
  - pose proof (frames_advanced_predict E _ _ _ _ _ _ _ _ Hrun) as Hext.
    destruct Hext as (Hs & _).
    destruct (advanced_fresh_prediction _ _ _ _ _ _ _ _ Hl0 Hrun)
      as (model & Hmt & Hcache & Hloaded).
    rewrite Hd0 in Hloaded.
    unfold bind, lift, ret.
    destruct (json_dumps E r) as [e | text] eqn:Hjson;
      intros H; inversion H; subst outs code p'; clear H;
      (split; [now rewrite Hs |]); right; right; right;
      exists name, arg, req, r, model;
      (split; [reflexivity |]); (split; [exact Hdec |]);
      (split; [exact Hrun |]); (split; [exact Hmt |]);
      (split; [exact Hcache |]); (split; [exact Hloaded |]).
    + right. exists e. repeat split. exact Hjson.
    + left. exists text. repeat split. exact Hjson.
Qed.

End Main.

(** X15 at the sample: the request for Goa and ARIMA is answered by a
    result. *)
Lemma advanced_main_witness :
  exists r p',
    AdvancedModelPredictor.main (sample_env true)
      ["advanced-model-predictor.py"; sample_argument "ARIMA"]
      (sample_process goa_store) = ([Out_result r], 0, p')
    /\ storage p' = storage (sample_process goa_store)
    /\ model_type r = "ARIMA".
Proof.
  destruct sample_advanced_arima_returns as (r & p' & Hrun).
  assert (Hmain :
    AdvancedModelPredictor.main (sample_env true)
      ["advanced-model-predictor.py"; sample_argument "ARIMA"]
      (sample_process goa_store) = ([Out_result r], 0, p')).
  { unfold AdvancedModelPredictor.main.
    unfold bind at 1. unfold lift at 1.
    replace (decode_request (sample_env true) (sample_argument "ARIMA"))
      with (inr (mkRequest "Goa" 15 74 "2024-12-01" "ARIMA")
            : Py.exn + Request) by (vm_compute; reflexivity).
    unfold bind at 1.
    change (AdvancedModelPredictor.__init__ "models"
              (sample_process goa_store))
      with (sample_process goa_store).
    cbn [req_state req_lat req_lon req_prediction_date req_model_type].
    rewrite (bind_inr _ _ _ _ _ Hrun).
    reflexivity. }
  exists r, p'. split; [exact Hmain |].
  destruct (advanced_main_reports_one_object (sample_env true) _ _ _ _ _
              Hmain) as [Hs Hcases].
  split; [exact Hs |].
  destruct Hcases as [(Hlen & _) | [(name & arg & e & _ & _ & Hout & _)
    | [(name & arg & req & m & _ & _ & _ & Hout & _)
      | (name & arg & req & r0 & model & Hargv & Hdec & _ & Hmt & _ & _
         & Hjson)]]].
  - exfalso. apply Hlen. reflexivity.
  - discriminate Hout.
  - discriminate Hout.
  - inversion Hargv; subst name arg.
    assert (Hd : decode_request (sample_env true) (sample_argument "ARIMA")
                 = inr (mkRequest "Goa" 15 74 "2024-12-01" "ARIMA"))
      by (vm_compute; reflexivity).
    rewrite Hd in Hdec. inversion Hdec; subst req.
    destruct Hjson as [(text & _ & Hout & _) | (e & _ & Hout & _)];
      [| discriminate Hout].
    inversion Hout; subst r0. exact Hmt.
Defined.

(** ** Aliases of a region and keys of the cache *)

Lemma append_empty_r (s : string) : s ++ EmptyString = s.
Proof.
  induction s as [| c s IH]; [reflexivity |].
  change (String c s ++ EmptyString) with (String c (s ++ EmptyString)).
  now rewrite IH.
Qed.

(** Two strings with a common suffix, from the longer prefix. *)
Lemma append_split (s1 s2 a b : string) :
  s1 ++ a = s2 ++ b -> (String.length s2 <= String.length s1)%nat ->
  exists c, s1 = s2 ++ c /\ b = c ++ a.
Proof.
  revert s1. induction s2 as [| x s2 IH]; intros s1 H Hlen.
  - exists s1. split; [reflexivity | now symmetry].
  - destruct s1 as [| y s1]; [simpl in Hlen; lia |].
    simpl in H. inversion H; subst.
    destruct (IH s1 H2 ltac:(simpl in Hlen; lia)) as (c & -> & ->).
    exists c. split; reflexivity.
Qed.

Lemma alias_key_differs (state code model_type : string) :
  ModelPredictor.state_mapping !! state = Some code ->
  cache_key code model_type <> cache_key state model_type.
Proof.
  intros H. apply state_mapping_cases in H. simpl in H. unfold cache_key.
  repeat (destruct H as [H | H]; [inversion H; subst; simpl; discriminate |]).
  contradiction.
Qed.

Lemma alias_path (dir state code model_type : string) :
  ModelPredictor.state_mapping !! state = Some code ->
  artifact_path dir code model_type = artifact_path dir state model_type.
Proof.
  intros H. unfold artifact_path.
  destruct (model_state_of_value _ _ H) as [_ ->].
  unfold ModelPredictor.model_state at 1 2. rewrite H. reflexivity.
Qed.

(** X16. A region can be named by its label or by its code. Both names
    lead to the same artifact, but the cache is keyed by the name as
    given: after a successful load under the label, the entry of the code
    is still missing, and a load under the code checks the path and
    deserialises the same file again. *)
Theorem alias_shares_the_artifact_not_the_cache_entry
    (state code model_type : string) (p p1 : process) (model : Model) :
  ModelPredictor.state_mapping !! state = Some code ->
  model_type <> "LSTM" ->
  model_cache p !! cache_key code model_type = None ->
  ModelPredictor._load_model state model_type p = (inr model, p1) ->
  let path := artifact_path (models_dir p) state model_type in
  artifact_path (models_dir p) code model_type = path
  /\ cache_key code model_type <> cache_key state model_type
  /\ model_cache p1 !! cache_key code model_type = None
  /\ exists r p2,
       ModelPredictor._load_model code model_type p1 = (r, p2)
       /\ trace p2 = (trace p1 ++ [Ev_exists path; Ev_load path])%list.
Proof.
  intros Hmap Hlstm Hmiss Hload path. subst path.
  pose proof (alias_path (models_dir p) _ _ model_type Hmap) as Hpath.
  pose proof (alias_key_differs _ _ model_type Hmap) as Hkey.
  split; [exact Hpath |]. split; [exact Hkey |].
  apply String.eqb_neq in Hlstm.
  destruct (load_model_frame _ _ _ _ _ Hload) as (Hs & Hd & _).
  assert (Hfile : exists file,
            storage p !! artifact_path (models_dir p) state model_type
            = Some file).
  { rewrite load_model_eq in Hload.
    destruct (storage p !! _) as [file |]; [now exists file | discriminate]. }
  destruct Hfile as [file Hfile].
  assert (Hmiss1 : model_cache p1 !! cache_key code model_type = None).
  { rewrite load_model_eq in Hload. rewrite Hfile in Hload.
    destruct (model_cache p !! cache_key state model_type).
    - inversion Hload; subst. exact Hmiss.
    - rewrite Hlstm in Hload. destruct file; [| discriminate].
      inversion Hload; subst.
      rewrite model_cache_set. rewrite lookup_insert_ne by congruence.
      exact Hmiss. }
  split; [exact Hmiss1 |].
  rewrite load_model_eq. rewrite Hd, Hs, Hpath, Hfile, Hmiss1, Hlstm.
  destruct file; eexists; eexists; (split; [reflexivity |]);
    rewrite ?trace_set_model_cache, !trace_log, <- app_assoc; reflexivity.
Qed.

(** X16 at the sample: Madhya Pradesh. *)
Lemma alias_witness :
  exists p1,
    ModelPredictor._load_model "Madhya Pradesh (MP)" "XGBoost"
      (sample_process mp_store) = (inr Opaque, p1)
    /\ model_cache p1 !! "MP_XGBoost" = None
    /\ exists r p2,
         ModelPredictor._load_model "MP" "XGBoost" p1 = (r, p2)
         /\ trace p2
            = (trace p1 ++ [Ev_exists "models/MP_xgboost_model.joblib";
                            Ev_load "models/MP_xgboost_model.joblib"])%list.
Proof.
  assert (Hload : exists p1,
            ModelPredictor._load_model "Madhya Pradesh (MP)" "XGBoost"
              (sample_process mp_store) = (inr Opaque, p1)).
  { eexists. rewrite load_model_eq. vm_compute. reflexivity. }
  destruct Hload as [p1 Hload]. exists p1. split; [exact Hload |].
  destruct (alias_shares_the_artifact_not_the_cache_entry
              "Madhya Pradesh (MP)" "MP" "XGBoost" (sample_process mp_store)
              p1 Opaque
              ltac:(vm_compute; reflexivity) ltac:(discriminate)
              ltac:(vm_compute; reflexivity) Hload)
    as (_ & _ & Hmiss & Hsecond).
  split; [exact Hmiss | exact Hsecond].
Defined.

(** X17. The keys of the cache do not collide for the four families:
    two requests with the same key [state_family] have the same region
    name and the same family. (For arbitrary strings they can collide,
    as the keys of [A_B], [C] and of [A], [B_C] do.) *)
Theorem cache_keys_of_the_families_do_not_collide
    (state1 state2 family1 family2 : string) :
  In family1 families -> In family2 families ->
  cache_key state1 family1 = cache_key state2 family2 ->
  state1 = state2 /\ family1 = family2.
Proof.
  intros H1 H2 Hkey. unfold cache_key in Hkey.
  assert (Hcases : forall s1 s2 a b : string,
            In a families -> In b families ->
            (String.length s2 <= String.length s1)%nat ->
            s1 ++ "_" ++ a = s2 ++ "_" ++ b -> s1 = s2 /\ a = b).
  { intros s1 s2 a b Ha Hb Hlen H.
    destruct (append_split _ _ _ _ H Hlen) as (c & -> & Hc).
    unfold families in Ha, Hb. simpl in Ha, Hb.
    assert (c = EmptyString /\ a = b) as [-> ->].
    { destruct Ha as [<- | [<- | [<- | [<- | []]]]];
        destruct Hb as [<- | [<- | [<- | [<- | []]]]];
        repeat (destruct c as [| ? c]; simpl in Hc; try discriminate Hc;
                try (injection Hc as ? Hc; subst));
        try (split; reflexivity); try discriminate. }
    split; [apply append_empty_r | reflexivity]. }
  destruct (Nat.le_ge_cases (String.length state2) (String.length state1))
    as [Hlen | Hlen].
  - exact (Hcases _ _ _ _ H1 H2 Hlen Hkey).
  - destruct (Hcases _ _ _ _ H2 H1 Hlen (eq_sym Hkey)) as [-> ->].
    split; reflexivity.
Qed.

Lemma cache_keys_witness :
  In "ARIMA" families /\ In "ARIMA" families
  /\ cache_key "Goa" "ARIMA" = cache_key "Goa" "ARIMA"
  /\ "Goa" = "Goa".
Proof.
  assert (H : In "ARIMA" families) by (unfold families; simpl; tauto).
  split; [exact H |]. split; [exact H |]. split; [reflexivity |].
  exact (proj1 (cache_keys_of_the_families_do_not_collide "Goa" "Goa"
                  "ARIMA" "ARIMA" H H eq_refl)).
Defined.

Example cache_keys_of_arbitrary_strings_collide :
  cache_key "A_B" "C" = cache_key "A" "B_C".
Proof. reflexivity. Qed.

(** ** The calendar features *)

Lemma day_of_year_table (leapyear : bool) :
  forallb (day_of_year_checked leapyear) (seq 0 366) = true.
Proof. destruct leapyear; vm_compute; reflexivity. Qed.

Lemma month_day_inverse (leapyear : bool) (k : Z) :
  0 <= k < 365 + (if leapyear then 1 else 0) ->
  Calendar._DAYS_BEFORE_MONTH (fst (month_day k leapyear))
  + (if (2 <? fst (month_day k leapyear)) && leapyear then 1 else 0)
  + snd (month_day k leapyear) = k + 1.
Proof.
  intros Hk.
  assert (H : day_of_year_checked leapyear (Z.to_nat k) = true).
  { apply (proj1 (forallb_forall _ _) (day_of_year_table leapyear)).
    apply in_seq. destruct leapyear; lia. }
  unfold day_of_year_checked in H. cbv zeta in H.
  rewrite Z2Nat.id in H by lia.
  apply orb_true_iff in H. destruct H as [H | H].
  - apply negb_true_iff, Z.ltb_ge in H. lia.
  - apply Z.eqb_eq in H. exact H.
Qed.

(** The day of the year is the position in the year that [_ord2ymd]
    finds. *)
Lemma tm_yday_spec (d : Calendar.datetime) :
  1 <= Calendar.toordinal d ->
  Calendar.tm_yday d = snd (fst (year_day (Calendar.toordinal d))) + 1
  /\ Calendar.toordinal d
     = Calendar._days_before_year (Calendar.year d) + Calendar.tm_yday d
  /\ 1 <= Calendar.tm_yday d <= 366.
Proof.
  intros Hn.
  pose proof (year_day_spec _ Hn) as Hs. cbv zeta in Hs.
  destruct Hs as (He & Hk & Hy).
  pose proof (year_day_leap _ Hn) as Hl.
  assert (Ht : Calendar.tm_yday d
               = snd (fst (year_day (Calendar.toordinal d))) + 1).
  { unfold Calendar.tm_yday, Calendar._days_before_month, Calendar.year,
      Calendar.month, Calendar.day.
    rewrite ord2ymd_year_day. cbn [fst snd]. rewrite <- Hl.
    apply month_day_inverse. exact Hk. }
  split; [exact Ht |]. split.
  - unfold Calendar.year. rewrite ord2ymd_year_day. cbn [fst snd]. lia.
  - destruct (snd (year_day (Calendar.toordinal d))); lia.
Qed.

(** The ordinal is the one of the year, the month and the day. *)
Lemma ymd2ord_ord2ymd (d : Calendar.datetime) :
  1 <= Calendar.toordinal d ->
  Calendar._ymd2ord (Calendar.year d) (Calendar.month d) (Calendar.day d)
  = Calendar.toordinal d.
Proof.
  intros Hn. destruct (tm_yday_spec d Hn) as (_ & H & _).
  unfold Calendar._ymd2ord. unfold Calendar.tm_yday in H. lia.
Qed.

Lemma january_first_ordinal (y : Z) :
  Calendar._ymd2ord y 1 1 = Calendar._days_before_year y + 1.
Proof.
  unfold Calendar._ymd2ord, Calendar._days_before_month.
  change (Calendar._DAYS_BEFORE_MONTH 1) with 0.
  change (2 <? 1) with false. cbn [andb]. lia.
Qed.

Lemma days_since_january_first (d : Calendar.datetime) :
  1 <= Calendar.toordinal d ->
  0 <= Calendar.microsecond_of_day d < Calendar.US_PER_DAY ->
  Calendar.sub_days d (Calendar.january_first (Calendar.year d))
  = Calendar.tm_yday d - 1.
Proof.
  intros Hn Hus. destruct (tm_yday_spec d Hn) as (_ & H & _).
  unfold Calendar.sub_days, Calendar.january_first.
  cbn [Calendar.toordinal Calendar.microsecond_of_day].
  rewrite january_first_ordinal.
  unfold Calendar.US_PER_DAY in *.
  replace (Calendar.toordinal d - (Calendar._days_before_year (Calendar.year d) + 1))
    with (Calendar.tm_yday d - 1) by lia.
  generalize (Calendar.tm_yday d - 1). intros t.
  Z.div_mod_to_equations. lia.
Qed.

Lemma isoweek1monday_spec (y : Z) :
  Calendar._days_before_year y - 2 <= Calendar._isoweek1monday y
  <= Calendar._days_before_year y + 4
  /\ (Calendar._isoweek1monday y + 6) mod 7 = 0.
Proof.
  unfold Calendar._isoweek1monday. cbv zeta.
  rewrite january_first_ordinal.
  generalize (Calendar._days_before_year y). intros b.
  destruct (Z.ltb_spec 3 ((b + 1 + 6) mod 7)); Z.div_mod_to_equations; lia.
Qed.

(** The ISO weekday is the weekday counted from 1, and the ISO week is
    between 1 and 53. *)
Lemma isocalendar_spec (d : Calendar.datetime) :
  1 <= Calendar.toordinal d ->
  snd (Calendar.isocalendar d) = Calendar.weekday d + 1
  /\ 1 <= snd (fst (Calendar.isocalendar d)) <= 53.
Proof.
  intros Hn. destruct (tm_yday_spec d Hn) as (_ & He & Hk).
  assert (Hlast : Calendar.tm_yday d
                  <= 365 + (if Calendar._is_leap (Calendar.year d)
                            then 1 else 0)).
  { pose proof (year_day_spec _ Hn) as Hs. cbv zeta in Hs.
    destruct Hs as (_ & Hk' & _).
    pose proof (year_day_leap _ Hn) as Hl.
    destruct (tm_yday_spec d Hn) as (Ht & _).
    unfold Calendar.year. rewrite ord2ymd_year_day. cbn [fst snd].
    rewrite <- Hl. lia. }
  unfold Calendar.isocalendar, Calendar.weekday. cbv zeta.
  pose proof (isoweek1monday_spec (Calendar.year d)) as [Hw Hm].
  pose proof (isoweek1monday_spec (Calendar.year d - 1)) as [Hw' Hm'].
  pose proof (isoweek1monday_spec (Calendar.year d + 1)) as [Hw'' Hm''].
  pose proof (days_before_year_succ (Calendar.year d)) as Hnext.
  pose proof (days_before_year_succ (Calendar.year d - 1)) as Hprev.
  replace (Calendar.year d - 1 + 1) with (Calendar.year d) in Hprev by lia.
  revert He Hk Hlast Hw Hm Hw' Hm' Hw'' Hm'' Hnext Hprev.
  generalize (Calendar._isoweek1monday (Calendar.year d)).
  generalize (Calendar._isoweek1monday (Calendar.year d - 1)).
  generalize (Calendar._isoweek1monday (Calendar.year d + 1)).
  generalize (Calendar._days_before_year (Calendar.year d)).
  generalize (Calendar._days_before_year (Calendar.year d - 1)).
  generalize (Calendar._days_before_year (Calendar.year d + 1)).
  generalize (Calendar.tm_yday d). generalize (Calendar.toordinal d).
  intros n k b2 b0 b1 w2 w0 w1 He Hk Hlast Hw Hm Hw' Hm' Hw'' Hm'' Hnext Hprev.
  assert (Hl1 : 0 <= (if Calendar._is_leap (Calendar.year d) then 1 else 0)
                <= 1)
    by (destruct (Calendar._is_leap (Calendar.year d)); lia).
  assert (Hl0 : 0 <= (if Calendar._is_leap (Calendar.year d - 1) then 1 else 0)
                <= 1)
    by (destruct (Calendar._is_leap (Calendar.year d - 1)); lia).
  revert Hlast Hnext Hprev Hl1 Hl0.
  generalize (if Calendar._is_leap (Calendar.year d) then 1 else 0).
  generalize (if Calendar._is_leap (Calendar.year d - 1) then 1 else 0).
  intros l0 l1 Hlast Hnext Hprev Hl1 Hl0.
  destruct (Z.ltb_spec ((n - w1) / 7) 0) as [Hneg | Hpos]; cbn [fst snd].
  - split; Z.div_mod_to_equations; lia.
  - destruct (Z.leb_spec 52 ((n - w1) / 7)) as [H52 | H52];
      destruct (Z.leb_spec w2 n) as [Hnx | Hnx]; cbn [andb fst snd];
      (split; Z.div_mod_to_equations; lia).
Qed.

Section Features.
Context (E : env).

(** X18. The features of a valid date. The advanced predictor passes the
    12 features of [ModelPredictor] followed by three more; the family is
    not among them. Of the three, the ISO week lies between 1 and 53, and
    the other two repeat earlier features: the ISO weekday is the weekday
    plus one, the number of days since the start of the year is the day
    of the year minus one. The day of the year lies between 1 and 366,
    the weekday between 0 and 6, the bucket of the region between 0 and
    999, and each (sine, cosine) pair lies on the unit circle. *)
Theorem advanced_features_extend_the_basic_ones (state : string)
    (lat lon : R) (prediction_date model_type : string)
    (target : Calendar.datetime) (p : process) :
  strptime E prediction_date "%Y-%m-%d" = inr target ->
  1 <= Calendar.toordinal target ->
  0 <= Calendar.microsecond_of_day target < Calendar.US_PER_DAY ->
  exists (f : list R) (week : Z),
    ModelPredictor._prepare_features E state lat lon prediction_date
      model_type p = (inr [f], p)
    /\ length f = 12%nat
    /\ AdvancedModelPredictor._prepare_features E state lat lon
         prediction_date model_type p
       = (inr [(f ++ [IZR week; IZR (Calendar.weekday target + 1);
                      IZR (Calendar.tm_yday target - 1)])%list], p)
    /\ 1 <= week <= 53
    /\ 0 <= Calendar.weekday target <= 6
    /\ 1 <= Calendar.tm_yday target <= 366
    /\ nth 3 f 0%R = IZR (Calendar.weekday target)
    /\ nth 4 f 0%R = IZR (Calendar.tm_yday target)
    /\ (nth 7 f 0 * nth 7 f 0 + nth 8 f 0 * nth 8 f 0 = 1)%R
    /\ (nth 9 f 0 * nth 9 f 0 + nth 10 f 0 * nth 10 f 0 = 1)%R
    /\ (0 <= nth 11 f 0 <= 999)%R.
Proof.
  intros Htarget Hn Hus.
  destruct (isocalendar_spec target Hn) as [Hday Hweek].
  destruct (tm_yday_spec target Hn) as (_ & _ & Hyday).
  pose proof (days_since_january_first target Hn Hus) as Hsince.
  eexists. exists (snd (fst (Calendar.isocalendar target))).
  unfold ModelPredictor._prepare_features,
    AdvancedModelPredictor._prepare_features.
  unfold bind, datetime_strptime, lift, ret. rewrite Htarget.
  cbv zeta. rewrite Hday, Hsince.
  split; [reflexivity |]. split; [reflexivity |].
  split; [reflexivity |]. split; [exact Hweek |].
  split; [unfold Calendar.weekday; Z.div_mod_to_equations; lia |].
  split; [exact Hyday |].
  split; [reflexivity |]. split; [reflexivity |].
  cbn [app nth].
  split; [| split].
  - pose proof (sin2_cos2 (2 * PI * IZR (Calendar.tm_yday target) / 365.25))
      as H. unfold Rsqr in H. exact H.
  - pose proof (sin2_cos2 (2 * PI * IZR (Calendar.month target) / 12)) as H.
    unfold Rsqr in H. exact H.
  - pose proof (Z.mod_pos_bound (py_hash E state) 1000 ltac:(lia)) as H.
    split; apply IZR_le; lia.
Qed.

End Features.

(** X18 at the sample: 2024-12-01, a Sunday, day 336 of the year. *)
Lemma advanced_features_witness :
  exists (f : list R) (week : Z),
    ModelPredictor._prepare_features (sample_env true) "Goa" 15 74
      "2024-12-01" "XGBoost" (sample_process []) = (inr [f], sample_process [])
    /\ AdvancedModelPredictor._prepare_features (sample_env true) "Goa" 15 74
         "2024-12-01" "XGBoost" (sample_process [])
       = (inr [(f ++ [IZR week; IZR 7; IZR 335])%list], sample_process [])
    /\ 1 <= week <= 53.
Proof.
  destruct (advanced_features_extend_the_basic_ones (sample_env true) "Goa"
              15 74 "2024-12-01" "XGBoost" (Calendar.mkDatetime 739221 0)
              (sample_process []) eq_refl
              ltac:(vm_compute; discriminate)
              ltac:(vm_compute; split; [discriminate | reflexivity]))
    as (f & week & Hf & _ & Ha & Hweek & _).
  exists f, week. split; [exact Hf |]. split; [| exact Hweek].
  exact Ha.
Defined.
